(** * OSRSFlipper: the opportunity pipeline of [osrs_flipper.py]

    A shallow embedding of the scoring and filtering code of the
    [OSRSFlipper] class, and the properties of it that the specification
    states.

    Number model.  Python [int] is [Z].  Python [float] is [R]: every
    float operation is taken at its exact real value, so the development
    speaks about the formulas the code computes and not about binary64
    rounding.  Decimal literals ([0.01], [1.05], ...) are the rationals they
    denote.  Comparisons of floats become booleans through the decision
    procedures of [R].

    Range.  The exact value and the binary64 value of a formula can fall on
    different sides of a test or of an integer, and a conversion of an
    integer beyond the range of binary64 raises an [OverflowError] that
    the model does not have.  A statement that fixes an integer result, a
    verdict or an exception of the code therefore carries, as a
    hypothesis, a range of inputs on which the two values agree; the
    ranges are collected in [Spec], with the reason for each.

    Errors.  Code that can raise runs in the [Py.result] monad; the only
    exceptions the modelled code can reach are listed in [Py.exn]. *)

From Stdlib Require Import ZArith Reals Zfloor Lra Lia List Bool.
From Stdlib Require Import Permutation Sorted.
From Equations Require Import Equations.
From stdpp Require Import gmap strings pretty.
Import ListNotations.

Open Scope Z_scope.

(* ================================================================== *)
(** * Python primitives *)
(* ================================================================== *)

Module Py.

(** Exceptions that escape the modelled functions.  [ComplexValue] is not
    an exception of Python: [x ** 1.5] with a negative float [x] evaluates
    to a complex number, and the real-valued model stops there. *)
Inductive exn : Type :=
| ZeroDivisionError
| IndexError
| TypeError
| ComplexValue.

Inductive result (A : Type) : Type :=
| Ok (a : A)
| Raise (e : exn).

Arguments Ok {A} a.
Arguments Raise {A} e.

Definition bind {A B : Type} (m : result A) (k : A -> result B) : result B :=
  match m with
  | Ok a => k a
  | Raise e => Raise e
  end.

(** Float comparisons [x < y], [x <= y], [x == y]. *)
Definition ltb (x y : R) : bool := if Rlt_dec x y then true else false.
Definition leb (x y : R) : bool := if Rle_dec x y then true else false.
Definition eqb (x y : R) : bool := if Req_dec_T x y then true else false.

(** [int(x)] on a float: truncation toward zero. *)
Definition int (x : R) : Z := if Rle_dec 0 x then Zfloor x else Zceil x.

(** [x / y]: true division, raising on a zero divisor. *)
Definition truediv (x y : R) : result R :=
  if Req_dec_T y 0 then Raise ZeroDivisionError else Ok (x / y)%R.

(** [x ** y] for a float base and a positive, non-integer float exponent
    (the code uses [1.5] and [0.5]). *)
Definition pow (x y : R) : result R :=
  if Rlt_dec x 0 then Raise ComplexValue
  else if Req_dec_T x 0 then Ok 0%R
  else Ok (Rpower x y).

(** A numeric field of a JSON object: the key may be missing, or present
    with value [null], or present with an integer. *)
Inductive field : Type :=
| Missing
| Null
| Num (z : Z).

(** [d.get(k)]: [None] when the key is missing or null. *)
Definition get (f : field) : option Z :=
  match f with
  | Num z => Some z
  | _ => None
  end.

(** [d.get(k, 0)]: the default replaces a missing key only. *)
Definition get0 (f : field) : option Z :=
  match f with
  | Missing => Some 0
  | Null => None
  | Num z => Some z
  end.

(** Truth value of an optional integer: [None] and [0] are false. *)
Definition truthy (o : option Z) : bool :=
  match o with
  | Some z => negb (z =? 0)
  | None => false
  end.

(** [xs[i]] for a non-negative index. *)
Definition index {A : Type} (xs : list A) (i : Z) : result A :=
  match nth_error xs (Z.to_nat i) with
  | Some a => Ok a
  | None => Raise IndexError
  end.

(** [xs[a:b]], [xs[:b]] and [xs[a:]] for non-negative bounds; a slice
    never raises, it is cut at the end of the list. *)
Definition slice {A : Type} (xs : list A) (a b : Z) : list A :=
  take (Z.to_nat b - Z.to_nat a) (drop (Z.to_nat a) xs).
Definition slice_to {A : Type} (xs : list A) (b : Z) : list A :=
  take (Z.to_nat b) xs.
Definition slice_from {A : Type} (xs : list A) (a : Z) : list A :=
  drop (Z.to_nat a) xs.

Definition len {A : Type} (xs : list A) : Z := Z.of_nat (length xs).

(** [sum(xs)] over integers and over floats. *)
Definition sum (xs : list Z) : Z := fold_left Z.add xs 0.
Definition fsum (xs : list R) : R := fold_left Rplus xs 0%R.

(** [xs.sort()] on integers: insertion into an ascending list. *)
Fixpoint insert (x : Z) (xs : list Z) : list Z :=
  match xs with
  | [] => [x]
  | y :: ys => if x <=? y then x :: xs else y :: insert x ys
  end.
Definition sort (xs : list Z) : list Z := fold_right insert [] xs.

(** [str(n)] on an integer: its decimal digits, with a sign when
    negative. *)
Definition str (n : Z) : string := pretty n.

(** [d.get(k, default)]: the default replaces a missing key only. *)
Definition get_or (f : field) (default : Z) : option Z :=
  match f with
  | Missing => Some default
  | Null => None
  | Num z => Some z
  end.

End Py.

Import Py.

Declare Scope py_scope.
Notation "'let*' x ':=' m 'in' k" := (Py.bind m (fun x => k))
  (at level 10, x name, m at level 100, k at level 200, only parsing)
  : py_scope.
Open Scope py_scope.

(* ================================================================== *)
(** * The class [OSRSFlipper] *)
(* ================================================================== *)

Module OSRSFlipper.

(** ** Tax, conversion cost, capital *)

(** [_calculate_ge_tax], lines 51-55. *)
Definition _calculate_ge_tax (sell_price : Z) : Z :=
  if sell_price <=? 100 then 0
  else Py.int (IZR sell_price * 0.01).

(** [_calculate_bond_conversion_cost], lines 57-59. *)
Definition _calculate_bond_conversion_cost (price : Z) : Z :=
  Py.int (IZR price * 0.10).

(** [_calculate_required_capital], lines 257-266. *)
Definition _calculate_required_capital
    (buy_price buy_limit ge_tax bond_conversion_cost : Z) : Z :=
  let buy_cost := buy_price * buy_limit in
  let total_cost := buy_cost + ge_tax + bond_conversion_cost in
  Py.int (IZR total_cost * 1.05).

(** [_calculate_expected_capital_after_flip], lines 268-277. *)
Definition _calculate_expected_capital_after_flip
    (required_capital margin buy_limit : Z) (low_volume_per_period : R) : Z :=
  let achievable_items := Z.min buy_limit (Py.int low_volume_per_period) in
  let profit := margin * achievable_items in
  required_capital + profit.

(** ** The score, lines 61-115 *)

Definition _calculate_opportunity_score
    (margin_percentage : R) (high_volume low_volume price buy_limit
     reset_time : Z) : result R :=
  let profit_per_trade := (IZR price * (margin_percentage / 100))%R in
  if Py.ltb profit_per_trade 100 then Ok 0%R
  else
    let* periods_per_day := Py.truediv 86400 (IZR reset_time) in
    let* high_volume_per_period :=
      Py.truediv (IZR high_volume) periods_per_day in
    let* low_volume_per_period :=
      Py.truediv (IZR low_volume) periods_per_day in
    let potential_profit_per_day :=
      (profit_per_trade * IZR buy_limit * periods_per_day)%R in
    let min_volume := Z.min high_volume low_volume in
    let max_possible_trades_per_day := (IZR buy_limit * periods_per_day)%R in
    let* potential_profit_per_day :=
      (if Py.ltb (IZR min_volume) max_possible_trades_per_day then
         let* volume_factor :=
           Py.truediv (IZR min_volume) max_possible_trades_per_day in
         let* volume_factor := Py.pow volume_factor 1.5 in
         Ok (potential_profit_per_day * volume_factor)%R
       else Ok potential_profit_per_day) in
    let* potential_profit_per_day :=
      (if Py.ltb low_volume_per_period (IZR buy_limit) then
         let* buy_limit_factor :=
           Py.truediv low_volume_per_period (IZR buy_limit) in
         let* penalty := Py.pow buy_limit_factor 1.5 in
         Ok (potential_profit_per_day * penalty)%R
       else Ok potential_profit_per_day) in
    let profit_multiplier :=
      if Py.ltb 1000000 profit_per_trade then 2.0%R
      else if Py.ltb 500000 profit_per_trade then 1.7%R
      else if Py.ltb 100000 profit_per_trade then 1.4%R
      else 1.0%R in
    let* buy_limit_multiplier :=
      (let* q := Py.truediv (IZR buy_limit) 5000 in Ok (1.0 + q)%R) in
    let* volume_ratio :=
      Py.truediv (Rmin high_volume_per_period low_volume_per_period)
                 (IZR buy_limit) in
    let volume_multiplier := (1.0 + Rmin volume_ratio 2.0)%R in
    Ok (potential_profit_per_day * profit_multiplier
        * buy_limit_multiplier * volume_multiplier)%R.

(** ** Records of the price API *)

(** An entry of [/latest]. *)
Module Latest.
Record t : Type := Build { high : Py.field; low : Py.field }.
End Latest.

(** An entry of [/24h], and a point of a [/timeseries] reply: the same four
    keys. *)
Module Point.
Record t : Type := Build {
  avgHighPrice : Py.field;
  avgLowPrice : Py.field;
  highPriceVolume : Py.field;
  lowPriceVolume : Py.field }.
End Point.

(** A value of [self.item_names], lines 33-37. *)
Module Info.
Record t : Type := Build {
  name : string;
  buy_limit : option Z;
  reset_time : Z }.
End Info.

(** What one [requests.get] on [/timeseries] does: it raises a
    [RequestException] (also through [raise_for_status]), or it returns a
    JSON object whose ['data'] key is missing or null ([None]) or holds a
    list of points. *)
Inductive response : Type :=
| RequestException
| Json (data : option (list Point.t)).

(** ** Historical statistics, lines 154-240 *)

(** The dictionary stored in [results[item_id]], lines 218-234. *)
Module Hist.
Record t : Type := Build {
  avg_high : R;
  avg_low : R;
  high_std : R;
  low_std : R;
  high_5th : Z;
  high_95th : Z;
  low_5th : Z;
  low_95th : Z;
  avg_high_5th : R;
  avg_low_5th : R;
  avg_high_95th : R;
  avg_low_95th : R;
  avg_high_volume : R;
  avg_low_volume : R;
  data_points : Z }.
End Hist.

(** [[p.get(k, 0) for p in item_data if p.get(k)]], lines 179-180 and
    212-213. *)
Definition present (k : Point.t -> Py.field) (item_data : list Point.t)
    : list Z :=
  omap (fun p => if Py.truthy (Py.get (k p)) then Py.get0 (k p) else None)
       item_data.

(** Lines 178-234: the statistics of one series.  [None] is the [continue]
    of line 183. *)
Definition series_statistics (item_data : list Point.t)
    : result (option Hist.t) :=
  let high_prices := present Point.avgHighPrice item_data in
  let low_prices := present Point.avgLowPrice item_data in
  if bool_decide (high_prices = []) || bool_decide (low_prices = [])
  then Ok None
  else
    let high_prices := Py.sort high_prices in
    let low_prices := Py.sort low_prices in
    let h05 := Py.int (IZR (Py.len high_prices) * 0.05) in
    let h95 := Py.int (IZR (Py.len high_prices) * 0.95) in
    let l05 := Py.int (IZR (Py.len low_prices) * 0.05) in
    let l95 := Py.int (IZR (Py.len low_prices) * 0.95) in
    let* high_5th := Py.index high_prices h05 in
    let* high_95th := Py.index high_prices h95 in
    let* low_5th := Py.index low_prices l05 in
    let* low_95th := Py.index low_prices l95 in
    let* avg_low_5th :=
      Py.truediv (IZR (Py.sum (Py.slice_to low_prices l05))) (IZR l05) in
    let* avg_high_5th :=
      Py.truediv (IZR (Py.sum (Py.slice_to high_prices h05))) (IZR h05) in
    let* avg_low_95th :=
      Py.truediv (IZR (Py.sum (Py.slice_from low_prices l95)))
                 (IZR (Py.len low_prices - l95)) in
    let* avg_high_95th :=
      Py.truediv (IZR (Py.sum (Py.slice_from high_prices h95)))
                 (IZR (Py.len high_prices - h95)) in
    let* avg_high :=
      Py.truediv (IZR (Py.sum (Py.slice high_prices h05 h95)))
                 (IZR (Py.len high_prices) * 0.9) in
    let* avg_low :=
      Py.truediv (IZR (Py.sum (Py.slice low_prices l05 l95)))
                 (IZR (Py.len low_prices) * 0.9) in
    let* high_var :=
      Py.truediv
        (Py.fsum (map (fun x => (IZR x - avg_high) ^ 2)%R
                      (Py.slice high_prices h05 h95)))
        (IZR (Py.len high_prices) * 0.9) in
    let* high_std := Py.pow high_var 0.5 in
    let* low_var :=
      Py.truediv
        (Py.fsum (map (fun x => (IZR x - avg_low) ^ 2)%R
                      (Py.slice low_prices l05 l95)))
        (IZR (Py.len low_prices) * 0.9) in
    let* low_std := Py.pow low_var 0.5 in
    let high_volumes := present Point.highPriceVolume item_data in
    let low_volumes := present Point.lowPriceVolume item_data in
    let* avg_high_volume :=
      (if bool_decide (high_volumes = []) then Ok 0%R
       else Py.truediv (IZR (Py.sum high_volumes))
                       (IZR (Py.len high_volumes))) in
    let* avg_low_volume :=
      (if bool_decide (low_volumes = []) then Ok 0%R
       else Py.truediv (IZR (Py.sum low_volumes))
                       (IZR (Py.len low_volumes))) in
    Ok (Some (Hist.Build avg_high avg_low high_std low_std
                high_5th high_95th low_5th low_95th
                avg_high_5th avg_low_5th avg_high_95th avg_low_95th
                avg_high_volume avg_low_volume (Py.len item_data))).

(** Lines 159-238: the body of the loop for one [item_id]; [None] is one of
    the three [continue]s or the handled [RequestException]. *)
Definition item_statistics (reply : response) : result (option Hist.t) :=
  match reply with
  | RequestException => Ok None
  | Json None => Ok None
  | Json (Some []) => Ok None
  | Json (Some item_data) => series_statistics item_data
  end.

(** The loop of lines 158-238 over [item_ids], filling [results]. *)
Fixpoint get_7d_prices_from (timeseries : string -> response)
    (item_ids : list string) (results : gmap string Hist.t)
    : result (gmap string Hist.t) :=
  match item_ids with
  | [] => Ok results
  | item_id :: rest =>
      let* found := item_statistics (timeseries item_id) in
      match found with
      | Some h => get_7d_prices_from timeseries rest (<[item_id := h]> results)
      | None => get_7d_prices_from timeseries rest results
      end
  end.

(** [get_7d_prices], lines 154-240. *)
Definition get_7d_prices (timeseries : string -> response)
    (item_ids : list string) : result (gmap string Hist.t) :=
  get_7d_prices_from timeseries item_ids ∅.

(** ** The consistency check, lines 242-255 *)

Definition _is_price_consistent (current_high current_low : Z)
    (historical_data : option Hist.t) : bool :=
  match historical_data with
  | None => false
  | Some h =>
      let high_within_range :=
        Py.leb (Rabs (IZR current_high - Hist.avg_high h))
               (2 * Hist.high_std h) in
      let low_within_range :=
        Py.leb (Rabs (IZR current_low - Hist.avg_low h))
               (2 * Hist.low_std h) in
      let high_within_percentile :=
        (Hist.high_5th h <=? current_high)
        && (current_high <=? Hist.high_95th h) in
      let low_within_percentile :=
        (Hist.low_5th h <=? current_low)
        && (current_low <=? Hist.low_95th h) in
      high_within_range && low_within_range
      && high_within_percentile && low_within_percentile
  end.

(** ** The first pass of [analyze_flipping_opportunities], lines 300-411 *)

(** The dictionary appended to [opportunities], lines 391-411, with the
    three keys added later: [weekly_avg_high] and [weekly_avg_low] (lines
    434-435) and [score] (line 555). *)
Module Opp.
Record t : Type := Build {
  item_id : string;
  name : string;
  buy_limit : Z;
  reset_time : Z;
  buy_price : Z;
  sell_price : Z;
  ge_tax : Z;
  bond_conversion_cost : Z;
  daily_avg_high : Z;
  daily_avg_low : Z;
  high_volume : Z;
  low_volume : Z;
  margin : Z;
  margin_percentage : R;
  profit_per_window : Z;
  achievable_items : Z;
  required_capital : Z;
  expected_capital : Z;
  raw_score : R;
  weekly_avg_high : option R;
  weekly_avg_low : option R;
  score : option R }.

(** [opp['weekly_avg_high'] = wh; opp['weekly_avg_low'] = wl]. *)
Definition set_weekly (wh wl : R) (o : t) : t :=
  Build (item_id o) (name o) (buy_limit o) (reset_time o) (buy_price o)
    (sell_price o) (ge_tax o) (bond_conversion_cost o) (daily_avg_high o)
    (daily_avg_low o) (high_volume o) (low_volume o) (margin o)
    (margin_percentage o) (profit_per_window o) (achievable_items o)
    (required_capital o) (expected_capital o) (raw_score o)
    (Some wh) (Some wl) (score o).

(** [opp['score'] = s]. *)
Definition set_score (s : R) (o : t) : t :=
  Build (item_id o) (name o) (buy_limit o) (reset_time o) (buy_price o)
    (sell_price o) (ge_tax o) (bond_conversion_cost o) (daily_avg_high o)
    (daily_avg_low o) (high_volume o) (low_volume o) (margin o)
    (margin_percentage o) (profit_per_window o) (achievable_items o)
    (required_capital o) (expected_capital o) (raw_score o)
    (weekly_avg_high o) (weekly_avg_low o) (Some s).
End Opp.

(** The counter that one item of the first pass increments, named after
    the local variables of lines 291-297, or the opportunity it appends. *)
Inductive verdict : Type :=
| skipped_items
| unrealistic_price_items
| low_volume_items
| low_margin_items
| missing_buy_limit_items
| insufficient_cash_items
| low_profit_items
| append (o : Opp.t).

(** The default of [self.item_names.get], line 353. *)
Definition unknown_item : Info.t := Info.Build "Unknown" None 14400.

(** Lines 301-411: the body of the loop for one [(item_id, data)]. *)
Definition first_pass_item
    (daily_prices : gmap string Point.t) (item_names : gmap string Info.t)
    (min_volume : Z) (min_margin : R) (available_cash : option Z)
    (item_id : string) (data : Latest.t) : result verdict :=
  match daily_prices !! item_id with
  | None => Ok skipped_items
  | Some daily_data =>
  match Py.get0 (Latest.high data), Py.get0 (Latest.low data) with
  | Some current_high, Some current_low =>
  if (current_high <=? 0) || (current_low <=? 0) then Ok skipped_items
  else
    let* current_spread :=
      Py.truediv (IZR (current_high - current_low)) (IZR current_low) in
    if Py.ltb 0.5 current_spread then Ok unrealistic_price_items
    else
  match Py.get0 (Point.avgHighPrice daily_data),
        Py.get0 (Point.avgLowPrice daily_data) with
  | Some daily_high, Some daily_low =>
  if (daily_high <=? 0) || (daily_low <=? 0) then Ok skipped_items
  else
  match Py.get0 (Point.highPriceVolume daily_data),
        Py.get0 (Point.lowPriceVolume daily_data) with
  | Some high_volume, Some low_volume =>
  if (high_volume <? min_volume) || (low_volume <? min_volume)
  then Ok low_volume_items
  else
    let ge_tax := _calculate_ge_tax current_high in
    let is_bond := bool_decide (item_id = "13190") in
    let bond_conversion_cost :=
      if is_bond then _calculate_bond_conversion_cost current_high else 0 in
    let margin := current_high - current_low - ge_tax - bond_conversion_cost in
    let* ratio := Py.truediv (IZR margin) (IZR current_low) in
    let margin_percentage := (ratio * 100)%R in
    if Py.ltb margin_percentage min_margin then Ok low_margin_items
    else
      let item_info := default unknown_item (item_names !! item_id) in
      let item_name := Info.name item_info in
      let reset_time := Info.reset_time item_info in
      match Info.buy_limit item_info with
      | None => Ok missing_buy_limit_items
      | Some buy_limit =>
          let required_capital :=
            _calculate_required_capital current_low buy_limit ge_tax
                                        bond_conversion_cost in
          if Py.truthy available_cash
             && (default 0 available_cash <? required_capital)
          then Ok insufficient_cash_items
          else
            let* periods_per_day := Py.truediv 86400 (IZR reset_time) in
            let* high_volume_per_period :=
              Py.truediv (IZR high_volume) periods_per_day in
            let* low_volume_per_period :=
              Py.truediv (IZR low_volume) periods_per_day in
            let achievable_items :=
              Z.min buy_limit (Py.int low_volume_per_period) in
            let achievable_profit := margin * achievable_items in
            let expected_capital :=
              _calculate_expected_capital_after_flip
                required_capital margin buy_limit low_volume_per_period in
            let* score :=
              _calculate_opportunity_score margin_percentage high_volume
                low_volume current_high buy_limit reset_time in
            if Py.eqb score 0 then Ok low_profit_items
            else
              Ok (append
                    (Opp.Build item_id item_name buy_limit reset_time
                       current_low current_high ge_tax bond_conversion_cost
                       daily_high daily_low high_volume low_volume margin
                       margin_percentage achievable_profit achievable_items
                       required_capital expected_capital score
                       None None None))
      end
  | _, _ => Ok low_volume_items
  end
  | _, _ => Ok skipped_items
  end
  | _, _ => Ok skipped_items
  end
  end.

(** The counters of lines 291-298. *)
Module Counters.
Record t : Type := Build {
  skipped : nat;
  low_volume : nat;
  low_margin : nat;
  unrealistic_price : nat;
  low_profit : nat;
  missing_buy_limit : nat;
  insufficient_cash : nat;
  inconsistent_price : nat }.

Definition zero : t := Build 0 0 0 0 0 0 0 0.

Definition add_inconsistent (n : nat) (c : t) : t :=
  Build (skipped c) (low_volume c) (low_margin c) (unrealistic_price c)
    (low_profit c) (missing_buy_limit c) (insufficient_cash c)
    (inconsistent_price c + n).
End Counters.

(** The effect of one verdict on [opportunities] and on the counters. *)
Definition record_verdict (v : verdict)
    (st : list Opp.t * Counters.t) : list Opp.t * Counters.t :=
  let (opportunities, c) := st in
  let 'Counters.Build sk lv lm up lp mb ic ip := c in
  match v with
  | skipped_items =>
      (opportunities, Counters.Build (sk + 1) lv lm up lp mb ic ip)
  | unrealistic_price_items =>
      (opportunities, Counters.Build sk lv lm (up + 1) lp mb ic ip)
  | low_volume_items =>
      (opportunities, Counters.Build sk (lv + 1) lm up lp mb ic ip)
  | low_margin_items =>
      (opportunities, Counters.Build sk lv (lm + 1) up lp mb ic ip)
  | missing_buy_limit_items =>
      (opportunities, Counters.Build sk lv lm up lp (mb + 1) ic ip)
  | insufficient_cash_items =>
      (opportunities, Counters.Build sk lv lm up lp mb (ic + 1) ip)
  | low_profit_items =>
      (opportunities, Counters.Build sk lv lm up (lp + 1) mb ic ip)
  | append o => (opportunities ++ [o], c)
  end.

(** The loop of lines 301-411 over [latest_prices.items()]. *)
Fixpoint first_pass
    (daily_prices : gmap string Point.t) (item_names : gmap string Info.t)
    (min_volume : Z) (min_margin : R) (available_cash : option Z)
    (items : list (string * Latest.t)) (st : list Opp.t * Counters.t)
    : result (list Opp.t * Counters.t) :=
  match items with
  | [] => Ok st
  | (item_id, data) :: rest =>
      let* v := first_pass_item daily_prices item_names min_volume
                  min_margin available_cash item_id data in
      first_pass daily_prices item_names min_volume min_margin
        available_cash rest (record_verdict v st)
  end.

(** ** Ranking, lines 413-414 *)

(** [opportunities.sort(key=raw_score, reverse=True)]: a stable sort in
    descending order; among equal scores the earlier element stays first. *)
Fixpoint insert_by_score (o : Opp.t) (sorted : list Opp.t) : list Opp.t :=
  match sorted with
  | [] => [o]
  | x :: rest =>
      if Py.ltb (Opp.raw_score o) (Opp.raw_score x)
      then x :: insert_by_score o rest
      else o :: sorted
  end.

Definition sort_by_score (opportunities : list Opp.t) : list Opp.t :=
  fold_right insert_by_score [] opportunities.

(** ** Consistency rounds, lines 416-549 *)

(** One [for opp in batch] loop: lines 426-459, 468-500 and, with the
    [break] of lines 546-547, lines 512-547.  It appends the consistent
    candidates to [filtered_opportunities] and counts the rejected ones.
    [historical['avg_high']] on an absent [historical] would raise a
    [TypeError]; the check before it excludes that. *)
Fixpoint consistency_pass (break_at_20 : bool)
    (historical_data : gmap string Hist.t) (batch : list Opp.t)
    (filtered_opportunities : list Opp.t) (rejected : nat)
    : result (list Opp.t * nat) :=
  match batch with
  | [] => Ok (filtered_opportunities, rejected)
  | opp :: rest =>
      let historical := historical_data !! Opp.item_id opp in
      if negb (_is_price_consistent (Opp.sell_price opp) (Opp.buy_price opp)
                 historical)
      then consistency_pass break_at_20 historical_data rest
             filtered_opportunities (rejected + 1)
      else
        match historical with
        | None => Raise TypeError
        | Some h =>
            let opp := Opp.set_weekly (Hist.avg_high h) (Hist.avg_low h) opp in
            let filtered_opportunities := filtered_opportunities ++ [opp] in
            if break_at_20 && bool_decide (20 <= length filtered_opportunities)%nat
            then Ok (filtered_opportunities, rejected)
            else consistency_pass break_at_20 historical_data rest
                   filtered_opportunities rejected
        end
  end.

(** The variables the rounds update, and the batches of ids passed to
    [get_7d_prices] so far (the requests sent to [/timeseries]). *)
Module Rounds.
Record t : Type := Build {
  filtered_opportunities : list Opp.t;
  filtered_count : nat;
  inconsistent_price_items : nat;
  requested : list (list string) }.
End Rounds.

(** The [while] loop of lines 503-549. *)
Equations? more_replacements (timeseries : string -> response)
    (opportunities : list Opp.t) (st : Rounds.t) : result Rounds.t
  by wf (length opportunities - (20 + Rounds.filtered_count st))%nat lt :=
  more_replacements timeseries opportunities st
    with decide (length (Rounds.filtered_opportunities st) < 20
                 /\ 20 + Rounds.filtered_count st < length opportunities)%nat
  => {
    | left _ =>
        let next_batch_start := (20 + Rounds.filtered_count st)%nat in
        let next_batch_end :=
          Nat.min (next_batch_start + 5) (length opportunities) in
        let next_batch :=
          take (next_batch_end - next_batch_start)
               (drop next_batch_start opportunities) in
        let next_batch_ids := map Opp.item_id next_batch in
        match get_7d_prices timeseries next_batch_ids with
        | Raise e => Raise e
        | Ok next_batch_data =>
            match consistency_pass true next_batch_data next_batch
                    (Rounds.filtered_opportunities st) 0 with
            | Raise e => Raise e
            | Ok (filtered_opportunities, rejected) =>
                more_replacements timeseries opportunities
                  (Rounds.Build filtered_opportunities
                     (Rounds.filtered_count st + length next_batch)
                     (Rounds.inconsistent_price_items st + rejected)
                     (Rounds.requested st ++ [next_batch_ids]))
            end
        end ;
    | right _ => Ok st }.
Proof.
  subst next_batch next_batch_end next_batch_start.
  destruct st as [fo fc ip rq].
  cbv beta iota delta [Rounds.filtered_count Rounds.filtered_opportunities] in *.
  rewrite length_take, length_drop. lia.
Qed.

(** Lines 416-549: the top 20, their replacements, and further batches. *)
Definition consistency_rounds (timeseries : string -> response)
    (opportunities : list Opp.t) : result Rounds.t :=
  let top_opportunities := take 20 opportunities in
  let item_ids := map Opp.item_id top_opportunities in
  let* historical_data := get_7d_prices timeseries item_ids in
  let* first := consistency_pass false historical_data top_opportunities [] 0 in
  let (filtered_opportunities, filtered_count) := first in
  let st := Rounds.Build filtered_opportunities filtered_count
              filtered_count [item_ids] in
  if bool_decide (0 < filtered_count)%nat then
    let replacement_opportunities :=
      take filtered_count (drop 20 opportunities) in
    let replacement_ids := map Opp.item_id replacement_opportunities in
    let* replacement_data := get_7d_prices timeseries replacement_ids in
    let* second := consistency_pass false replacement_data
                     replacement_opportunities filtered_opportunities 0 in
    let (filtered_opportunities, rejected) := second in
    more_replacements timeseries opportunities
      (Rounds.Build filtered_opportunities filtered_count
         (filtered_count + rejected) [item_ids; replacement_ids])
  else Ok st.

(** ** Normalisation, lines 551-555 *)

Fixpoint set_scores (max_score : R) (filtered_opportunities : list Opp.t)
    : result (list Opp.t) :=
  match filtered_opportunities with
  | [] => Ok []
  | opp :: rest =>
      let* q := Py.truediv (Opp.raw_score opp) max_score in
      let* rest := set_scores max_score rest in
      Ok (Opp.set_score (q * 100)%R opp :: rest)
  end.

Definition normalize (filtered_opportunities : list Opp.t)
    : result (list Opp.t) :=
  match filtered_opportunities with
  | [] => Ok []
  | opp :: rest =>
      let max_score :=
        fold_left Rmax (map Opp.raw_score rest) (Opp.raw_score opp) in
      set_scores max_score filtered_opportunities
  end.

(** ** [analyze_flipping_opportunities], lines 279-569 *)

(** What the fetch layer and the constructor hand to the analysis:
    [get_latest_prices()] as the list of its items in iteration order,
    [get_24h_prices()], [self.item_names], and the [/timeseries]
    endpoint. *)
Module World.
Record t : Type := Build {
  latest_prices : list (string * Latest.t);
  daily_prices : gmap string Point.t;
  item_names : gmap string Info.t;
  timeseries : string -> response }.
End World.

(** What a completed run shows: the returned list, the counters of the
    printed summary, the insufficient-capital line of the summary (printed
    only under [if available_cash:], lines 565-566), and the batches
    requested from [/timeseries]. *)
Module Report.
Record t : Type := Build {
  opportunities : list Opp.t;
  counters : Counters.t;
  insufficient_cash_line : option nat;
  requested : list (list string) }.
End Report.

(** The opportunities of the first pass in ranked order, lines 290-414. *)
Definition ranked_opportunities (w : World.t) (min_volume : Z)
    (min_margin : R) (available_cash : option Z)
    : result (list Opp.t * Counters.t) :=
  let* passed :=
    first_pass (World.daily_prices w) (World.item_names w) min_volume
      min_margin available_cash (World.latest_prices w)
      ([], Counters.zero) in
  let (opportunities, counters) := passed in
  Ok (sort_by_score opportunities, counters).

Definition analyze_flipping_opportunities (w : World.t) (min_volume : Z)
    (min_margin : R) (available_cash : option Z) : result Report.t :=
  let* ranked := ranked_opportunities w min_volume min_margin available_cash in
  let (opportunities, counters) := ranked in
  let* st := consistency_rounds (World.timeseries w) opportunities in
  let* filtered_opportunities :=
    normalize (Rounds.filtered_opportunities st) in
  let counters :=
    Counters.add_inconsistent (Rounds.inconsistent_price_items st) counters in
  Ok (Report.Build filtered_opportunities counters
        (if Py.truthy available_cash
         then Some (Counters.insufficient_cash counters) else None)
        (Rounds.requested st)).

(** ** [_load_item_names], lines 16-49 *)

(** An element of the [/mapping] reply: [id] and [name] are read with
    [item[...]], [limit] and [reset_time] with [item.get]. *)
Module Mapping.
Record t : Type := Build {
  id : Z;
  name : string;
  limit : Py.field;
  reset_time : Py.field }.
End Mapping.

(** Lines 31-44: the body of the loop for one item.  A [reset_time] other
    than 14400 is printed in hours, [reset_time/3600] (line 43), which is a
    [TypeError] on a null value. *)
Definition load_item (item : Mapping.t) (item_dict : gmap string Info.t)
    : result (gmap string Info.t) :=
  match Py.get_or (Mapping.reset_time item) 14400 with
  | Some reset_time =>
      Ok (<[Py.str (Mapping.id item) :=
              Info.Build (Mapping.name item) (Py.get (Mapping.limit item))
                         reset_time]> item_dict)
  | None => Raise TypeError
  end.

Fixpoint load_items (items : list Mapping.t) (item_dict : gmap string Info.t)
    : result (gmap string Info.t) :=
  match items with
  | [] => Ok item_dict
  | item :: rest =>
      let* item_dict := load_item item item_dict in
      load_items rest item_dict
  end.

(** [_load_item_names] on the outcome of the request: [None] is a
    [RequestException], which is caught (lines 47-49). *)
Definition _load_item_names (mapping : option (list Mapping.t))
    : result (gmap string Info.t) :=
  match mapping with
  | Some items => load_items items ∅
  | None => Ok ∅
  end.

(** ** [save_opportunities], lines 571-624 *)

(** The profit ranges of lines 576-581; [None] is [float('inf')]. *)
Definition profit_ranges : list (Z * option Z * string) :=
  [ (0, Some 100000, "0-100k");
    (100000, Some 500000, "100k-500k");
    (500000, Some 1000000, "500k-1m");
    (1000000, None, "1m+") ].

(** [min_profit <= opp['margin'] < max_profit], line 592. *)
Definition in_range (min_profit : Z) (max_profit : option Z) (opp : Opp.t)
    : bool :=
  (min_profit <=? Opp.margin opp)
  && match max_profit with
     | Some m => Opp.margin opp <? m
     | None => true
     end.

(** [range_opportunities.sort(key=margin)], line 595: a stable sort in
    ascending order. *)
Fixpoint insert_by_margin (o : Opp.t) (sorted : list Opp.t) : list Opp.t :=
  match sorted with
  | [] => [o]
  | x :: rest =>
      if Opp.margin x <? Opp.margin o
      then x :: insert_by_margin o rest
      else o :: sorted
  end.

Definition sort_by_margin (opportunities : list Opp.t) : list Opp.t :=
  fold_right insert_by_margin [] opportunities.

(** Lines 590-595. *)
Definition range_opportunities (min_profit : Z) (max_profit : option Z)
    (opportunities : list Opp.t) : list Opp.t :=
  sort_by_margin (List.filter (in_range min_profit max_profit) opportunities).

(** Lines 599-601: the volumes per buy period of an entry. *)
Definition volumes_per_period (opp : Opp.t) : result (R * R) :=
  let* periods_per_day := Py.truediv 86400 (IZR (Opp.reset_time opp)) in
  let* high_volume_per_period :=
    Py.truediv (IZR (Opp.high_volume opp)) periods_per_day in
  let* low_volume_per_period :=
    Py.truediv (IZR (Opp.low_volume opp)) periods_per_day in
  Ok (high_volume_per_period, low_volume_per_period).

(** What a file holds for an opportunity, and what stops the writing.  The
    text of the lines is not modelled. *)
Module Written.

(** [Whole]: the lines 603-621.  [Cut]: the lines 603-619 only, when
    [opp['score']] of line 620 is missing. *)
Inductive t : Type := Whole (opp : Opp.t) | Cut (opp : Opp.t).

Inductive exn : Type := ZeroDivisionError | KeyError.

End Written.

(** Lines 597-621: the entries written to the open file, and the exception
    that ended the loop, if any.  The volumes are computed before the
    first line of an entry is written. *)
Fixpoint write_entries (range_opportunities : list Opp.t)
    : list Written.t * option Written.exn :=
  match range_opportunities with
  | [] => ([], None)
  | opp :: rest =>
      match volumes_per_period opp with
      | Raise _ => ([], Some Written.ZeroDivisionError)
      | Ok _ =>
          match Opp.score opp with
          | None => ([Written.Cut opp], Some Written.KeyError)
          | Some _ =>
              let '(entries, e) := write_entries rest in
              (Written.Whole opp :: entries, e)
          end
      end
  end.

(** Lines 584-624: the loop over the profit ranges.  A file is opened, and
    so created, before its entries are computed; an exception leaves the
    files of the later ranges untouched. *)
Fixpoint write_files (ranges : list (Z * option Z * string))
    (opportunities : list Opp.t)
    : list (string * list Written.t) * option Written.exn :=
  match ranges with
  | [] => ([], None)
  | (min_profit, max_profit, range_name) :: rest =>
      let filename := "flipping_opportunities_" +:+ range_name +:+ ".txt" in
      match write_entries
              (range_opportunities min_profit max_profit opportunities) with
      | (entries, Some e) => ([(filename, entries)], Some e)
      | (entries, None) =>
          let '(files, e) := write_files rest opportunities in
          ((filename, entries) :: files, e)
      end
  end.

(** The files that [save_opportunities] writes, in order, each with its
    name (line 585) and its entries, and the exception that it raises, if
    any. *)
Definition save_opportunities (opportunities : list Opp.t)
    : list (string * list Written.t) * option Written.exn :=
  write_files profit_ranges opportunities.

End OSRSFlipper.

(* ================================================================== *)
(** * Vocabulary of the statements *)
(* ================================================================== *)

Module Spec.

Import OSRSFlipper.

(** ** The range of the number model *)

(** The integers that binary64 holds exactly: converting one of them to
    [float] changes nothing and cannot overflow. *)
Definition binary64 (z : Z) : Prop := (- 2 ^ 53 <= z <= 2 ^ 53)%Z.

Definition field_binary64 (f : Py.field) : Prop :=
  match f with
  | Num z => binary64 z
  | _ => True
  end.

Definition point_binary64 (p : Point.t) : Prop :=
  field_binary64 (Point.avgHighPrice p)
  /\ field_binary64 (Point.avgLowPrice p)
  /\ field_binary64 (Point.highPriceVolume p)
  /\ field_binary64 (Point.lowPriceVolume p).

Definition latest_binary64 (data : Latest.t) : Prop :=
  field_binary64 (Latest.high data) /\ field_binary64 (Latest.low data).

Definition info_binary64 (info : Info.t) : Prop :=
  binary64 (Info.reset_time info)
  /\ forall b, Info.buy_limit info = Some b -> binary64 b.

(** Every integer of the replies is one that binary64 holds. *)
Definition world_binary64 (w : World.t) : Prop :=
  (forall item_id data,
     In (item_id, data) (World.latest_prices w) -> latest_binary64 data)
  /\ (forall item_id p,
        World.daily_prices w !! item_id = Some p -> point_binary64 p)
  /\ (forall item_id info,
        World.item_names w !! item_id = Some info -> info_binary64 info)
  /\ (forall item_id item_data,
        World.timeseries w item_id = Json (Some item_data) ->
        Forall point_binary64 item_data).


(** The arguments of the score on which the rounding of binary64, of a
    few units in the 16th digit, cannot overflow, and stays below the
    growth of the score from one buy limit to the next, which is of at
    least one part in [3 * 2 ^ 31]. *)
Definition score_range (margin_percentage : R)
    (high_volume low_volume price buy_limit reset_time : Z) : Prop :=
  (Rabs margin_percentage <= IZR (2 ^ 64))%R
  /\ binary64 high_volume /\ binary64 low_volume /\ binary64 price
  /\ binary64 reset_time /\ (buy_limit <= 2 ^ 31)%Z.

(** Neither volume penalty of the score applies at [buy_limit]: the
    negations of the tests of lines 86 and 93. *)
Definition volumes_not_limiting (high_volume low_volume reset_time
    buy_limit : Z) : Prop :=
  (IZR buy_limit * (86400 / IZR reset_time)
     <= IZR (Z.min high_volume low_volume))%R
  /\ (IZR buy_limit <= IZR low_volume / (86400 / IZR reset_time))%R.

(** The score that lines 99-115 return when no penalty was applied. *)
Definition unpenalised_score (margin_percentage : R)
    (high_volume low_volume price buy_limit reset_time : Z) : R :=
  let profit_per_trade := (IZR price * (margin_percentage / 100))%R in
  let periods_per_day := (86400 / IZR reset_time)%R in
  let profit_multiplier :=
    if Py.ltb 1000000 profit_per_trade then 2.0%R
    else if Py.ltb 500000 profit_per_trade then 1.7%R
    else if Py.ltb 100000 profit_per_trade then 1.4%R
    else 1.0%R in
  (profit_per_trade * IZR buy_limit * periods_per_day * profit_multiplier
   * (1.0 + IZR buy_limit / 5000)
   * (1.0 + Rmin (Rmin (IZR high_volume / periods_per_day)
                       (IZR low_volume / periods_per_day)
                  / IZR buy_limit) 2.0))%R.

(** The middle slice of a sorted price array, and what lines 204-209
    compute from it: its sum, and its sum of squared deviations, each
    divided by [0.9 * n]. *)
Definition middle (prices : list Z) : list Z :=
  Py.slice prices (Py.len prices * 5 / 100) (Py.len prices * 95 / 100).

Definition code_average (prices : list Z) : R :=
  (IZR (Py.sum (middle prices)) / (IZR (Py.len prices) * 0.9))%R.

Definition code_deviation (prices : list Z) : R :=
  sqrt (Py.fsum (map (fun x => (IZR x - code_average prices) ^ 2)%R
                     (middle prices))
        / (IZR (Py.len prices) * 0.9)).

(** The arithmetic mean and the population standard deviation of a list,
    as the specification words them: sums divided by the element count. *)
Definition mean (xs : list Z) : R :=
  (IZR (Py.sum xs) / IZR (Py.len xs))%R.

Definition population_std (xs : list Z) : R :=
  sqrt (Py.fsum (map (fun x => (IZR x - mean xs) ^ 2)%R xs)
        / IZR (Py.len xs)).

(** What [get_7d_prices] stores for an id that it is asked about, when it
    returns: the statistics of the reply, if any. *)
Definition history (timeseries : string -> response) (item_id : string)
    : option Hist.t :=
  match item_statistics (timeseries item_id) with
  | Ok found => found
  | Raise _ => None
  end.

(** The candidate passes the check of lines 427-428 on that history. *)
Definition consistent (timeseries : string -> response) (o : Opp.t) : bool :=
  _is_price_consistent (Opp.sell_price o) (Opp.buy_price o)
    (history timeseries (Opp.item_id o)).

(** The candidate with the two weekly averages of lines 434-435. *)
Definition enriched (timeseries : string -> response) (o : Opp.t) : Opp.t :=
  match history timeseries (Opp.item_id o) with
  | Some h => Opp.set_weekly (Hist.avg_high h) (Hist.avg_low h) o
  | None => o
  end.

(** What holds between two rounds: the accepted list is made of the first
    20 consistent candidates among those consumed so far, and the
    requests so far are the ids of the consumed candidates, in order. *)
Definition rounds_invariant (timeseries : string -> response)
    (opportunities : list Opp.t) (st : Rounds.t) : Prop :=
  Rounds.filtered_opportunities st
  = map (enriched timeseries)
        (take 20 (List.filter (consistent timeseries)
                    (take (20 + Rounds.filtered_count st) opportunities)))
  /\ concat (Rounds.requested st)
     = map Opp.item_id (take (20 + Rounds.filtered_count st) opportunities).

Definition rounds_final (timeseries : string -> response)
    (opportunities : list Opp.t) (st : Rounds.t) : Prop :=
  Rounds.filtered_opportunities st
  = map (enriched timeseries)
        (take 20 (List.filter (consistent timeseries) opportunities))
  /\ exists k : nat,
       concat (Rounds.requested st) = map Opp.item_id (take k opportunities).

(** The order of the ranked pool: the raw score does not increase. *)
Definition descending (a b : Opp.t) : Prop :=
  (Opp.raw_score b <= Opp.raw_score a)%R.

(** The items that a state of the first pass accounts for: the
    opportunities kept and the counters of lines 291-297. *)
Definition accounted (st : list Opp.t * Counters.t) : nat :=
  (length st.1 + Counters.skipped st.2 + Counters.unrealistic_price st.2
   + Counters.low_volume st.2 + Counters.low_margin st.2
   + Counters.missing_buy_limit st.2 + Counters.insufficient_cash st.2
   + Counters.low_profit st.2)%nat.

(** The reply for the candidate's id yields statistics or none, without
    raising. *)
Definition answered (timeseries : string -> response) (o : Opp.t) : Prop :=
  exists found, item_statistics (timeseries (Opp.item_id o)) = Ok found.

(** A series on which the statistics do not divide by zero: a price array
    is empty, or both hold at least 20 prices. *)
Definition usable_series (item_data : list Point.t) : Prop :=
  present Point.avgHighPrice item_data = []
  \/ present Point.avgLowPrice item_data = []
  \/ (20 <= length (present Point.avgHighPrice item_data)
      /\ 20 <= length (present Point.avgLowPrice item_data))%nat.

(** An opportunity without the three keys that are added after the first
    pass. *)
Definition bare (o : Opp.t) : Opp.t :=
  Opp.Build (Opp.item_id o) (Opp.name o) (Opp.buy_limit o) (Opp.reset_time o)
    (Opp.buy_price o) (Opp.sell_price o) (Opp.ge_tax o)
    (Opp.bond_conversion_cost o) (Opp.daily_avg_high o)
    (Opp.daily_avg_low o) (Opp.high_volume o) (Opp.low_volume o)
    (Opp.margin o) (Opp.margin_percentage o) (Opp.profit_per_window o)
    (Opp.achievable_items o) (Opp.required_capital o)
    (Opp.expected_capital o) (Opp.raw_score o) None None None.

(** The value stored for an item of the [/mapping] reply, lines 33-37. *)
Definition entry (item : Mapping.t) : Info.t :=
  Info.Build (Mapping.name item) (Py.get (Mapping.limit item))
    (default 14400 (Py.get (Mapping.reset_time item))).

(** The order within a file of [save_opportunities]: the margin does not
    decrease. *)
Definition ascending (a b : Opp.t) : Prop :=
  (Opp.margin a <= Opp.margin b)%Z.

(** [output] is [input] in the order of a stable sort by margin: the
    margins do not decrease, and the opportunities of one margin are those
    of [input], in the order of [input]. *)
Definition sorted_by_margin (input output : list Opp.t) : Prop :=
  StronglySorted ascending output
  /\ forall m : Z,
       List.filter (fun o => Opp.margin o =? m)%Z output
       = List.filter (fun o => Opp.margin o =? m)%Z input.

(** The integers of an opportunity that lines 599-601 convert to
    [float] are ones that binary64 holds: the quotient [86400 / reset_time]
    is then not rounded to 0. *)
Definition entry_binary64 (o : Opp.t) : Prop :=
  binary64 (Opp.reset_time o) /\ binary64 (Opp.high_volume o)
  /\ binary64 (Opp.low_volume o).

(** An opportunity whose entry [save_opportunities] can write. *)
Definition writable (o : Opp.t) : Prop :=
  Opp.reset_time o <> 0%Z /\ Opp.score o <> None.

(** What an exception of [save_opportunities] tells about the opportunity
    whose entry raised it. *)
Definition raised_by (e : Written.exn) (o : Opp.t) : Prop :=
  match e with
  | Written.ZeroDivisionError => Opp.reset_time o = 0%Z
  | Written.KeyError => Opp.score o = None
  end.

(** The test of lines 311 and 328 on a pair of prices read with
    [.get(k, 0)]: one of them is [None] or not positive. *)
Definition invalid_prices (high low : option Z) : bool :=
  match high, low with
  | Some h, Some l => (h <=? 0) || (l <=? 0)
  | _, _ => true
  end.

End Spec.

(* ================================================================== *)
(** * Example data *)
(* ================================================================== *)

(** One item, "2", quoted at 11000 over 10000 with a buy limit of 100;
    the worlds below differ in what [/timeseries] answers for it. *)
Module Example.

Import OSRSFlipper.

Definition point (high low : Z) : Point.t :=
  Point.Build (Num high) (Num low) (Num 1000) (Num 1000).

Definition latest : Latest.t := Latest.Build (Num 11000) (Num 10000).

Definition info : Info.t := Info.Build "Cannonball" (Some 100) 14400.

Definition world (reply : response) : World.t :=
  World.Build [("2", latest)] {["2" := point 11000 10000]}
    {["2" := info]} (fun _ => reply).

(** Seven daily points, the usual length of a week of history. *)
Definition week : list Point.t := repeat (point 11000 10000) 7.

(** Twenty and twenty-one daily points at the current prices. *)
Definition twenty : list Point.t := repeat (point 11000 10000) 20.
Definition twenty_one : list Point.t := repeat (point 11000 10000) 21.

(** Statistics of a week around 11000 over 10000. *)
Definition history : Hist.t :=
  Hist.Build 11000 10000 100 100 10900 11200 9900 10200
    10900 9900 11200 10200 1000 1000 20.

(** A scored opportunity, as [save_opportunities] receives it. *)
Definition opportunity : Opp.t :=
  Opp.Build "2" "Cannonball" 7000 14400 10000 11000 110 0 11000 10000
    200000 200000 890 8.9 6230000 7000 70770000 77000000 1 None None
    (Some 100%R).

End Example.

(* ================================================================== *)
(** * Properties *)
(* ================================================================== *)

Import OSRSFlipper Spec.

(** ** Facts about the primitives *)

Section Primitives.

Local Open Scope R_scope.

Lemma ltb_true (x y : R) : Py.ltb x y = true <-> x < y.
Proof. unfold Py.ltb. destruct (Rlt_dec x y); split; intros; try easy. Qed.

Lemma ltb_false (x y : R) : Py.ltb x y = false <-> y <= x.
Proof.
  unfold Py.ltb. destruct (Rlt_dec x y); split; intros; try easy; lra.
Qed.

Lemma leb_true (x y : R) : Py.leb x y = true <-> x <= y.
Proof. unfold Py.leb. destruct (Rle_dec x y); split; intros; try easy. Qed.

Lemma eqb_true (x y : R) : Py.eqb x y = true <-> x = y.
Proof. unfold Py.eqb. destruct (Req_dec_T x y); split; intros; try easy. Qed.

Lemma eqb_false (x y : R) : Py.eqb x y = false <-> x <> y.
Proof. unfold Py.eqb. destruct (Req_dec_T x y); split; intros; try easy. Qed.

Lemma truediv_ok (x y : R) : y <> 0 -> Py.truediv x y = Ok (x / y).
Proof. intros H. unfold Py.truediv. destruct (Req_dec_T y 0); easy. Qed.

Lemma truediv_zero (x : R) : Py.truediv x 0 = Raise ZeroDivisionError.
Proof. unfold Py.truediv. destruct (Req_dec_T 0 0); easy. Qed.

Lemma truediv_inv (x y q : R) :
  Py.truediv x y = Ok q -> y <> 0 /\ q = x / y.
Proof.
  unfold Py.truediv. destruct (Req_dec_T y 0); intros H; inversion H; easy.
Qed.

Lemma int_nonneg (x : R) : 0 <= x -> Py.int x = Zfloor x.
Proof. intros H. unfold Py.int. destruct (Rle_dec 0 x); easy. Qed.

(** [int] of a non-negative float is the integer just below it. *)
Lemma int_eq (x : R) (z : Z) : 0 <= x -> IZR z <= x < IZR z + 1 -> Py.int x = z.
Proof. intros H0 H. rewrite int_nonneg by assumption. now apply Zfloor_eq. Qed.

(** [int(n * (a/b))] on a non-negative integer [n] is an integer
    quotient. *)
Lemma int_scaled (n a b : Z) (c : R) :
  (0 <= n)%Z -> (0 <= a)%Z -> (0 < b)%Z -> c * IZR b = IZR a ->
  Py.int (IZR n * c) = (n * a / b)%Z.
Proof.
  intros Hn Ha Hb Hc.
  assert (Hb' : 0 < IZR b) by now apply IZR_lt.
  assert (Hn' : 0 <= IZR n) by now apply IZR_le.
  assert (Ha' : 0 <= IZR a) by now apply IZR_le.
  assert (E : IZR n * c = IZR (n * a) / IZR b).
  { rewrite mult_IZR, <- Hc. field. lra. }
  pose proof (Z.div_mod (n * a) b ltac:(lia)) as D.
  pose proof (Z.mod_pos_bound (n * a) b Hb) as B.
  set (q := (n * a / b)%Z) in *. set (r := ((n * a) mod b)%Z) in *.
  assert (D' : IZR (n * a) = IZR b * IZR q + IZR r)
    by now rewrite D at 1; rewrite plus_IZR, mult_IZR.
  assert (Hr : 0 <= IZR r <= IZR b - 1).
  { split; [apply IZR_le; lia|].
    replace (IZR b - 1) with (IZR (b - 1)) by now rewrite minus_IZR.
    apply IZR_le; lia. }
  assert (Hq : 0 <= IZR q) by (apply IZR_le; subst q; apply Z.div_pos; lia).
  rewrite E, D'.
  assert (Q : (IZR b * IZR q + IZR r) / IZR b = IZR q + IZR r / IZR b)
    by (field; lra).
  assert (0 <= IZR r / IZR b < 1).
  { split.
    - apply Rmult_le_pos; [lra|]. left. now apply Rinv_0_lt_compat.
    - apply Rmult_lt_reg_r with (IZR b); [lra|].
      unfold Rdiv. rewrite Rmult_assoc, Rinv_l by lra. lra. }
  apply int_eq; rewrite Q; lra.
Qed.

End Primitives.

(** ** Tax and capital *)

Section Tax.

Local Open Scope R_scope.

Lemma ge_tax_quotient (sell_price : Z) :
  _calculate_ge_tax sell_price
  = (if sell_price <=? 100 then 0 else sell_price / 100)%Z.
Proof.
  unfold _calculate_ge_tax. destruct (Z.leb_spec sell_price 100) as [H|H].
  - reflexivity.
  - rewrite (int_scaled sell_price 1 100) by (try lia; lra).
    now rewrite Z.mul_1_r.
Qed.

(** C8.  For a sell price of at most [2 ^ 53] the GE tax is 0 up to a
    sell price of 100 and the floor of one percent of the sell price above
    it, which is the integer quotient by 100; at the boundary, the tax of
    100 is 0 and the tax of 101 is 1.  Up to [2 ^ 53] the product of line
    55 is below [2 ^ 47], where binary64 is off by less than 0.0097 and so
    leaves the integer part of a number of hundredths as it is. *)
Theorem ge_tax_threshold (sell_price : Z) :
  (sell_price <= 2 ^ 53)%Z ->
  _calculate_ge_tax sell_price
  = (if sell_price <=? 100 then 0 else Zfloor (IZR sell_price * 0.01))%Z
  /\ _calculate_ge_tax sell_price
     = (if sell_price <=? 100 then 0 else sell_price / 100)%Z
  /\ _calculate_ge_tax 100 = 0%Z
  /\ _calculate_ge_tax 101 = 1%Z.
Proof.
  intros _.
  split; [|split; [apply ge_tax_quotient|]].
  - unfold _calculate_ge_tax. destruct (Z.leb_spec sell_price 100) as [H|H].
    + reflexivity.
    + apply int_nonneg. apply IZR_lt in H. lra.
  - now rewrite !ge_tax_quotient.
Qed.

Lemma ge_tax_threshold_witness :
  (12345 <= 2 ^ 53)%Z /\ _calculate_ge_tax 12345 = 123%Z.
Proof.
  split; [lia|].
  destruct (ge_tax_threshold 12345 ltac:(lia)) as (_ & E & _).
  exact E.
Defined.

Lemma required_capital_quotient (buy_price buy_limit ge_tax bond : Z) :
  (0 <= buy_price * buy_limit + ge_tax + bond)%Z ->
  _calculate_required_capital buy_price buy_limit ge_tax bond
  = ((buy_price * buy_limit + ge_tax + bond) * 21 / 20)%Z.
Proof.
  intros H. unfold _calculate_required_capital.
  apply int_scaled; try lia; lra.
Qed.

(** C3, as the code has it.  For a total cost from 0 to [2 ^ 48] the
    required capital is the floor of 1.05 times the cost, that is the
    integer quotient of 21 times the cost by 20: it never exceeds 1.05
    times the cost, so a fractional product is rounded down.  Up to
    [2 ^ 48] the product of line 266 is below [2 ^ 49], where binary64 is
    off by less than 0.044 and so leaves the integer part of a number of
    twentieths as it is. *)
Theorem required_capital_floor (buy_price buy_limit ge_tax bond : Z) :
  (0 <= buy_price * buy_limit + ge_tax + bond <= 2 ^ 48)%Z ->
  let total_cost := (buy_price * buy_limit + ge_tax + bond)%Z in
  let capital := _calculate_required_capital buy_price buy_limit ge_tax bond in
  capital = Zfloor (1.05 * IZR total_cost)
  /\ capital = (total_cost * 21 / 20)%Z
  /\ IZR capital <= 1.05 * IZR total_cost < IZR capital + 1.
Proof.
  intros [H _] total_cost capital.
  assert (E : capital = Zfloor (1.05 * IZR total_cost)).
  { subst capital. unfold _calculate_required_capital.
    fold total_cost. rewrite Rmult_comm. apply int_nonneg.
    apply IZR_le in H. fold total_cost in H. lra. }
  split; [exact E|]. split.
  - now apply required_capital_quotient.
  - rewrite E. apply Zfloor_bound.
Qed.

Lemma required_capital_floor_witness :
  (0 <= 150 * 3 + 1 + 0 <= 2 ^ 48)%Z
  /\ _calculate_required_capital 150 3 1 0 = 473%Z.
Proof.
  split; [lia|].
  destruct (required_capital_floor 150 3 1 0 ltac:(lia)) as (_ & E & _).
  exact E.
Defined.

(** C3, refuted as stated: buying 3 items at 150 with a tax of 1 costs
    451, and 1.05 times that is 473.55; the code answers 473 where the
    ceiling is 474. *)
Lemma required_capital_not_ceil :
  _calculate_required_capital 150 3 1 0 = 473%Z
  /\ Zceil (1.05 * IZR (150 * 3 + 1 + 0)) = 474%Z
  /\ _calculate_required_capital 150 3 1 0
     <> Zceil (1.05 * IZR (150 * 3 + 1 + 0)).
Proof.
  assert (A : _calculate_required_capital 150 3 1 0 = 473%Z)
    by now rewrite required_capital_quotient.
  assert (B : Zceil (1.05 * IZR (150 * 3 + 1 + 0)) = 474%Z).
  { change (150 * 3 + 1 + 0)%Z with 451%Z. apply Zceil_eq. lra. }
  rewrite A, B. repeat split. lia.
Qed.

End Tax.

(** ** Evaluating the model on concrete inputs *)

Lemma truediv_raise (x y : R) :
  y = 0%R -> Py.truediv x y = Raise ZeroDivisionError.
Proof. intros ->. apply truediv_zero. Qed.

(** Compute the closed integer expressions under [IZR]. *)
Ltac zeval :=
  repeat match goal with
  | |- context [IZR ?z] =>
      lazymatch z with
      | Z0 => fail
      | Zpos _ => fail
      | Zneg _ => fail
      | _ => let z' := eval vm_compute in z in
             progress change (IZR z) with (IZR z')
      end
  end.

(** Decide one float comparison or division of the goal by [lra]. *)
Ltac rstep :=
  match goal with
  | |- context [Py.ltb ?x ?y] =>
      first [ replace (Py.ltb x y) with true
                by (symmetry; apply ltb_true; lra)
            | replace (Py.ltb x y) with false
                by (symmetry; apply ltb_false; lra) ]
  | |- context [Py.leb ?x ?y] =>
      first [ replace (Py.leb x y) with true
                by (symmetry; apply leb_true; lra)
            | replace (Py.leb x y) with false
                by (symmetry; unfold Py.leb; destruct (Rle_dec x y);
                    [exfalso; lra | reflexivity]) ]
  | |- context [Py.eqb ?x ?y] =>
      first [ replace (Py.eqb x y) with true
                by (symmetry; apply eqb_true; lra)
            | replace (Py.eqb x y) with false
                by (symmetry; apply eqb_false; lra) ]
  | |- context [Py.truediv ?x ?y] =>
      first [ rewrite (truediv_ok x y) by lra
            | rewrite (truediv_raise x y) by lra ]
  | |- context [Rmin ?x ?y] =>
      first [ rewrite (Rmin_left x y) by lra
            | rewrite (Rmin_right x y) by lra ]
  end.

Ltac rsteps := repeat (cbv beta iota zeta delta [Py.bind]; rstep).

(** Compute the integer test of an [if] whose test is closed. *)
Ltac ztest :=
  match goal with
  | |- context [if ?b then _ else _] =>
      lazymatch b with
      | context [Py.ltb] => fail
      | context [Py.leb] => fail
      | context [Py.eqb] => fail
      | context [_calculate_required_capital] => fail
      | context [_calculate_ge_tax] => fail
      | context [_calculate_bond_conversion_cost] => fail
      | _ => let b' := eval vm_compute in b in
             progress change b with b'
      end
  end; cbv beta iota.

(** Read the fields of the concrete records of the goal. *)
Ltac fields :=
  cbn [Py.get0 Py.get Latest.high Latest.low Point.avgHighPrice
       Point.avgLowPrice Point.highPriceVolume Point.lowPriceVolume
       default Datatypes.id Info.buy_limit Info.reset_time Info.name].

(** ** The consistency check *)

Section Consistency.

Local Open Scope R_scope.



End Consistency.

(** ** The score *)

Section Score.

Local Open Scope R_scope.

Lemma score_zero_buy_limit (margin_percentage : R)
    (high_volume low_volume price reset_time : Z) :
  100 <= IZR price * (margin_percentage / 100) ->
  _calculate_opportunity_score margin_percentage high_volume low_volume
    price 0 reset_time = Raise ZeroDivisionError.
Proof.
  intros Hp. unfold _calculate_opportunity_score.
  replace (Py.ltb _ 100) with false by (symmetry; apply ltb_false; lra).
  destruct (Req_dec_T (IZR reset_time) 0) as [E|E].
  { rewrite E, truediv_zero. reflexivity. }
  assert (Hppd : 86400 / IZR reset_time <> 0).
  { unfold Rdiv. apply Rmult_integral_contrapositive_currified; [lra|].
    now apply Rinv_neq_0_compat. }
  rewrite (truediv_ok 86400) by assumption. cbn [Py.bind].
  rewrite !(truediv_ok _ (86400 / IZR reset_time)) by assumption.
  cbn [Py.bind].
  destruct (Py.ltb (IZR (Z.min high_volume low_volume)) _).
  { rewrite truediv_raise by lra. reflexivity. }
  cbn [Py.bind].
  destruct (Py.ltb _ (IZR 0)).
  { rewrite truediv_zero. reflexivity. }
  cbn [Py.bind]. rewrite (truediv_ok (IZR 0) 5000) by lra. cbn [Py.bind].
  rewrite truediv_zero. reflexivity.
Qed.

Lemma profit_multiplier_pos (p : R) :
  0 < (if Py.ltb 1000000 p then 2.0
       else if Py.ltb 500000 p then 1.7
       else if Py.ltb 100000 p then 1.4 else 1.0).
Proof. repeat destruct (Py.ltb _ p); lra. Qed.

(** With a positive buy limit, a positive reset time and no volume
    penalty, the score function returns the product of lines 99-115. *)
Lemma score_unpenalised (margin_percentage : R)
    (high_volume low_volume price buy_limit reset_time : Z) :
  (0 < reset_time)%Z -> (0 < buy_limit)%Z ->
  100 <= IZR price * (margin_percentage / 100) ->
  volumes_not_limiting high_volume low_volume reset_time buy_limit ->
  _calculate_opportunity_score margin_percentage high_volume low_volume
    price buy_limit reset_time
  = Ok (unpenalised_score margin_percentage high_volume low_volume price
          buy_limit reset_time).
Proof.
  intros Hrt Hb Hp [Hv Hl].
  apply IZR_lt in Hrt, Hb.
  assert (Hppd : 0 < 86400 / IZR reset_time).
  { apply Rmult_lt_0_compat; [lra|]. now apply Rinv_0_lt_compat. }
  unfold _calculate_opportunity_score, unpenalised_score.
  replace (Py.ltb _ 100) with false by (symmetry; apply ltb_false; lra).
  rewrite (truediv_ok 86400) by lra. cbn [Py.bind].
  rewrite !(truediv_ok _ (86400 / IZR reset_time)) by lra. cbn [Py.bind].
  replace (Py.ltb (IZR (Z.min high_volume low_volume)) _) with false
    by (symmetry; apply ltb_false; lra).
  cbn [Py.bind].
  replace (Py.ltb (IZR low_volume / _) (IZR buy_limit)) with false
    by (symmetry; apply ltb_false; lra).
  cbn [Py.bind].
  rewrite (truediv_ok (IZR buy_limit) 5000) by lra. cbn [Py.bind].
  rewrite (truediv_ok _ (IZR buy_limit)) by lra. cbn [Py.bind].
  reflexivity.
Qed.

(** Scaling a buy limit by its volume bonus: [b * (1 + min (v/b) 2)] is
    [min (b + v) (3 b)]. *)
Lemma volume_bonus_scaled (b v : R) :
  0 < b -> b * (1.0 + Rmin (v / b) 2.0) = Rmin (b + v) (3 * b).
Proof.
  intros Hb.
  assert (E : v = v / b * b) by (field; lra).
  set (q := v / b) in *.
  unfold Rmin.
  destruct (Rle_dec q 2.0) as [H1|H1];
    destruct (Rle_dec (b + v) (3 * b)) as [H2|H2]; rewrite E in *; nra.
Qed.

Lemma unpenalised_score_monotone (margin_percentage : R)
    (high_volume low_volume price reset_time b1 b2 : Z) :
  (0 < reset_time)%Z -> (1 <= b1 <= b2)%Z ->
  100 <= IZR price * (margin_percentage / 100) ->
  volumes_not_limiting high_volume low_volume reset_time b2 ->
  unpenalised_score margin_percentage high_volume low_volume price b1
    reset_time
  <= unpenalised_score margin_percentage high_volume low_volume price b2
       reset_time.
Proof.
  intros Hrt [H1 H12] Hp [Hv Hl]. unfold unpenalised_score.
  assert (Hmin : IZR (Z.min high_volume low_volume) <= IZR high_volume)
    by (apply IZR_le; lia).
  apply IZR_lt in Hrt. apply IZR_le in H1, H12.
  set (p := IZR price * (margin_percentage / 100)) in *.
  set (d := 86400 / IZR reset_time) in *.
  assert (Hd : 0 < d).
  { apply Rmult_lt_0_compat; [lra|]. now apply Rinv_0_lt_compat. }
  pose proof (profit_multiplier_pos p) as Hm.
  set (m := if Py.ltb 1000000 p then _ else _) in *.
  assert (Hh : IZR b2 <= IZR high_volume / d).
  { apply Rmult_le_reg_r with d; [lra|].
    unfold Rdiv. rewrite Rmult_assoc, Rinv_l by lra. lra. }
  set (v := Rmin (IZR high_volume / d) (IZR low_volume / d)).
  assert (Hvb : IZR b2 <= v) by (apply Rmin_glb; lra).
  assert (G : forall b, 0 < b ->
            p * b * d * m * (1.0 + b / 5000) * (1.0 + Rmin (v / b) 2.0)
            = (p * d * m) * ((1.0 + b / 5000) * Rmin (b + v) (3 * b))).
  { intros b Hb. rewrite <- (volume_bonus_scaled b v Hb).
    set (w := 1.0 + Rmin (v / b) 2.0). set (u := 1.0 + b / 5000). ring. }
  rewrite !G by lra.
  apply Rmult_le_compat_l.
  { apply Rmult_le_pos; [apply Rmult_le_pos|]; lra. }
  assert (Hmono : Rmin (IZR b1 + v) (3 * IZR b1)
                  <= Rmin (IZR b2 + v) (3 * IZR b2)).
  { apply Rmin_glb.
    - eapply Rle_trans; [apply Rmin_l|]. lra.
    - eapply Rle_trans; [apply Rmin_r|]. lra. }
  assert (Hpos : 0 <= Rmin (IZR b1 + v) (3 * IZR b1))
    by (apply Rmin_glb; lra).
  apply Rmult_le_compat; lra.
Qed.

(** C6, as the code has it.  For buy limits [1 <= b1 <= b2] and a positive
    reset time, when the volumes are not the limiting factor at either
    value, both calls of the score function return, and the score at [b2]
    is at least the score at [b1].  The arguments are taken in
    [score_range]: there no operation of lines 61-115 overflows, and from
    one buy limit to the next the score grows by at least one part in
    [3 * 2 ^ 31], far above the rounding of binary64. *)
Theorem score_monotone_in_buy_limit (margin_percentage : R)
    (high_volume low_volume price reset_time b1 b2 : Z) :
  score_range margin_percentage high_volume low_volume price b2 reset_time ->
  (0 < reset_time)%Z -> (1 <= b1 <= b2)%Z ->
  volumes_not_limiting high_volume low_volume reset_time b1 ->
  volumes_not_limiting high_volume low_volume reset_time b2 ->
  exists s1 s2 : R,
    _calculate_opportunity_score margin_percentage high_volume low_volume
      price b1 reset_time = Ok s1
    /\ _calculate_opportunity_score margin_percentage high_volume low_volume
         price b2 reset_time = Ok s2
    /\ s1 <= s2.
Proof.
  intros _ Hrt Hb N1 N2.
  destruct (Rlt_dec (IZR price * (margin_percentage / 100)) 100) as [Hp|Hp].
  - exists 0, 0. unfold _calculate_opportunity_score.
    replace (Py.ltb _ 100) with true by (symmetry; now apply ltb_true).
    repeat split; lra.
  - apply Rnot_lt_le in Hp.
    eexists _, _. split; [|split].
    + apply score_unpenalised; trivial; lia.
    + apply score_unpenalised; trivial; lia.
    + now apply unpenalised_score_monotone.
Qed.

Lemma score_monotone_in_buy_limit_witness :
  exists s1 s2 : R,
    _calculate_opportunity_score 1 6000 6000 10000 1 14400 = Ok s1
    /\ _calculate_opportunity_score 1 6000 6000 10000 2 14400 = Ok s2
    /\ s1 <= s2.
Proof.
  apply (score_monotone_in_buy_limit 1 6000 6000 10000 14400 1 2);
    try lia; [|split; zeval; lra|split; zeval; lra].
  unfold score_range, binary64. repeat split; try lia.
  rewrite Rabs_pos_eq by lra. apply (IZR_le 1). lia.
Defined.

(** C6, refuted as stated.  At [b1 = 0] and [b2 = 1] the volumes are not
    limiting at either value, yet the call at [b1] raises: there is no
    score at [b1] to compare.  At [b1 = -1] and [b2 = 1] both calls
    return, and the score at [b1] is the larger one. *)
Lemma score_not_monotone_below_one :
  (volumes_not_limiting 6000 6000 14400 0
   /\ volumes_not_limiting 6000 6000 14400 1
   /\ _calculate_opportunity_score 1 6000 6000 10000 0 14400
      = Raise ZeroDivisionError
   /\ exists s2, _calculate_opportunity_score 1 6000 6000 10000 1 14400
                 = Ok s2)
  /\ (volumes_not_limiting 60 60 14400 (-1)
      /\ volumes_not_limiting 60 60 14400 1
      /\ exists s1 s2,
           _calculate_opportunity_score 1 60 60 10000 (-1) 14400 = Ok s1
           /\ _calculate_opportunity_score 1 60 60 10000 1 14400 = Ok s2
           /\ s2 < s1).
Proof.
  split.
  - split; [split; zeval; lra|]. split; [split; zeval; lra|]. split.
    + apply score_zero_buy_limit. lra.
    + eexists. apply score_unpenalised; try lia; [lra|split; zeval; lra].
  - split; [split; zeval; lra|]. split; [split; zeval; lra|].
    exists (5398.92), (1800.36). split; [|split].
    + unfold _calculate_opportunity_score. zeval. rsteps. f_equal. lra.
    + unfold _calculate_opportunity_score. zeval. rsteps. f_equal. lra.
    + lra.
Qed.

End Score.

(** ** The first pass *)

Section FirstPass.

Local Open Scope R_scope.

Lemma bond_cost_quotient (price : Z) :
  (0 <= price)%Z -> _calculate_bond_conversion_cost price = (price / 10)%Z.
Proof.
  intros H. unfold _calculate_bond_conversion_cost.
  rewrite (int_scaled price 1 10) by (try lia; lra). now rewrite Z.mul_1_r.
Qed.

(** An item with a buy limit of 0 that passes the price, spread, volume
    and margin filters reaches the score function, which raises. *)
Lemma first_pass_zero_limit_example :
  first_pass_item
    {["2" := Point.Build (Num 11000) (Num 10000) (Num 1000) (Num 1000)]}
    {["2" := Info.Build "Cannonball" (Some 0%Z) 14400]}
    100 0.5 None "2" (Latest.Build (Num 11000) (Num 10000))
  = Raise ZeroDivisionError.
Proof.
  unfold first_pass_item. rewrite !lookup_singleton_eq. fields.
  rewrite ge_tax_quotient. repeat ztest. zeval. rsteps. repeat ztest.
  fields. cbn [Py.truthy andb]. rsteps.
  rewrite score_zero_buy_limit by lra. reflexivity.
Qed.

(** The missing-buy-limit counter is reached only by an absent limit. *)
Lemma missing_buy_limit_only_absent
    (daily_prices : gmap string Point.t) (item_names : gmap string Info.t)
    (min_volume : Z) (min_margin : R) (available_cash : option Z)
    (item_id : string) (data : Latest.t) :
  first_pass_item daily_prices item_names min_volume min_margin
    available_cash item_id data = Ok missing_buy_limit_items ->
  Info.buy_limit (default unknown_item (item_names !! item_id)) = None.
Proof.
  unfold first_pass_item, Py.bind. intros H.
  destruct (Info.buy_limit (default unknown_item (item_names !! item_id)))
    eqn:E; [exfalso|reflexivity].
  repeat match type of H with
         | context [match ?x with _ => _ end] =>
             destruct x eqn:?; try discriminate H
         end.
Qed.

(** C10.  At a buy limit of 0 with a profit per trade of at least 100 the
    score function raises [ZeroDivisionError] instead of returning a
    score, whatever the volumes; the first pass drops an item for its
    buy limit only when the limit is absent, and lets an item with a limit
    of 0 reach the score function, where the run raises. *)
Theorem score_partial_at_zero_buy_limit (margin_percentage : R)
    (high_volume low_volume price reset_time : Z) :
  100 <= IZR price * (margin_percentage / 100) ->
  _calculate_opportunity_score margin_percentage high_volume low_volume
    price 0 reset_time = Raise ZeroDivisionError
  /\ (forall daily_prices item_names min_volume min_margin available_cash
             item_id data,
        first_pass_item daily_prices item_names min_volume min_margin
          available_cash item_id data = Ok missing_buy_limit_items ->
        Info.buy_limit (default unknown_item (item_names !! item_id))
        = None)
  /\ first_pass_item
       {["2" := Point.Build (Num 11000) (Num 10000) (Num 1000) (Num 1000)]}
       {["2" := Info.Build "Cannonball" (Some 0%Z) 14400]}
       100 0.5 None "2" (Latest.Build (Num 11000) (Num 10000))
     = Raise ZeroDivisionError.
Proof.
  intros Hp. split; [now apply score_zero_buy_limit|]. split.
  - apply missing_buy_limit_only_absent.
  - apply first_pass_zero_limit_example.
Qed.

Lemma score_partial_at_zero_buy_limit_witness :
  100 <= IZR 10000 * (1 / 100)
  /\ (0 < 6000)%Z /\ (0 < 5000)%Z
  /\ _calculate_opportunity_score 1 6000 5000 10000 0 14400
     = Raise ZeroDivisionError.
Proof.
  assert (H : 100 <= IZR 10000 * (1 / 100)) by lra.
  split; [exact H|]. split; [lia|]. split; [lia|].
  exact (proj1 (score_partial_at_zero_buy_limit 1 6000 5000 10000 14400 H)).
Defined.

(** *** The capital filter *)

Lemma insufficient_cash_only_truthy
    (daily_prices : gmap string Point.t) (item_names : gmap string Info.t)
    (min_volume : Z) (min_margin : R) (available_cash : option Z)
    (item_id : string) (data : Latest.t) :
  first_pass_item daily_prices item_names min_volume min_margin
    available_cash item_id data = Ok insufficient_cash_items ->
  Py.truthy available_cash = true.
Proof.
  unfold first_pass_item, Py.bind. intros H.
  destruct (Py.truthy available_cash) eqn:E; [reflexivity|exfalso].
  cbn [andb] in H.
  repeat match type of H with
         | context [match ?x with _ => _ end] =>
             destruct x eqn:?; try discriminate H
         end.
Qed.

Lemma first_pass_zero_cash
    (daily_prices : gmap string Point.t) (item_names : gmap string Info.t)
    (min_volume : Z) (min_margin : R) (items : list (string * Latest.t))
    (st : list Opp.t * Counters.t) :
  first_pass daily_prices item_names min_volume min_margin (Some 0%Z)
    items st
  = first_pass daily_prices item_names min_volume min_margin None items st.
Proof.
  revert st. induction items as [|[item_id data] rest IH]; intros st.
  - reflexivity.
  - cbn [first_pass].
    change (first_pass_item daily_prices item_names min_volume min_margin
              (Some 0%Z) item_id data)
      with (first_pass_item daily_prices item_names min_volume min_margin
              None item_id data).
    destruct (first_pass_item _ _ _ _ None item_id data); cbn [Py.bind].
    + apply IH.
    + reflexivity.
Qed.

(** C9.  With an available cash of 0 the capital filter is off: the run
    is the run without available cash (same returned list, same counters,
    same summary lines, same requests), and no item is counted as lacking
    capital. *)
Theorem zero_cash_disables_capital_filter (w : World.t) (min_volume : Z)
    (min_margin : R) :
  analyze_flipping_opportunities w min_volume min_margin (Some 0%Z)
  = analyze_flipping_opportunities w min_volume min_margin None
  /\ forall item_id data,
       first_pass_item (World.daily_prices w) (World.item_names w)
         min_volume min_margin (Some 0%Z) item_id data
       <> Ok insufficient_cash_items.
Proof.
  split.
  - unfold analyze_flipping_opportunities, ranked_opportunities.
    rewrite first_pass_zero_cash. reflexivity.
  - intros item_id data H.
    apply insufficient_cash_only_truthy in H. discriminate H.
Qed.

(** *** The order of the filters *)

(** C7, as the code has it.  For an item present in the 24h data the
    first pass tests the snapshot prices, then the snapshot spread, and
    only then the 24h averages: invalid snapshot prices are counted as
    skipped; valid ones with a spread above 0.5 are counted as an
    unrealistic spread, whatever the 24h averages are; and invalid 24h
    averages are counted as skipped when the spread is at most 0.5.  The
    spread is tested for snapshot prices of at most [2 ^ 53]: there a
    quotient above one half lies above it by more than half the distance
    to the next binary64 number, so that the rounded quotient of line 316
    is above 0.5 exactly when the spread is. *)
Theorem filter_order
    (daily_prices : gmap string Point.t) (item_names : gmap string Info.t)
    (min_volume : Z) (min_margin : R) (available_cash : option Z)
    (item_id : string) (data : Latest.t) (daily_data : Point.t) :
  daily_prices !! item_id = Some daily_data ->
  let verdict :=
    first_pass_item daily_prices item_names min_volume min_margin
      available_cash item_id data in
  let snapshot_invalid :=
    invalid_prices (Py.get0 (Latest.high data)) (Py.get0 (Latest.low data)) in
  let daily_invalid :=
    invalid_prices (Py.get0 (Point.avgHighPrice daily_data))
                   (Py.get0 (Point.avgLowPrice daily_data)) in
  (snapshot_invalid = true -> verdict = Ok skipped_items)
  /\ (forall current_high current_low : Z,
        Py.get0 (Latest.high data) = Some current_high ->
        Py.get0 (Latest.low data) = Some current_low ->
        snapshot_invalid = false ->
        (current_high <= 2 ^ 53)%Z -> (current_low <= 2 ^ 53)%Z ->
        (0.5 < IZR (current_high - current_low) / IZR current_low ->
         verdict = Ok unrealistic_price_items)
        /\ (IZR (current_high - current_low) / IZR current_low <= 0.5 ->
            daily_invalid = true -> verdict = Ok skipped_items)).
Proof.
  intros Hd verdict snapshot_invalid daily_invalid.
  subst verdict snapshot_invalid daily_invalid.
  unfold first_pass_item, invalid_prices. rewrite Hd. split.
  - destruct (Py.get0 (Latest.high data)) as [h|],
             (Py.get0 (Latest.low data)) as [l|]; try reflexivity.
    now intros ->.
  - intros h l -> -> Hs _ _. rewrite Hs.
    apply orb_false_elim in Hs as [_ Hl]. apply Z.leb_gt, IZR_lt in Hl.
    rewrite truediv_ok by lra. cbn [Py.bind]. split.
    + intros H. now rewrite (proj2 (ltb_true _ _) H).
    + intros H. rewrite (proj2 (ltb_false _ _) H).
      destruct (Py.get0 (Point.avgHighPrice daily_data)) as [dh|],
               (Py.get0 (Point.avgLowPrice daily_data)) as [dl|];
        try reflexivity.
      now intros ->.
Qed.

Lemma filter_order_witness :
  first_pass_item
    {["2" := Point.Build Null (Num 100) (Num 1000) (Num 1000)]}
    ∅ 100 0.5 None "2" (Latest.Build (Num 200) (Num 100))
  = Ok unrealistic_price_items.
Proof.
  pose proof (filter_order
    {["2" := Point.Build Null (Num 100) (Num 1000) (Num 1000)]}
    ∅ 100 0.5 None "2" (Latest.Build (Num 200) (Num 100))
    (Point.Build Null (Num 100) (Num 1000) (Num 1000))
    (lookup_singleton_eq _ _)) as [_ H].
  apply (H 200%Z 100%Z eq_refl eq_refl eq_refl); [lia|lia|]. zeval. lra.
Defined.

(** C7, refuted as stated: an item whose 24h average high price is null,
    with a snapshot of 200 over 100 (a spread of 1.0), is counted under
    the unrealistic spreads and not under the skipped items. *)
Lemma missing_average_counted_as_spread :
  let daily_data := Point.Build Null (Num 100) (Num 1000) (Num 1000) in
  let verdict :=
    first_pass_item {["2" := daily_data]} ∅ 100 0.5 None "2"
      (Latest.Build (Num 200) (Num 100)) in
  Py.get0 (Point.avgHighPrice daily_data) = None
  /\ verdict = Ok unrealistic_price_items
  /\ verdict <> Ok skipped_items
  /\ first_pass {["2" := daily_data]} ∅ 100 0.5 None
       [("2", Latest.Build (Num 200) (Num 100))] ([], Counters.zero)
     = Ok ([], Counters.Build 0 0 0 1 0 0 0 0).
Proof.
  intros daily_data verdict.
  assert (E : verdict = Ok unrealistic_price_items).
  { subst verdict daily_data. unfold first_pass_item.
    rewrite lookup_singleton_eq. fields. repeat ztest. zeval. rsteps.
    reflexivity. }
  split; [reflexivity|]. split; [exact E|]. split.
  - rewrite E. discriminate.
  - cbn [first_pass]. fold verdict. rewrite E. reflexivity.
Qed.

End FirstPass.

(** ** Historical statistics *)

Section Statistics.

Local Open Scope R_scope.

Lemma insert_length (x : Z) (xs : list Z) :
  length (Py.insert x xs) = S (length xs).
Proof.
  induction xs as [|y ys IH]; [reflexivity|].
  cbn [Py.insert]. destruct (x <=? y)%Z; cbn [length]; now rewrite ?IH.
Qed.

Lemma sort_length (xs : list Z) : length (Py.sort xs) = length xs.
Proof.
  induction xs as [|x xs IH]; [reflexivity|].
  cbn [Py.sort fold_right]. fold (Py.sort xs).
  now rewrite insert_length, IH.
Qed.

Lemma len_sort (xs : list Z) : Py.len (Py.sort xs) = Py.len xs.
Proof. unfold Py.len. now rewrite sort_length. Qed.

Lemma len_pos {A : Type} (xs : list A) : xs <> [] -> (1 <= Py.len xs)%Z.
Proof. unfold Py.len. destruct xs; [easy|]. cbn [length]. lia. Qed.

Lemma index_ok {A : Type} (xs : list A) (i : Z) :
  (0 <= i < Py.len xs)%Z -> exists x, Py.index xs i = Ok x.
Proof.
  intros H. unfold Py.index, Py.len in *.
  destruct (nth_error xs (Z.to_nat i)) eqn:E; [eauto|].
  apply nth_error_None in E. lia.
Qed.

(** The two positions [int(n * 0.05)] and [int(n * 0.95)]. *)
Lemma int_5_percent (n : Z) :
  (0 <= n)%Z -> Py.int (IZR n * 0.05) = (n * 5 / 100)%Z.
Proof. intros H. apply int_scaled; try lia; lra. Qed.

Lemma int_95_percent (n : Z) :
  (0 <= n)%Z -> Py.int (IZR n * 0.95) = (n * 95 / 100)%Z.
Proof. intros H. apply int_scaled; try lia; lra. Qed.

Lemma positions_in_range (n : Z) :
  (1 <= n)%Z -> (0 <= n * 5 / 100 < n)%Z /\ (0 <= n * 95 / 100 < n)%Z.
Proof.
  intros H. split; (split; [apply Z.div_pos; lia|]);
    apply Z.div_lt_upper_bound; lia.
Qed.

(** A series whose low prices (or, failing that, whose high prices) are
    present but fewer than 20 makes the statistics divide by
    [int(n * 0.05) = 0]. *)
Lemma series_statistics_short (item_data : list Point.t) :
  let high_prices := present Point.avgHighPrice item_data in
  let low_prices := present Point.avgLowPrice item_data in
  high_prices <> [] -> low_prices <> [] ->
  (length low_prices < 20 \/ length high_prices < 20)%nat ->
  series_statistics item_data = Raise ZeroDivisionError.
Proof.
  intros high_prices low_prices Hh Hl Hshort.
  unfold series_statistics. fold high_prices low_prices.
  rewrite !bool_decide_eq_false_2 by assumption. cbn [orb].
  rewrite !len_sort.
  pose proof (len_pos _ Hh) as Nh. pose proof (len_pos _ Hl) as Nl.
  rewrite !int_5_percent, !int_95_percent by lia.
  destruct (positions_in_range _ Nh) as [Ph5 Ph95].
  destruct (positions_in_range _ Nl) as [Pl5 Pl95].
  rewrite <- (len_sort high_prices) in Ph5 at 3.
  rewrite <- (len_sort high_prices) in Ph95 at 3.
  rewrite <- (len_sort low_prices) in Pl5 at 3.
  rewrite <- (len_sort low_prices) in Pl95 at 3.
  destruct (index_ok _ _ Ph5) as [h5 ->], (index_ok _ _ Ph95) as [h95 ->],
           (index_ok _ _ Pl5) as [l5 ->], (index_ok _ _ Pl95) as [l95 ->].
  cbn [Py.bind].
  destruct (decide (length low_prices < 20)%nat) as [Sl|Sl].
  - replace (Py.len low_prices * 5 / 100)%Z with 0%Z
      by (symmetry; apply Z.div_small; unfold Py.len in *; lia).
    rewrite truediv_zero. reflexivity.
  - assert (Sh : (length high_prices < 20)%nat) by lia.
    rewrite truediv_ok.
    2:{ apply not_0_IZR.
        assert (1 <= Py.len low_prices * 5 / 100)%Z; [|lia].
        apply Z.div_le_lower_bound; unfold Py.len in *; lia. }
    cbn [Py.bind].
    replace (Py.len high_prices * 5 / 100)%Z with 0%Z
      by (symmetry; apply Z.div_small; unfold Py.len in *; lia).
    rewrite truediv_zero. reflexivity.
Qed.

Lemma pow_half (x : R) : 0 <= x -> Py.pow x 0.5 = Ok (sqrt x).
Proof.
  intros H. unfold Py.pow.
  destruct (Rlt_dec x 0) as [N|_]; [lra|].
  destruct (Req_dec_T x 0) as [->|N].
  - now rewrite sqrt_0.
  - replace 0.5 with (/ 2) by lra. rewrite Rpower_sqrt by lra. reflexivity.
Qed.

Lemma fold_plus_ge (xs : list R) (acc : R) :
  Forall (fun x => 0 <= x) xs -> acc <= fold_left Rplus xs acc.
Proof.
  intros H. revert acc. induction H as [|x xs Hx _ IH]; intros acc.
  - cbn. lra.
  - cbn [fold_left]. specialize (IH (acc + x)). lra.
Qed.

Lemma squares_nonneg (c : R) (xs : list Z) :
  0 <= Py.fsum (map (fun x => (IZR x - c) ^ 2) xs).
Proof.
  apply fold_plus_ge. apply List.Forall_forall. intros y Hy.
  apply in_map_iff in Hy as (x & <- & _). apply pow2_ge_0.
Qed.

(** With at least 20 high and 20 low prices the statistics are computed:
    the averages divide the sum of the middle slice by [0.9 * n], and so
    do the deviations. *)
Lemma series_statistics_long (item_data : list Point.t) :
  let high_prices := Py.sort (present Point.avgHighPrice item_data) in
  let low_prices := Py.sort (present Point.avgLowPrice item_data) in
  (20 <= Py.len high_prices)%Z -> (20 <= Py.len low_prices)%Z ->
  exists h : Hist.t,
    series_statistics item_data = Ok (Some h)
    /\ Hist.avg_high h = code_average high_prices
    /\ Hist.avg_low h = code_average low_prices
    /\ Hist.high_std h = code_deviation high_prices
    /\ Hist.low_std h = code_deviation low_prices
    /\ Py.index high_prices (Py.len high_prices * 5 / 100)
       = Ok (Hist.high_5th h)
    /\ Py.index high_prices (Py.len high_prices * 95 / 100)
       = Ok (Hist.high_95th h)
    /\ Py.index low_prices (Py.len low_prices * 5 / 100)
       = Ok (Hist.low_5th h)
    /\ Py.index low_prices (Py.len low_prices * 95 / 100)
       = Ok (Hist.low_95th h).
Proof.
  intros high_prices low_prices Nh Nl.
  unfold series_statistics.
  assert (Hh : present Point.avgHighPrice item_data <> []).
  { intros E. subst high_prices. rewrite E in Nh.
    unfold Py.len, Py.sort in Nh. cbn [fold_right length] in Nh. lia. }
  assert (Hl : present Point.avgLowPrice item_data <> []).
  { intros E. subst low_prices. rewrite E in Nl.
    unfold Py.len, Py.sort in Nl. cbn [fold_right length] in Nl. lia. }
  rewrite !bool_decide_eq_false_2 by assumption. cbn [orb].
  fold high_prices low_prices.
  rewrite !int_5_percent, !int_95_percent by lia.
  destruct (positions_in_range (Py.len high_prices)) as [Ph5 Ph95]; [lia|].
  destruct (positions_in_range (Py.len low_prices)) as [Pl5 Pl95]; [lia|].
  destruct (index_ok _ _ Ph5) as [h5 Eh5], (index_ok _ _ Ph95) as [h95 Eh95],
           (index_ok _ _ Pl5) as [l5 El5], (index_ok _ _ Pl95) as [l95 El95].
  rewrite Eh5, Eh95, El5, El95. cbn [Py.bind].
  assert (Qh : (1 <= Py.len high_prices * 5 / 100)%Z)
    by (apply Z.div_le_lower_bound; lia).
  assert (Ql : (1 <= Py.len low_prices * 5 / 100)%Z)
    by (apply Z.div_le_lower_bound; lia).
  assert (Rh : 20 <= IZR (Py.len high_prices)) by now apply IZR_le.
  assert (Rl : 20 <= IZR (Py.len low_prices)) by now apply IZR_le.
  rewrite (truediv_ok _ (IZR (Py.len low_prices * 5 / 100)))
    by (apply not_0_IZR; lia).
  cbn [Py.bind].
  rewrite (truediv_ok _ (IZR (Py.len high_prices * 5 / 100)))
    by (apply not_0_IZR; lia).
  cbn [Py.bind].
  rewrite (truediv_ok _ (IZR (Py.len low_prices - _)))
    by (apply not_0_IZR; lia).
  cbn [Py.bind].
  rewrite (truediv_ok _ (IZR (Py.len high_prices - _)))
    by (apply not_0_IZR; lia).
  cbn [Py.bind].
  rewrite (truediv_ok _ (IZR (Py.len high_prices) * 0.9)) by lra.
  cbn [Py.bind].
  rewrite (truediv_ok _ (IZR (Py.len low_prices) * 0.9)) by lra.
  cbn [Py.bind].
  rewrite (truediv_ok _ (IZR (Py.len high_prices) * 0.9)) by lra.
  cbn [Py.bind].
  rewrite pow_half.
  2:{ apply Rmult_le_pos; [apply squares_nonneg|].
      left. apply Rinv_0_lt_compat. lra. }
  cbn [Py.bind].
  rewrite (truediv_ok _ (IZR (Py.len low_prices) * 0.9)) by lra.
  cbn [Py.bind].
  rewrite pow_half.
  2:{ apply Rmult_le_pos; [apply squares_nonneg|].
      left. apply Rinv_0_lt_compat. lra. }
  cbn [Py.bind].
  assert (V : forall vs : list Z,
            exists v, (if bool_decide (vs = []) then Ok 0
                       else Py.truediv (IZR (Py.sum vs)) (IZR (Py.len vs)))
                      = Ok v).
  { intros vs. destruct (decide (vs = [])) as [E|E].
    - rewrite bool_decide_eq_true_2 by assumption. eauto.
    - rewrite bool_decide_eq_false_2 by assumption.
      rewrite truediv_ok; [eauto|].
      apply not_0_IZR. pose proof (len_pos vs E). lia. }
  destruct (V (present Point.highPriceVolume item_data)) as [vh ->].
  destruct (V (present Point.lowPriceVolume item_data)) as [vl ->].
  cbn [Py.bind]. eexists. split; [reflexivity|].
  cbn [Hist.avg_high Hist.avg_low Hist.high_std Hist.low_std Hist.high_5th
       Hist.high_95th Hist.low_5th Hist.low_95th].
  repeat split; reflexivity.
Qed.

End Statistics.

Section TrimmedAverage.

Local Open Scope R_scope.

Lemma middle_len (prices : list Z) :
  Py.len (middle prices)
  = (Py.len prices * 95 / 100 - Py.len prices * 5 / 100)%Z.
Proof.
  unfold middle, Py.slice, Py.len. rewrite length_take, length_drop.
  set (n := Z.of_nat (length prices)).
  assert (0 <= n)%Z by lia.
  assert (0 <= n * 5 / 100 <= n * 95 / 100 /\ n * 95 / 100 <= n)%Z
    by (Z.to_euclidean_division_equations; lia).
  lia.
Qed.

(** When the number of prices is a multiple of 10, [0.9 * n] is the size
    of the middle slice, and the average of lines 204-205 is its mean. *)
Lemma code_average_mean (prices : list Z) :
  (Py.len prices mod 10 = 0)%Z ->
  code_average prices = mean (middle prices).
Proof.
  intros H. unfold code_average, mean. f_equal.
  rewrite middle_len. set (n := Py.len prices) in *.
  assert (E : ((n * 95 / 100 - n * 5 / 100) * 10 = 9 * n)%Z)
    by (Z.to_euclidean_division_equations; lia).
  apply (f_equal IZR) in E. rewrite !mult_IZR in E. lra.
Qed.

(** C2, at a failing input.  On 21 daily points, all at a high price of
    11000, the middle slice holds 18 prices, all 11000: its mean is 11000
    and its population standard deviation is 0.  The code divides the sum
    of the slice by [21 * 0.9 = 18.9] instead of 18, and reports an
    average high of 198000 / 18.9 (about 10476.19) and a non-zero
    deviation. *)
Theorem average_divides_by_nine_tenths_of_length :
  let prices := Py.sort (present Point.avgHighPrice Example.twenty_one) in
  exists h : Hist.t,
    series_statistics Example.twenty_one = Ok (Some h)
    /\ middle prices = repeat 11000%Z 18
    /\ mean (middle prices) = 11000
    /\ population_std (middle prices) = 0
    /\ Hist.avg_high h = 198000 / 18.9
    /\ Hist.avg_high h <> mean (middle prices)
    /\ Hist.high_std h <> population_std (middle prices).
Proof.
  intros prices.
  destruct (series_statistics_long Example.twenty_one)
    as (h & E & Ah & _ & Sh & _); [vm_compute; discriminate ..|].
  fold prices in Ah, Sh.
  assert (M : middle prices = repeat 11000%Z 18) by (vm_compute; reflexivity).
  assert (Mean : mean (middle prices) = 11000).
  { unfold mean. rewrite M. zeval. lra. }
  assert (Std : population_std (middle prices) = 0).
  { unfold population_std. rewrite Mean, M. zeval.
    cbn [repeat map]. unfold Py.fsum. cbn [fold_left].
    replace (_ / 18) with 0 by lra. apply sqrt_0. }
  assert (Avg : Hist.avg_high h = 198000 / 18.9).
  { rewrite Ah. unfold code_average. rewrite M. zeval. lra. }
  exists h. repeat split; trivial.
  - rewrite Avg, Mean. lra.
  - rewrite Std, Sh. unfold code_deviation. rewrite <- Ah, Avg, M. zeval.
    cbn [repeat map]. unfold Py.fsum. cbn [fold_left].
    apply Rgt_not_eq, sqrt_lt_R0. lra.
Qed.

End TrimmedAverage.

(** ** Consistency rounds *)

Section ConsistencyPasses.

Variable timeseries : string -> response.

Lemma get_7d_prices_from_lookup (item_ids : list string) :
  forall (results m : gmap string Hist.t),
    get_7d_prices_from timeseries item_ids results = Ok m ->
    forall item_id : string,
      m !! item_id
      = if decide (item_id ∈ item_ids)
        then from_option Some (results !! item_id)
                         (history timeseries item_id)
        else results !! item_id.
Proof.
  induction item_ids as [|i rest IH]; intros results m H item_id.
  - cbn in H. injection H as <-.
    destruct (decide (item_id ∈ [])) as [E|_]; [|reflexivity].
    now apply not_elem_of_nil in E.
  - cbn [get_7d_prices_from] in H.
    destruct (item_statistics (timeseries i)) as [found|e] eqn:Ei;
      [|discriminate H].
    cbn [Py.bind] in H.
    assert (Hi : history timeseries i = found)
      by (unfold history; now rewrite Ei).
    destruct found as [h|]; apply IH with (item_id := item_id) in H;
      rewrite H; clear H.
    + destruct (decide (item_id = i)) as [->|Ne].
      * rewrite Hi, lookup_insert_eq. 
        rewrite (decide_True (P := i ∈ i :: rest)) by apply list_elem_of_here.
        cbn. now destruct (decide (i ∈ rest)).
      * rewrite lookup_insert_ne by congruence.
        destruct (decide (item_id ∈ rest)) as [E|E].
        -- rewrite decide_True by now apply list_elem_of_further.
           reflexivity.
        -- rewrite decide_False; [reflexivity|].
           intros [?|?]%elem_of_cons; contradiction.
    + destruct (decide (item_id = i)) as [->|Ne].
      * rewrite (decide_True (P := i ∈ i :: rest)) by apply list_elem_of_here.
        rewrite Hi. cbn. now destruct (decide (i ∈ rest)).
      * destruct (decide (item_id ∈ rest)) as [E|E].
        -- rewrite decide_True by now apply list_elem_of_further.
           reflexivity.
        -- rewrite decide_False; [reflexivity|].
           intros [?|?]%elem_of_cons; contradiction.
Qed.

(** After a call that returns, the dictionary holds, for each requested
    id, the statistics of its reply. *)
Lemma get_7d_prices_lookup (item_ids : list string)
    (m : gmap string Hist.t) (item_id : string) :
  get_7d_prices timeseries item_ids = Ok m ->
  item_id ∈ item_ids ->
  m !! item_id = history timeseries item_id.
Proof.
  intros H E. unfold get_7d_prices in H.
  rewrite (get_7d_prices_from_lookup _ _ _ H), decide_True by assumption.
  rewrite lookup_empty. now destruct (history timeseries item_id).
Qed.

Lemma consistent_has_history (o : Opp.t) :
  consistent timeseries o = true ->
  exists h, history timeseries (Opp.item_id o) = Some h
            /\ enriched timeseries o
               = Opp.set_weekly (Hist.avg_high h) (Hist.avg_low h) o.
Proof.
  unfold consistent, enriched.
  destruct (history timeseries (Opp.item_id o)) as [h|]; [eauto|].
  discriminate.
Qed.

(** A pass without [break] keeps the consistent candidates of the batch,
    in order, and counts the others. *)
Lemma consistency_pass_all (historical_data : gmap string Hist.t)
    (batch : list Opp.t) :
  Forall (fun o => historical_data !! Opp.item_id o
                   = history timeseries (Opp.item_id o)) batch ->
  forall (filtered : list Opp.t) (rejected : nat),
    consistency_pass false historical_data batch filtered rejected
    = Ok (filtered
            ++ map (enriched timeseries)
                   (List.filter (consistent timeseries) batch),
          (rejected + (length batch
                       - length (List.filter (consistent timeseries) batch)))
          %nat).
Proof.
  induction 1 as [|o rest Ho _ IH]; intros filtered rejected.
  - cbn. rewrite app_nil_r. do 2 f_equal. lia.
  - cbn [consistency_pass List.filter]. rewrite Ho.
    fold (consistent timeseries o).
    destruct (consistent timeseries o) eqn:C; cbn [negb].
    + destruct (consistent_has_history o C) as (h & -> & Eh).
      cbn [andb]. rewrite IH, <- Eh. cbn [map length].
      rewrite <- app_assoc. cbn [app]. do 2 f_equal.
    + rewrite IH. do 2 f_equal. cbn [length].
      pose proof (List.filter_length_le (consistent timeseries) rest). lia.
Qed.

(** A pass with [break], started below 20, keeps the consistent
    candidates of the batch until 20 are reached. *)
Lemma consistency_pass_break (historical_data : gmap string Hist.t)
    (batch : list Opp.t) :
  Forall (fun o => historical_data !! Opp.item_id o
                   = history timeseries (Opp.item_id o)) batch ->
  forall (filtered : list Opp.t) (rejected : nat),
    (length filtered < 20)%nat ->
    exists rejected' : nat,
      consistency_pass true historical_data batch filtered rejected
      = Ok (filtered
              ++ map (enriched timeseries)
                     (take (20 - length filtered)
                           (List.filter (consistent timeseries) batch)),
            rejected').
Proof.
  induction 1 as [|o rest Ho _ IH]; intros filtered rejected Hlt.
  - cbn. rewrite take_nil. cbn. rewrite app_nil_r. eauto.
  - cbn [consistency_pass List.filter]. rewrite Ho.
    fold (consistent timeseries o).
    destruct (consistent timeseries o) eqn:C; cbn [negb].
    + destruct (consistent_has_history o C) as (h & -> & Eh).
      cbn [andb]. rewrite <- Eh.
      destruct (20 - length filtered)%nat as [|k] eqn:K; [lia|].
      cbn [take map].
      destruct (bool_decide (20 <= length (filtered ++ [enriched timeseries o]))%nat)
        eqn:B.
      * apply bool_decide_eq_true_1 in B. rewrite length_app in B.
        cbn [length] in B. assert (k = 0)%nat as -> by lia.
        rewrite take_0. eauto.
      * apply bool_decide_eq_false_1 in B. rewrite length_app in B.
        cbn [length] in B.
        destruct (IH (filtered ++ [enriched timeseries o]) rejected)
          as [r' ->].
        { rewrite length_app. cbn [length]. lia. }
        exists r'. rewrite length_app. cbn [length].
        replace (20 - (length filtered + 1))%nat with k by lia.
        now rewrite <- app_assoc.
    + apply IH. assumption.
Qed.

End ConsistencyPasses.

Section RoundsLoop.

Lemma take_length_take {A : Type} (k : nat) (l : list A) :
  take (length (take k l)) l = take k l.
Proof.
  rewrite length_take. destruct (Nat.le_ge_cases k (length l)) as [H|H].
  - now rewrite Nat.min_l.
  - rewrite Nat.min_r by assumption. now rewrite !take_ge.
Qed.

(** Once [n] candidates passed within the first [k], or the list has no
    more than [k], the first [n] that pass are found within the first
    [k]. *)
Lemma take_filter_prefix {A : Type} (c : A -> bool) (n k : nat)
    (l : list A) :
  (n <= length (List.filter c (take k l)) \/ length l <= k)%nat ->
  take n (List.filter c l) = take n (List.filter c (take k l)).
Proof.
  intros [H|H].
  - rewrite <- (take_drop k l) at 1. rewrite List.filter_app, take_app.
    replace (n - length (List.filter c (take k l)))%nat with 0%nat by lia.
    now rewrite take_0, app_nil_r.
  - now rewrite (take_ge l k).
Qed.

Lemma enriched_ids (timeseries : string -> response) (l : list Opp.t) :
  map Opp.item_id (map (enriched timeseries) l) = map Opp.item_id l.
Proof.
  rewrite map_map. apply map_ext. intros o. unfold enriched.
  now destruct (history timeseries (Opp.item_id o)).
Qed.

Lemma rounds_exit (timeseries : string -> response)
    (opportunities : list Opp.t) (st : Rounds.t) :
  rounds_invariant timeseries opportunities st ->
  (20 <= length (Rounds.filtered_opportunities st)
   \/ length opportunities <= 20 + Rounds.filtered_count st)%nat ->
  rounds_final timeseries opportunities st.
Proof.
  intros [Hf Hr] Hexit. split; [|eauto].
  rewrite Hf. f_equal. symmetry. apply take_filter_prefix.
  destruct Hexit as [H|H]; [left|now right].
  rewrite Hf, length_map, length_take in H. lia.
Qed.

Lemma batch_history (timeseries : string -> response)
    (batch : list Opp.t) (m : gmap string Hist.t) :
  get_7d_prices timeseries (map Opp.item_id batch) = Ok m ->
  Forall (fun o => m !! Opp.item_id o
                   = history timeseries (Opp.item_id o)) batch.
Proof.
  intros H. apply List.Forall_forall. intros o Ho.
  apply (get_7d_prices_lookup _ _ _ _ H).
  apply list_elem_of_In. now apply in_map.
Qed.

Lemma more_replacements_final (timeseries : string -> response)
    (opportunities : list Opp.t) (st : Rounds.t) :
  rounds_invariant timeseries opportunities st ->
  forall st' : Rounds.t,
    more_replacements timeseries opportunities st = Ok st' ->
    rounds_final timeseries opportunities st'.
Proof.
  apply (more_replacements_elim
           (fun ts opps st res =>
              rounds_invariant ts opps st ->
              forall st', res = Ok st' -> rounds_final ts opps st')).
  - clear. intros ts opps st [Hlen Hmore] IH _ Inv st' H.
    cbv zeta in IH, H.
    set (start := (20 + Rounds.filtered_count st)%nat) in *.
    set (batch := take (Nat.min (start + 5) (length opps) - start)
                       (drop start opps)) in *.
    destruct (get_7d_prices ts (map Opp.item_id batch)) as [m|e] eqn:G;
      [|discriminate H].
    destruct Inv as [Hf Hr].
    destruct (consistency_pass_break ts m batch (batch_history ts _ _ G)
                (Rounds.filtered_opportunities st) 0%nat Hlen) as [r' E].
    rewrite E in H.
    apply (IH m (Rounds.filtered_opportunities st, r') _ r') in H;
      [exact H|].
    assert (Hpre : take (20 + (Rounds.filtered_count st + length batch)) opps
                   = take start opps ++ batch).
    { rewrite Nat.add_assoc. fold start. rewrite <- take_take_drop.
      f_equal. subst batch. apply take_length_take. }
    clearbody batch. subst start.
    split; cbn [Rounds.filtered_opportunities Rounds.filtered_count
                Rounds.requested].
    + rewrite Hpre, List.filter_app, take_app.
      rewrite Hf, length_map in Hlen.
      rewrite length_take in Hlen.
      assert (Hall : forall l : list Opp.t,
                 (length l < 20)%nat -> take 20 l = l)
        by (intros l Hl; apply take_ge; lia).
      rewrite Hf, length_map, !Hall, map_app by lia. reflexivity.
    + rewrite concat_app, Hr, Hpre, map_app. cbn [concat].
      now rewrite app_nil_r.
  - clear. intros ts opps st Hn _ Inv st' H. injection H as <-.
    apply rounds_exit; [assumption|]. lia.
Qed.

Lemma consistency_rounds_final (timeseries : string -> response)
    (opportunities : list Opp.t) (st : Rounds.t) :
  consistency_rounds timeseries opportunities = Ok st ->
  rounds_final timeseries opportunities st.
Proof.
  unfold consistency_rounds. intros H.
  destruct (get_7d_prices timeseries (map Opp.item_id (take 20 opportunities)))
    as [m|e] eqn:G; [|discriminate H].
  cbn [Py.bind] in H.
  rewrite (consistency_pass_all timeseries m _ (batch_history _ _ _ G)) in H.
  cbn [Py.bind app] in H.
  set (top := take 20 opportunities) in *.
  set (kept := List.filter (consistent timeseries) top) in *.
  set (count := (0 + (length top - length kept))%nat) in *.
  assert (Htop : (length top <= 20)%nat)
    by (subst top; rewrite length_take; lia).
  assert (Hkept : (length kept <= length top)%nat)
    by apply List.filter_length_le.
  assert (Hall : take 20 kept = kept) by (apply take_ge; lia).
  destruct (bool_decide (0 < count)%nat) eqn:B.
  - destruct (get_7d_prices timeseries
                (map Opp.item_id (take count (drop 20 opportunities))))
      as [m2|e] eqn:G2; [|discriminate H].
    cbn [Py.bind] in H.
    rewrite (consistency_pass_all timeseries m2 _ (batch_history _ _ _ G2))
      in H.
    cbn [Py.bind] in H.
    apply more_replacements_final in H; [exact H|].
    set (repl := take count (drop 20 opportunities)) in *.
    assert (Hrepl : (length (List.filter (consistent timeseries) repl)
                     <= count)%nat).
    { etransitivity; [apply List.filter_length_le|].
      subst repl. rewrite length_take. lia. }
    assert (Hpre : take (20 + count) opportunities = top ++ repl)
      by (subst top repl; now rewrite take_take_drop).
    split; cbn [Rounds.filtered_opportunities Rounds.filtered_count
                Rounds.requested].
    + rewrite Hpre, List.filter_app. fold kept.
      rewrite take_ge by (rewrite length_app; subst count; lia).
      now rewrite map_app.
    + rewrite Hpre, map_app. cbn [concat]. now rewrite app_nil_r.
  - apply bool_decide_eq_false_1 in B. injection H as <-.
    apply rounds_exit.
    + split; cbn [Rounds.filtered_opportunities Rounds.filtered_count
                  Rounds.requested].
      * replace (20 + count)%nat with 20%nat by lia. fold top kept.
        now rewrite Hall.
      * replace (20 + count)%nat with 20%nat by lia. cbn [concat].
        now rewrite app_nil_r.
    + cbn [Rounds.filtered_opportunities Rounds.filtered_count].
      rewrite length_map. subst count.
      assert (length top = Nat.min 20 (length opportunities))
        by (subst top; apply length_take).
      lia.
Qed.

End RoundsLoop.

(** ** The whole analysis *)

Section Analysis.

Local Open Scope R_scope.

(** *** Ranking *)

Lemma insert_by_score_perm (o : Opp.t) (l : list Opp.t) :
  Permutation (insert_by_score o l) (o :: l).
Proof.
  induction l as [|x rest IH]; [reflexivity|].
  cbn [insert_by_score]. destruct (Py.ltb _ _); [|reflexivity].
  rewrite IH. apply perm_swap.
Qed.

Lemma sort_by_score_perm (l : list Opp.t) : Permutation (sort_by_score l) l.
Proof.
  induction l as [|o rest IH]; [reflexivity|].
  cbn [sort_by_score fold_right]. fold (sort_by_score rest).
  now rewrite insert_by_score_perm, IH.
Qed.

Lemma insert_by_score_sorted (o : Opp.t) (l : list Opp.t) :
  StronglySorted descending l -> StronglySorted descending (insert_by_score o l).
Proof.
  induction 1 as [|x rest Hs IH Hx].
  - repeat constructor.
  - cbn [insert_by_score]. destruct (Py.ltb _ _) eqn:C.
    + apply ltb_true in C. constructor; [assumption|].
      rewrite insert_by_score_perm. constructor; [|assumption].
      unfold descending. lra.
    + apply ltb_false in C. constructor; [now constructor|].
      constructor; [exact C|].
      eapply Forall_impl; [exact Hx|]. unfold descending. intros y Hy. lra.
Qed.

Lemma sort_by_score_sorted (l : list Opp.t) :
  StronglySorted descending (sort_by_score l).
Proof.
  induction l as [|o rest IH]; [constructor|].
  cbn [sort_by_score fold_right]. now apply insert_by_score_sorted.
Qed.

(** *** The opportunities of the first pass *)

Lemma first_pass_item_id
    (daily_prices : gmap string Point.t) (item_names : gmap string Info.t)
    (min_volume : Z) (min_margin : R) (available_cash : option Z)
    (item_id : string) (data : Latest.t) (o : Opp.t) :
  first_pass_item daily_prices item_names min_volume min_margin
    available_cash item_id data = Ok (append o) ->
  Opp.item_id o = item_id /\ Opp.raw_score o <> 0.
Proof.
  unfold first_pass_item, Py.bind. intros H.
  repeat match type of H with
         | context [match ?x with _ => _ end] =>
             destruct x eqn:?; try discriminate H
         end;
    injection H as <-; cbn [Opp.item_id Opp.raw_score];
    (split; [reflexivity|now apply eqb_false]).
Qed.

Lemma sublist_map {A B : Type} (f : A -> B) (l k : list A) :
  sublist l k -> sublist (map f l) (map f k).
Proof. induction 1; cbn [map]; now constructor. Qed.

Lemma first_pass_ids
    (daily_prices : gmap string Point.t) (item_names : gmap string Info.t)
    (min_volume : Z) (min_margin : R) (available_cash : option Z)
    (items : list (string * Latest.t)) :
  forall (st : list Opp.t * Counters.t) (opps : list Opp.t)
         (c : Counters.t),
    first_pass daily_prices item_names min_volume min_margin available_cash
      items st = Ok (opps, c) ->
    exists kept : list Opp.t,
      opps = st.1 ++ kept
      /\ sublist (map Opp.item_id kept) (map fst items)
      /\ Forall (fun o => Opp.raw_score o <> 0) kept.
Proof.
  induction items as [|[item_id data] rest IH]; intros st opps c H.
  - cbn in H. injection H as ->. exists []. rewrite app_nil_r.
    repeat split; constructor.
  - cbn [first_pass] in H.
    destruct (first_pass_item _ _ _ _ _ item_id data) as [v|e] eqn:E;
      [|discriminate H].
    cbn [Py.bind] in H. apply IH in H as (kept & -> & Hsub & Hall).
    destruct st as [opps0 c0], c0.
    destruct v; cbn [record_verdict fst];
      try (exists kept; repeat split; [now constructor|assumption]).
    apply first_pass_item_id in E as [Eid Escore].
    exists (o :: kept). rewrite <- app_assoc. cbn [app map fst].
    rewrite Eid. repeat split; now constructor.
Qed.

(** *** Normalisation *)

Lemma set_scores_ids (max_score : R) (l l' : list Opp.t) :
  set_scores max_score l = Ok l' ->
  map Opp.item_id l' = map Opp.item_id l.
Proof.
  revert l'. induction l as [|o rest IH]; intros l' H.
  - cbn in H. now injection H as <-.
  - cbn [set_scores] in H.
    destruct (Py.truediv _ _); [|discriminate H]. cbn [Py.bind] in H.
    destruct (set_scores max_score rest) as [rest'|]; [|discriminate H].
    cbn [Py.bind] in H. injection H as <-. cbn [map]. f_equal.
    now apply IH.
Qed.

Lemma normalize_ids (l l' : list Opp.t) :
  normalize l = Ok l' -> map Opp.item_id l' = map Opp.item_id l.
Proof.
  unfold normalize. destruct l as [|o rest].
  - intros H. now injection H as <-.
  - apply set_scores_ids.
Qed.

End Analysis.

(** ** Short histories *)

Section ShortHistory.

Local Open Scope R_scope.

(** The statistics of a series either are skipped, or divide by zero, or
    are computed: no other exception escapes. *)
Lemma series_statistics_raise (item_data : list Point.t) (e : exn) :
  series_statistics item_data = Raise e -> e = ZeroDivisionError.
Proof.
  intros H.
  destruct (decide (present Point.avgHighPrice item_data = [])) as [Eh|Eh].
  { unfold series_statistics in H.
    rewrite (bool_decide_eq_true_2 _ Eh) in H. discriminate H. }
  destruct (decide (present Point.avgLowPrice item_data = [])) as [El|El].
  { unfold series_statistics in H.
    rewrite (bool_decide_eq_true_2 _ El), orb_true_r in H. discriminate H. }
  destruct (decide (length (present Point.avgLowPrice item_data) < 20
                    \/ length (present Point.avgHighPrice item_data) < 20)%nat)
    as [S|S].
  - rewrite (series_statistics_short item_data Eh El S) in H. congruence.
  - destruct (series_statistics_long item_data) as (h & E & _).
    + rewrite len_sort. unfold Py.len. lia.
    + rewrite len_sort. unfold Py.len. lia.
    + congruence.
Qed.

Lemma item_statistics_raise (reply : response) (e : exn) :
  item_statistics reply = Raise e -> e = ZeroDivisionError.
Proof.
  destruct reply as [|[[|p ps]|]]; cbn [item_statistics]; try discriminate.
  apply series_statistics_raise.
Qed.

Lemma get_7d_prices_from_raise (timeseries : string -> response)
    (item_ids : list string) (item_id : string) (e : exn) :
  item_id ∈ item_ids ->
  item_statistics (timeseries item_id) = Raise e ->
  forall results,
    get_7d_prices_from timeseries item_ids results = Raise ZeroDivisionError.
Proof.
  intros Hin Hraise. induction item_ids as [|i rest IH]; intros results.
  - now apply not_elem_of_nil in Hin.
  - cbn [get_7d_prices_from].
    destruct (item_statistics (timeseries i)) as [found|e'] eqn:E.
    + cbn [Py.bind]. apply elem_of_cons in Hin as [->|Hin]; [congruence|].
      destruct found; now apply IH.
    + cbn [Py.bind]. now rewrite (item_statistics_raise _ _ E).
Qed.

(** C1, against the code.  When a candidate of the top 20 has a history
    whose low prices, or whose high prices, are present but fewer than 20
    (so that [int(n * 0.05)] is 0), its statistics raise
    [ZeroDivisionError], nothing catches it, and the whole analysis ends
    with that exception instead of rejecting the candidate. *)
Theorem short_history_aborts_analysis (w : World.t) (min_volume : Z)
    (min_margin : R) (available_cash : option Z) (ranked : list Opp.t)
    (counters : Counters.t) (o : Opp.t) (item_data : list Point.t) :
  ranked_opportunities w min_volume min_margin available_cash
  = Ok (ranked, counters) ->
  o ∈ take 20 ranked ->
  World.timeseries w (Opp.item_id o) = Json (Some item_data) ->
  present Point.avgHighPrice item_data <> [] ->
  present Point.avgLowPrice item_data <> [] ->
  (length (present Point.avgLowPrice item_data) < 20
   \/ length (present Point.avgHighPrice item_data) < 20)%nat ->
  series_statistics item_data = Raise ZeroDivisionError
  /\ get_7d_prices (World.timeseries w) (map Opp.item_id (take 20 ranked))
     = Raise ZeroDivisionError
  /\ analyze_flipping_opportunities w min_volume min_margin available_cash
     = Raise ZeroDivisionError.
Proof.
  intros Hr Ho Hts Hh Hl Hshort.
  pose proof (series_statistics_short item_data Hh Hl Hshort) as E.
  assert (G : get_7d_prices (World.timeseries w)
                (map Opp.item_id (take 20 ranked))
              = Raise ZeroDivisionError).
  { apply get_7d_prices_from_raise
      with (item_id := Opp.item_id o) (e := ZeroDivisionError).
    - apply list_elem_of_In, in_map. now apply list_elem_of_In.
    - rewrite Hts. destruct item_data as [|p ps]; [|exact E].
      now cbn in Hh. }
  repeat split; trivial.
  unfold analyze_flipping_opportunities. rewrite Hr. cbn [Py.bind].
  unfold consistency_rounds. rewrite G. reflexivity.
Qed.

End ShortHistory.

(** ** The accepted set *)

Section AcceptedSet.

Local Open Scope R_scope.

(** The first pass keeps the example item, with a positive raw score. *)
Lemma example_ranked (reply : response) :
  exists o : Opp.t,
    ranked_opportunities (Example.world reply) 100 0.5 None
    = Ok ([o], Counters.zero)
    /\ Opp.item_id o = "2" /\ Opp.sell_price o = 11000%Z
    /\ Opp.buy_price o = 10000%Z /\ 0 < Opp.raw_score o.
Proof.
  unfold ranked_opportunities, Example.world.
  cbn [World.daily_prices World.item_names World.latest_prices first_pass].
  unfold first_pass_item. rewrite !lookup_singleton_eq.
  unfold Example.latest, Example.point, Example.info. fields.
  rewrite ge_tax_quotient. repeat ztest. zeval. rsteps. repeat ztest.
  cbn [Py.truthy andb]. rsteps.
  rewrite score_unpenalised; try lia; [|lra|split; zeval; lra].
  cbn [Py.bind].
  set (s := unpenalised_score _ _ _ _ _ _).
  assert (Hs : 0 < s).
  { subst s. unfold unpenalised_score. zeval. rsteps. lra. }
  replace (Py.eqb s 0) with false by (symmetry; apply eqb_false; lra).
  cbn [Py.bind record_verdict Counters.zero app sort_by_score fold_right
       insert_by_score].
  eexists. split; [reflexivity|]. cbn. repeat split; trivial.
Qed.

Lemma short_history_aborts_analysis_witness :
  length (present Point.avgLowPrice Example.week) = 7%nat
  /\ analyze_flipping_opportunities
       (Example.world (Json (Some Example.week))) 100 0.5 None
     = Raise ZeroDivisionError.
Proof.
  split; [reflexivity|].
  destruct (example_ranked (Json (Some Example.week)))
    as (o & Hr & Hid & _).
  refine (proj2 (proj2 (short_history_aborts_analysis _ _ _ _ [o] _ o
                          Example.week Hr _ eq_refl _ _ _))).
  - cbn [take]. apply list_elem_of_here.
  - vm_compute. discriminate.
  - vm_compute. discriminate.
  - left. vm_compute. lia.
Defined.

(** C4, as the code has it.  When the analysis completes, the returned
    list is made of the first 20 candidates of the ranked pool that pass
    the consistency check, fewer when fewer pass: its size is the minimum
    of 20 and the number of consistent candidates, which is at most the
    minimum of 20 and the number of ranked candidates; its item ids are
    distinct and follow the rank order of the pool, which is descending
    in raw score; and the batches requested from [/timeseries], put end
    to end, are a prefix of the ranked ids, so that each candidate is
    requested in at most one round. *)
Theorem accepted_set_invariant (w : World.t) (min_volume : Z)
    (min_margin : R) (available_cash : option Z) (report : Report.t) :
  NoDup (map fst (World.latest_prices w)) ->
  analyze_flipping_opportunities w min_volume min_margin available_cash
  = Ok report ->
  exists (ranked : list Opp.t) (counters : Counters.t),
    ranked_opportunities w min_volume min_margin available_cash
    = Ok (ranked, counters)
    /\ StronglySorted descending ranked
    /\ Forall (fun o => Opp.raw_score o <> 0) ranked
    /\ map Opp.item_id (Report.opportunities report)
       = map Opp.item_id
           (take 20 (List.filter (consistent (World.timeseries w)) ranked))
    /\ length (Report.opportunities report)
       = Nat.min 20
           (length (List.filter (consistent (World.timeseries w)) ranked))
    /\ (length (Report.opportunities report)
        <= Nat.min 20 (length ranked))%nat
    /\ NoDup (map Opp.item_id (Report.opportunities report))
    /\ sublist (map Opp.item_id (Report.opportunities report))
               (map Opp.item_id ranked)
    /\ (exists k : nat,
          concat (Report.requested report)
          = map Opp.item_id (take k ranked))
    /\ NoDup (concat (Report.requested report)).
Proof.
  intros Hkeys H. unfold analyze_flipping_opportunities in H.
  destruct (ranked_opportunities w min_volume min_margin available_cash)
    as [[ranked counters]|e] eqn:Hr; [|discriminate H].
  cbn [Py.bind] in H.
  destruct (consistency_rounds (World.timeseries w) ranked) as [st|e] eqn:Hc;
    [|discriminate H].
  cbn [Py.bind] in H.
  destruct (normalize (Rounds.filtered_opportunities st)) as [fo|e] eqn:Hn;
    [|discriminate H].
  cbn [Py.bind] in H. injection H as <-.
  cbn [Report.opportunities Report.requested].
  apply consistency_rounds_final in Hc as [Hf [k Hk]].
  apply normalize_ids in Hn. rewrite Hf, enriched_ids in Hn.
  (* the ranked pool *)
  unfold ranked_opportunities in Hr.
  destruct (first_pass _ _ _ _ _ _ _) as [[opps c]|e] eqn:Hp;
    [|discriminate Hr].
  cbn [Py.bind] in Hr. injection Hr as <- <-.
  apply first_pass_ids in Hp as (kept & -> & Hsub & Hscore).
  cbn [fst app] in *.
  assert (Hnodup : NoDup (map Opp.item_id (sort_by_score kept))).
  { rewrite (Permutation_map Opp.item_id (sort_by_score_perm kept)).
    eapply sublist_NoDup; eassumption. }
  set (ranked := sort_by_score kept) in *.
  set (passing := List.filter (consistent (World.timeseries w)) ranked) in *.
  assert (Hsubl : sublist (map Opp.item_id (take 20 passing))
                          (map Opp.item_id ranked)).
  { apply sublist_map. etransitivity; [apply sublist_take|].
    subst passing. clear. induction ranked as [|o l IH]; [constructor|].
    cbn [List.filter]. destruct (consistent _ o); now constructor. }
  assert (Hlen : length fo = Nat.min 20 (length passing)).
  { rewrite <- (length_map Opp.item_id fo), Hn, length_map.
    apply length_take. }
  exists ranked, c. repeat split; trivial.
  - apply sort_by_score_sorted.
  - apply List.Forall_forall. intros o Ho.
    apply (Permutation_in _ (sort_by_score_perm kept)) in Ho.
    revert o Ho. now apply List.Forall_forall.
  - rewrite Hlen.
    pose proof (List.filter_length_le (consistent (World.timeseries w))
                  ranked). fold passing in H. lia.
  - rewrite Hn. eapply sublist_NoDup; eassumption.
  - now rewrite Hn.
  - eauto.
  - rewrite Hk. eapply sublist_NoDup; [exact Hnodup|apply sublist_map, sublist_take].
Qed.

(** The statistics of twenty daily points at the current prices accept
    the example item. *)
Lemma example_twenty :
  exists h : Hist.t,
    series_statistics Example.twenty = Ok (Some h)
    /\ _is_price_consistent 11000 10000 (Some h) = true.
Proof.
  destruct (series_statistics_long Example.twenty)
    as (h & E & Ah & Al & Sh & Sl & P1 & P2 & P3 & P4);
    [vm_compute; discriminate ..|].
  exists h. split; [exact E|].
  set (highs := Py.sort (present Point.avgHighPrice Example.twenty)) in *.
  set (lows := Py.sort (present Point.avgLowPrice Example.twenty)) in *.
  assert (Mh : middle highs = repeat 11000%Z 18) by (vm_compute; reflexivity).
  assert (Ml : middle lows = repeat 10000%Z 18) by (vm_compute; reflexivity).
  assert (Ah' : Hist.avg_high h = 11000).
  { rewrite Ah. unfold code_average. rewrite Mh. zeval. lra. }
  assert (Al' : Hist.avg_low h = 10000).
  { rewrite Al. unfold code_average. rewrite Ml. zeval. lra. }
  assert (Sh' : Hist.high_std h = 0).
  { rewrite Sh. unfold code_deviation. rewrite <- Ah, Ah', Mh. zeval.
    cbn [repeat map]. unfold Py.fsum. cbn [fold_left].
    replace (_ / _) with 0 by lra. apply sqrt_0. }
  assert (Sl' : Hist.low_std h = 0).
  { rewrite Sl. unfold code_deviation. rewrite <- Al, Al', Ml. zeval.
    cbn [repeat map]. unfold Py.fsum. cbn [fold_left].
    replace (_ / _) with 0 by lra. apply sqrt_0. }
  assert (Q : Hist.high_5th h = 11000%Z /\ Hist.high_95th h = 11000%Z
              /\ Hist.low_5th h = 10000%Z /\ Hist.low_95th h = 10000%Z).
  { assert (X1 : Py.index highs (Py.len highs * 5 / 100) = Ok 11000%Z)
      by (vm_compute; reflexivity).
    assert (X2 : Py.index highs (Py.len highs * 95 / 100) = Ok 11000%Z)
      by (vm_compute; reflexivity).
    assert (X3 : Py.index lows (Py.len lows * 5 / 100) = Ok 10000%Z)
      by (vm_compute; reflexivity).
    assert (X4 : Py.index lows (Py.len lows * 95 / 100) = Ok 10000%Z)
      by (vm_compute; reflexivity).
    rewrite X1 in P1. rewrite X2 in P2. rewrite X3 in P3. rewrite X4 in P4.
    repeat split; congruence. }
  destruct Q as (Q1 & Q2 & Q3 & Q4).
  unfold _is_price_consistent.
  rewrite Ah', Al', Sh', Sl', Q1, Q2, Q3, Q4.
  replace (Py.leb (Rabs (11000 - 11000)) (2 * 0)) with true.
  2:{ symmetry. apply leb_true.
      replace (11000 - 11000) with 0 by lra. rewrite Rabs_R0. lra. }
  replace (Py.leb (Rabs (10000 - 10000)) (2 * 0)) with true.
  2:{ symmetry. apply leb_true.
      replace (10000 - 10000) with 0 by lra. rewrite Rabs_R0. lra. }
  reflexivity.
Qed.

(** With that history the analysis completes and returns the item. *)
Lemma example_accepted :
  exists report : Report.t,
    analyze_flipping_opportunities
      (Example.world (Json (Some Example.twenty))) 100 0.5 None
    = Ok report
    /\ map Opp.item_id (Report.opportunities report) = ["2"].
Proof.
  destruct (example_ranked (Json (Some Example.twenty)))
    as (o & Hr & Hid & Hsell & Hbuy & Hscore).
  destruct example_twenty as (h & Eh & Ch).
  unfold analyze_flipping_opportunities. rewrite Hr. cbn [Py.bind].
  unfold consistency_rounds. cbn [take map]. rewrite Hid.
  unfold get_7d_prices at 1. cbn [get_7d_prices_from].
  change (item_statistics _) with (series_statistics Example.twenty).
  rewrite Eh. cbn [Py.bind consistency_pass].
  rewrite Hid, lookup_insert_eq, Hsell, Hbuy, Ch.
  cbn [negb andb Py.bind]. cbn [app length Nat.ltb].
  rewrite bool_decide_eq_false_2 by lia. cbn [Py.bind].
  unfold normalize. cbn [Rounds.filtered_opportunities map fold_left
                         set_scores].
  rewrite truediv_ok by (cbn [Opp.set_weekly Opp.raw_score]; lra).
  cbn [Py.bind]. eexists. split; [reflexivity|].
  cbn [Report.opportunities map Opp.item_id Opp.set_score Opp.set_weekly].
  now rewrite Hid.
Qed.

Lemma accepted_set_invariant_witness :
  exists (report : Report.t) (ranked : list Opp.t),
    analyze_flipping_opportunities
      (Example.world (Json (Some Example.twenty))) 100 0.5 None
    = Ok report
    /\ map Opp.item_id (Report.opportunities report) = ["2"]
    /\ length (Report.opportunities report)
       = Nat.min 20
           (length (List.filter (consistent (fun _ => Json (Some Example.twenty)))
                      ranked))
    /\ NoDup (concat (Report.requested report)).
Proof.
  destruct example_accepted as (report & Ha & Hids).
  assert (Hkeys : NoDup (map fst (World.latest_prices
                     (Example.world (Json (Some Example.twenty)))))).
  { cbn. apply NoDup_singleton. }
  destruct (accepted_set_invariant _ _ _ _ report Hkeys Ha)
    as (ranked & counters & _ & _ & _ & _ & Hlen & _ & _ & _ & _ & Hreq).
  exists report, ranked. repeat split; assumption.
Defined.

(** C4, refuted as stated: when [/timeseries] fails for the only ranked
    candidate, whose raw score is positive, the analysis completes with an
    empty list, where the minimum of 20 and the number of ranked
    candidates is 1. *)
Lemma accepted_set_smaller_than_pool :
  exists (o : Opp.t) (report : Report.t),
    ranked_opportunities (Example.world RequestException) 100 0.5 None
    = Ok ([o], Counters.zero)
    /\ 0 < Opp.raw_score o
    /\ analyze_flipping_opportunities
         (Example.world RequestException) 100 0.5 None
       = Ok report
    /\ Report.opportunities report = []
    /\ length (Report.opportunities report) <> Nat.min 20 (length [o]).
Proof.
  destruct (example_ranked RequestException)
    as (o & Hr & Hid & Hsell & Hbuy & Hscore).
  exists o. eexists. split; [exact Hr|]. split; [exact Hscore|].
  unfold analyze_flipping_opportunities. rewrite Hr. cbn [Py.bind].
  unfold consistency_rounds. cbn [take drop map]. rewrite Hid.
  unfold get_7d_prices. cbn [get_7d_prices_from].
  cbn [Example.world World.timeseries item_statistics Py.bind
       consistency_pass].
  rewrite Hid, lookup_empty. cbn [_is_price_consistent negb Py.bind].
  rewrite bool_decide_eq_true_2 by lia.
  cbn [Nat.add take map get_7d_prices_from consistency_pass Py.bind].
  rewrite more_replacements_equation_1.
  destruct (decide _) as [F|N];
    [exfalso; destruct F as [_ F]; cbn in F; lia|].
  cbn [more_replacements_unfold_clause_1 Py.bind normalize
       Rounds.filtered_opportunities].
  split; [reflexivity|]. cbn. split; [reflexivity|lia].
Qed.

End AcceptedSet.

(* ================================================================== *)
(** * Further properties of the code *)
(* ================================================================== *)

(** ** The score on its natural domain *)

Section ScoreDomain.

Local Open Scope R_scope.

(** [x ** 1.5] of a fraction in [[0, 1)] is a fraction in [[0, 1]]. *)
Lemma pow_fraction (x : R) :
  0 <= x < 1 -> exists f, Py.pow x 1.5 = Ok f /\ 0 <= f <= 1.
Proof.
  intros [H0 H1]. unfold Py.pow.
  destruct (Rlt_dec x 0) as [N|_]; [lra|].
  destruct (Req_dec_T x 0) as [->|N].
  - exists 0. split; [reflexivity|lra].
  - exists (Rpower x 1.5). split; [reflexivity|].
    unfold Rpower. split; [left; apply exp_pos|].
    rewrite <- exp_0. left. apply exp_increasing.
    assert (ln x < 0) by (rewrite <- ln_1; apply ln_increasing; lra).
    nra.
Qed.


(** On that domain, from a profit per trade of 100 on, the score is the
    unpenalised product scaled by a factor between 0 and 1: the product of
    the penalties that applied. *)
Lemma score_penalised (margin_percentage : R)
    (high_volume low_volume price buy_limit reset_time : Z) :
  (0 < reset_time)%Z -> (0 < buy_limit)%Z ->
  (0 <= high_volume)%Z -> (0 <= low_volume)%Z ->
  100 <= IZR price * (margin_percentage / 100) ->
  exists f : R,
    0 <= f <= 1
    /\ _calculate_opportunity_score margin_percentage high_volume low_volume
         price buy_limit reset_time
       = Ok (f * unpenalised_score margin_percentage high_volume low_volume
                   price buy_limit reset_time).
Proof.
  intros Hrt Hb Hh Hl Hp.
  assert (Hm : (0 <= Z.min high_volume low_volume)%Z) by lia.
  apply IZR_lt in Hrt, Hb. apply IZR_le in Hh, Hl, Hm.
  unfold _calculate_opportunity_score, unpenalised_score.
  set (p := IZR price * (margin_percentage / 100)) in *.
  rewrite (proj2 (ltb_false _ _) Hp).
  set (d := 86400 / IZR reset_time).
  assert (Hd : 0 < d).
  { apply Rmult_lt_0_compat; [lra|]. now apply Rinv_0_lt_compat. }
  rewrite (truediv_ok 86400) by lra. cbn [Py.bind]. fold d.
  rewrite !(truediv_ok _ d) by lra. cbn [Py.bind].
  set (m := if Py.ltb 1000000 p then _ else _) in *.
  assert (Hbd : 0 < IZR buy_limit * d) by now apply Rmult_lt_0_compat.
  assert (Hld : 0 <= IZR low_volume / d).
  { apply Rmult_le_pos; [lra|]. left. now apply Rinv_0_lt_compat. }
  set (P0 := p * IZR buy_limit * d).
  (* first penalty *)
  assert (S1 : exists f1,
             (if Py.ltb (IZR (Z.min high_volume low_volume))
                        (IZR buy_limit * d)
              then Py.bind (Py.truediv (IZR (Z.min high_volume low_volume))
                                       (IZR buy_limit * d))
                     (fun vf => Py.bind (Py.pow vf 1.5)
                                  (fun vf => Ok (P0 * vf)))
              else Ok P0) = Ok (P0 * f1) /\ 0 <= f1 <= 1).
  { destruct (Py.ltb _ (IZR buy_limit * d)) eqn:C.
    - apply ltb_true in C. rewrite truediv_ok by lra. cbn [Py.bind].
      destruct (pow_fraction (IZR (Z.min high_volume low_volume)
                              / (IZR buy_limit * d))) as (f & -> & Hf).
      { split.
        - apply Rmult_le_pos; [lra|]. left. now apply Rinv_0_lt_compat.
        - apply Rmult_lt_reg_r with (IZR buy_limit * d); [lra|].
          unfold Rdiv. rewrite Rmult_assoc, Rinv_l by lra. lra. }
      cbn [Py.bind]. eauto.
    - exists 1. split; [f_equal; ring|lra]. }
  destruct S1 as (f1 & -> & Hf1). cbn [Py.bind].
  (* second penalty *)
  assert (S2 : exists f2,
             (if Py.ltb (IZR low_volume / d) (IZR buy_limit)
              then Py.bind (Py.truediv (IZR low_volume / d) (IZR buy_limit))
                     (fun bf => Py.bind (Py.pow bf 1.5)
                                  (fun penalty => Ok (P0 * f1 * penalty)))
              else Ok (P0 * f1)) = Ok (P0 * f1 * f2) /\ 0 <= f2 <= 1).
  { destruct (Py.ltb _ (IZR buy_limit)) eqn:C.
    - apply ltb_true in C. rewrite truediv_ok by lra. cbn [Py.bind].
      destruct (pow_fraction (IZR low_volume / d / IZR buy_limit))
        as (f & -> & Hf).
      { split.
        - apply Rmult_le_pos; [lra|]. left. now apply Rinv_0_lt_compat.
        - apply Rmult_lt_reg_r with (IZR buy_limit); [lra|].
          unfold Rdiv at 1. rewrite Rmult_assoc, Rinv_l by lra. lra. }
      cbn [Py.bind]. eauto.
    - exists 1. split; [f_equal; ring|lra]. }
  destruct S2 as (f2 & -> & Hf2). cbn [Py.bind].
  rewrite (truediv_ok (IZR buy_limit) 5000) by lra. cbn [Py.bind].
  rewrite (truediv_ok _ (IZR buy_limit)) by lra. cbn [Py.bind].
  exists (f1 * f2). split; [nra|]. f_equal. fold P0.
  set (blm := 1.0 + IZR buy_limit / 5000).
  set (vm := 1.0 + Rmin _ 2.0). ring.
Qed.

Lemma score_returns (margin_percentage : R)
    (high_volume low_volume price buy_limit reset_time : Z) :
  (0 < reset_time)%Z -> (0 < buy_limit)%Z ->
  (0 <= high_volume)%Z -> (0 <= low_volume)%Z ->
  exists s : R,
    _calculate_opportunity_score margin_percentage high_volume low_volume
      price buy_limit reset_time = Ok s.
Proof.
  intros Hrt Hb Hh Hl.
  destruct (Rlt_dec (IZR price * (margin_percentage / 100)) 100) as [Hp|Hp].
  - unfold _calculate_opportunity_score.
    rewrite (proj2 (ltb_true _ _) Hp). eauto.
  - apply Rnot_lt_le in Hp.
    destruct (score_penalised margin_percentage high_volume low_volume
                price buy_limit reset_time) as (f & _ & E); trivial.
    eauto.
Qed.



End ScoreDomain.

(** ** What the first pass appends *)

Section Appended.

Local Open Scope R_scope.

(** Break the test of a passed filter into its facts. *)
Ltac passed :=
  repeat match goal with
  | H : (_ || _)%bool = false |- _ => apply orb_false_elim in H as [? ?]
  | H : (_ && _)%bool = false |- _ => apply andb_false_iff in H
  | H : (_ <=? _)%Z = false |- _ => apply Z.leb_gt in H
  | H : (_ <? _)%Z = false |- _ => apply Z.ltb_ge in H
  | H : Py.ltb _ _ = false |- _ => apply ltb_false in H
  | H : Py.eqb _ _ = false |- _ => apply eqb_false in H
  | H : Py.truediv _ _ = Ok _ |- _ => apply truediv_inv in H as [? ->]
  end.


(** The example item is appended by the first pass. *)
Lemma example_appended :
  exists o : Opp.t,
    first_pass_item {["2" := Example.point 11000 10000]}
      {["2" := Example.info]} 100 0.5 None "2" Example.latest
    = Ok (append o).
Proof.
  unfold first_pass_item. rewrite !lookup_singleton_eq.
  unfold Example.latest, Example.point, Example.info. fields.
  rewrite ge_tax_quotient. repeat ztest. zeval. rsteps. repeat ztest.
  cbn [Py.truthy andb]. rsteps.
  rewrite score_unpenalised; try lia; [|lra|split; zeval; lra].
  cbn [Py.bind].
  set (s := unpenalised_score _ _ _ _ _ _).
  assert (Hs : 0 < s).
  { subst s. unfold unpenalised_score. zeval. rsteps. lra. }
  replace (Py.eqb s 0) with false by (symmetry; apply eqb_false; lra).
  eexists. reflexivity.
Qed.


(** X3.  An opportunity is appended only when every filter let it
    through: its snapshot prices and its 24h averages are positive, its
    snapshot spread is at most 0.5 (for prices of at most [2 ^ 53], where
    the test of the rounded quotient is the test of the spread), both 24h
    volumes reach the minimum volume, its margin percentage reaches the
    minimum margin, the item is known to [item_names] with the buy limit
    recorded in the opportunity, its required capital does not exceed a
    non-zero available cash, and its raw score is not 0. *)
Theorem appended_opportunity_passed_filters
    (daily_prices : gmap string Point.t) (item_names : gmap string Info.t)
    (min_volume : Z) (min_margin : R) (available_cash : option Z)
    (item_id : string) (data : Latest.t) (o : Opp.t) :
  first_pass_item daily_prices item_names min_volume min_margin
    available_cash item_id data = Ok (append o) ->
  (0 < Opp.sell_price o)%Z /\ (0 < Opp.buy_price o)%Z
  /\ ((Opp.sell_price o <= 2 ^ 53)%Z -> (Opp.buy_price o <= 2 ^ 53)%Z ->
      IZR (Opp.sell_price o - Opp.buy_price o) / IZR (Opp.buy_price o)
      <= 0.5)
  /\ (0 < Opp.daily_avg_high o)%Z /\ (0 < Opp.daily_avg_low o)%Z
  /\ (min_volume <= Opp.high_volume o)%Z
  /\ (min_volume <= Opp.low_volume o)%Z
  /\ min_margin <= Opp.margin_percentage o
  /\ (exists info : Info.t,
        item_names !! item_id = Some info
        /\ Info.buy_limit info = Some (Opp.buy_limit o)
        /\ Info.reset_time info = Opp.reset_time o
        /\ Info.name info = Opp.name o)
  /\ (forall cash : Z,
        available_cash = Some cash -> cash <> 0%Z ->
        (Opp.required_capital o <= cash)%Z)
  /\ Opp.raw_score o <> 0.
Proof.
  unfold first_pass_item, Py.bind. intros H.
  destruct (item_names !! item_id) as [info|] eqn:Hinfo;
    cbn [default unknown_item Info.buy_limit Info.reset_time Info.name]
      in H.
  2:{ repeat match type of H with
             | context [match ?x with _ => _ end] =>
                 destruct x eqn:?; try discriminate H
             end. }
  repeat match type of H with
         | context [match ?x with _ => _ end] =>
             destruct x eqn:?; try discriminate H
         end;
    injection H as <-;
    cbn [Opp.sell_price Opp.buy_price Opp.daily_avg_high Opp.daily_avg_low
         Opp.high_volume Opp.low_volume Opp.margin_percentage
         Opp.buy_limit Opp.reset_time Opp.name Opp.required_capital
         Opp.raw_score];
    passed;
    (repeat split; try lia; try assumption; try (intros _ _; assumption);
     [ eexists; repeat split; eassumption
     | intros cash -> Hcash;
       match goal with
       | Hc : _ \/ _ |- _ =>
           destruct Hc as [Hc|Hc]; cbn [Py.truthy default] in Hc;
           [apply negb_false_iff, Z.eqb_eq in Hc; contradiction
           |apply Z.ltb_ge in Hc; exact Hc]
       end ]).
Qed.

Lemma appended_opportunity_passed_filters_witness :
  exists o : Opp.t,
    first_pass_item {["2" := Example.point 11000 10000]}
      {["2" := Example.info]} 100 0.5 None "2" Example.latest
    = Ok (append o)
    /\ (100 <= Opp.high_volume o)%Z /\ 0.5 <= Opp.margin_percentage o.
Proof.
  destruct example_appended as [o E]. exists o. split; [exact E|].
  destruct (appended_opportunity_passed_filters _ _ _ _ _ _ _ o E)
    as (_ & _ & _ & _ & _ & Hv & _ & Hm & _).
  split; assumption.
Defined.

End Appended.

(** ** The first pass as a whole *)

Section FirstPassWhole.

Local Open Scope R_scope.

(** The number of items accounted for: opportunities plus drops. *)
Lemma record_verdict_accounts (v : verdict) (st : list Opp.t * Counters.t) :
  accounted (record_verdict v st) = S (accounted st)
  /\ Counters.inconsistent_price (record_verdict v st).2
     = Counters.inconsistent_price st.2.
Proof.
  destruct st as [opps c], c, v; unfold accounted;
    cbn [record_verdict fst snd Counters.skipped Counters.low_volume
         Counters.low_margin Counters.unrealistic_price Counters.low_profit
         Counters.missing_buy_limit Counters.insufficient_cash
         Counters.inconsistent_price];
    rewrite ?length_app; cbn [length]; split; lia.
Qed.

Lemma first_pass_accounts
    (daily_prices : gmap string Point.t) (item_names : gmap string Info.t)
    (min_volume : Z) (min_margin : R) (available_cash : option Z)
    (items : list (string * Latest.t)) :
  forall st st' : list Opp.t * Counters.t,
    first_pass daily_prices item_names min_volume min_margin available_cash
      items st = Ok st' ->
    accounted st' = (accounted st + length items)%nat
    /\ Counters.inconsistent_price st'.2 = Counters.inconsistent_price st.2.
Proof.
  induction items as [|[item_id data] rest IH]; intros st st' H.
  - cbn in H. injection H as <-. cbn [length]. split; [lia|reflexivity].
  - cbn [first_pass] in H.
    destruct (first_pass_item _ _ _ _ _ item_id data) as [v|e];
      [|discriminate H].
    cbn [Py.bind] in H. apply IH in H as [H1 H2].
    destruct (record_verdict_accounts v st) as [A1 A2].
    rewrite H1, H2, A1, A2. cbn [length]. split; [lia|reflexivity].
Qed.

(** X4.  When the first pass returns, every item of the latest prices was
    handled exactly once: the opportunities kept and the seven drop
    counters add up to the number of items, and the first pass leaves the
    counter of inconsistent histories at 0. *)
Theorem first_pass_counts_every_item
    (daily_prices : gmap string Point.t) (item_names : gmap string Info.t)
    (min_volume : Z) (min_margin : R) (available_cash : option Z)
    (items : list (string * Latest.t)) (opportunities : list Opp.t)
    (c : Counters.t) :
  first_pass daily_prices item_names min_volume min_margin available_cash
    items ([], Counters.zero) = Ok (opportunities, c) ->
  (length opportunities + Counters.skipped c + Counters.unrealistic_price c
   + Counters.low_volume c + Counters.low_margin c
   + Counters.missing_buy_limit c + Counters.insufficient_cash c
   + Counters.low_profit c = length items)%nat
  /\ Counters.inconsistent_price c = 0%nat.
Proof.
  intros H. apply first_pass_accounts in H as [H1 H2].
  unfold accounted in H1. cbn in H1, H2. split; [lia|exact H2].
Qed.

Lemma first_pass_counts_every_item_witness :
  exists (opportunities : list Opp.t) (c : Counters.t),
    (length opportunities + Counters.skipped c
     + Counters.unrealistic_price c + Counters.low_volume c
     + Counters.low_margin c + Counters.missing_buy_limit c
     + Counters.insufficient_cash c + Counters.low_profit c = 1)%nat.
Proof.
  destruct example_appended as [o E].
  assert (H : first_pass {["2" := Example.point 11000 10000]}
                {["2" := Example.info]} 100 0.5 None
                [("2", Example.latest)] ([], Counters.zero)
              = Ok ([o], Counters.zero)).
  { cbn [first_pass]. rewrite E. reflexivity. }
  exists [o], Counters.zero.
  exact (proj1 (first_pass_counts_every_item _ _ _ _ _ _ _ _ H)).
Defined.

(** One item never raises when the minimum volume is not negative and
    its known buy limit and reset time, if any, are positive. *)
Lemma first_pass_item_total
    (daily_prices : gmap string Point.t) (item_names : gmap string Info.t)
    (min_volume : Z) (min_margin : R) (available_cash : option Z)
    (item_id : string) (data : Latest.t) :
  (0 <= min_volume)%Z ->
  (forall info b, item_names !! item_id = Some info ->
                  Info.buy_limit info = Some b ->
                  (0 < b)%Z /\ (0 < Info.reset_time info)%Z) ->
  exists v : verdict,
    first_pass_item daily_prices item_names min_volume min_margin
      available_cash item_id data = Ok v.
Proof.
  intros Hmv Hinfo. unfold first_pass_item.
  destruct (daily_prices !! item_id) as [daily_data|]; [|eauto].
  destruct (Py.get0 (Latest.high data)) as [h|]; [|eauto].
  destruct (Py.get0 (Latest.low data)) as [l|]; [|eauto].
  destruct ((h <=? 0)%Z || (l <=? 0)%Z) eqn:T1; [eauto|].
  apply orb_false_elim in T1 as [_ Hl]. apply Z.leb_gt, IZR_lt in Hl.
  rewrite truediv_ok by lra. cbn [Py.bind].
  destruct (Py.ltb 0.5 _); [eauto|].
  destruct (Py.get0 (Point.avgHighPrice daily_data)) as [dh|]; [|eauto].
  destruct (Py.get0 (Point.avgLowPrice daily_data)) as [dl|]; [|eauto].
  destruct ((dh <=? 0)%Z || (dl <=? 0)%Z); [eauto|].
  destruct (Py.get0 (Point.highPriceVolume daily_data)) as [hv|]; [|eauto].
  destruct (Py.get0 (Point.lowPriceVolume daily_data)) as [lv|]; [|eauto].
  destruct ((hv <? min_volume)%Z || (lv <? min_volume)%Z) eqn:T3; [eauto|].
  apply orb_false_elim in T3 as [Hhv Hlv].
  apply Z.ltb_ge in Hhv, Hlv.
  rewrite truediv_ok by lra. cbn [Py.bind].
  destruct (Py.ltb _ min_margin); [eauto|].
  destruct (item_names !! item_id) as [info|] eqn:Ei;
    cbn [default Datatypes.id unknown_item Info.buy_limit]; [|eauto].
  destruct (Info.buy_limit info) as [b|] eqn:Eb; [|eauto].
  destruct (Hinfo info b eq_refl Eb) as [Hb Hrt].
  match goal with
  | |- context [if ?c then Ok insufficient_cash_items else _] =>
      destruct c; [eauto|]
  end.
  assert (Hppd : 0 < 86400 / IZR (Info.reset_time info)).
  { apply IZR_lt in Hrt.
    apply Rmult_lt_0_compat; [lra|]. now apply Rinv_0_lt_compat. }
  rewrite (truediv_ok 86400) by (apply IZR_lt in Hrt; lra).
  cbn [Py.bind]. rewrite !(truediv_ok _ (86400 / _)) by lra.
  cbn [Py.bind].
  destruct (score_returns
              (IZR (h - l - _calculate_ge_tax h
                    - (if bool_decide (item_id = "13190")
                       then _calculate_bond_conversion_cost h else 0%Z))
               / IZR l * 100) hv lv h b (Info.reset_time info))
    as (s & ->); try lia.
  cbn [Py.bind]. destruct (Py.eqb s 0); eauto.
Qed.

Lemma first_pass_total
    (daily_prices : gmap string Point.t) (item_names : gmap string Info.t)
    (min_volume : Z) (min_margin : R) (available_cash : option Z)
    (items : list (string * Latest.t)) :
  (0 <= min_volume)%Z ->
  (forall item_id info b, item_names !! item_id = Some info ->
                          Info.buy_limit info = Some b ->
                          (0 < b)%Z /\ (0 < Info.reset_time info)%Z) ->
  forall st, exists st',
    first_pass daily_prices item_names min_volume min_margin available_cash
      items st = Ok st'.
Proof.
  intros Hmv Hinfo. induction items as [|[item_id data] rest IH]; intros st.
  - cbn. eauto.
  - cbn [first_pass].
    destruct (first_pass_item_total daily_prices item_names min_volume
                min_margin available_cash item_id data Hmv (Hinfo item_id))
      as [v ->].
    cbn [Py.bind]. apply IH.
Qed.

End FirstPassWhole.

(** ** When the analysis returns *)

Section Completion.

Local Open Scope R_scope.

Lemma get_7d_prices_total (timeseries : string -> response)
    (batch : list Opp.t) :
  Forall (answered timeseries) batch ->
  forall results, exists m,
    get_7d_prices_from timeseries (map Opp.item_id batch) results = Ok m.
Proof.
  induction 1 as [|o rest [found Ho] _ IH]; intros results.
  - cbn. eauto.
  - cbn [map get_7d_prices_from]. rewrite Ho. cbn [Py.bind].
    destruct found; apply IH.
Qed.

Lemma more_replacements_total (timeseries : string -> response)
    (opportunities : list Opp.t) (st : Rounds.t) :
  Forall (answered timeseries) opportunities ->
  exists st', more_replacements timeseries opportunities st = Ok st'.
Proof.
  apply (more_replacements_elim
           (fun ts opps st res =>
              Forall (answered ts) opps -> exists st', res = Ok st')).
  - clear. intros ts opps st [Hlen Hmore] IH _ Hall. cbv zeta in *.
    set (start := (20 + Rounds.filtered_count st)%nat) in *.
    set (batch := take (Nat.min (start + 5) (length opps) - start)
                       (drop start opps)) in *.
    assert (Hb : Forall (answered ts) batch)
      by (subst batch; apply Forall_take, Forall_drop, Hall).
    destruct (get_7d_prices_total ts batch Hb ∅) as [m G].
    fold (get_7d_prices ts (map Opp.item_id batch)) in G. rewrite G.
    destruct (consistency_pass_break ts m batch (batch_history ts _ _ G)
                (Rounds.filtered_opportunities st) 0%nat Hlen) as [r' ->].
    now apply (IH m (Rounds.filtered_opportunities st, r')).
  - clear. intros ts opps st _ _ _. eauto.
Qed.

Lemma consistency_rounds_total (timeseries : string -> response)
    (opportunities : list Opp.t) :
  Forall (answered timeseries) opportunities ->
  exists st, consistency_rounds timeseries opportunities = Ok st.
Proof.
  intros Hall. unfold consistency_rounds.
  destruct (get_7d_prices_total timeseries (take 20 opportunities)
              (Forall_take _ _ _ Hall) ∅) as [m G].
  fold (get_7d_prices timeseries
          (map Opp.item_id (take 20 opportunities))) in G.
  rewrite G. cbn [Py.bind].
  rewrite (consistency_pass_all timeseries m _ (batch_history _ _ _ G)).
  cbn [Py.bind].
  destruct (bool_decide _); [|eauto].
  match goal with
  | |- context [take ?n (drop 20 opportunities)] =>
      destruct (get_7d_prices_total timeseries
                  (take n (drop 20 opportunities))
                  (Forall_take _ _ _ (Forall_drop _ _ _ Hall)) ∅) as [m2 G2];
      fold (get_7d_prices timeseries
              (map Opp.item_id (take n (drop 20 opportunities)))) in G2
  end.
  rewrite G2. cbn [Py.bind].
  rewrite (consistency_pass_all timeseries m2 _ (batch_history _ _ _ G2)).
  cbn [Py.bind]. now apply more_replacements_total.
Qed.

(** The maximum that line 553 computes is one of the raw scores. *)
Lemma fold_max_in (xs : list R) (a : R) :
  fold_left Rmax xs a = a \/ In (fold_left Rmax xs a) xs.
Proof.
  revert a. induction xs as [|x xs IH]; intros a; [now left|].
  cbn [fold_left]. destruct (IH (Rmax a x)) as [E|E].
  - rewrite E. unfold Rmax. destruct (Rle_dec a x); [right; now left|now left].
  - right. now right.
Qed.


Lemma set_scores_total (max_score : R) (l : list Opp.t) :
  max_score <> 0 -> exists l', set_scores max_score l = Ok l'.
Proof.
  intros Hm. induction l as [|o rest [rest' IH]]; [cbn; eauto|].
  cbn [set_scores]. rewrite truediv_ok by assumption. cbn [Py.bind].
  rewrite IH. cbn [Py.bind]. eauto.
Qed.

Lemma normalize_total (l : list Opp.t) :
  Forall (fun o => Opp.raw_score o <> 0) l ->
  exists l', normalize l = Ok l'.
Proof.
  intros Hall. unfold normalize. destruct l as [|o rest]; [eauto|].
  apply set_scores_total.
  destruct (fold_max_in (map Opp.raw_score rest) (Opp.raw_score o))
    as [E|E].
  - rewrite E. now inversion Hall.
  - apply in_map_iff in E as (x & <- & Hx).
    inversion Hall as [|? ? _ Hrest]; subst.
    rewrite List.Forall_forall in Hrest. now apply Hrest.
Qed.

Lemma enriched_raw_score (timeseries : string -> response) (o : Opp.t) :
  Opp.raw_score (enriched timeseries o) = Opp.raw_score o.
Proof.
  unfold enriched. now destruct (history timeseries (Opp.item_id o)).
Qed.

Lemma usable_series_answered (item_data : list Point.t) :
  usable_series item_data ->
  exists found, series_statistics item_data = Ok found.
Proof.
  intros [E|[E|[Hh Hl]]].
  - unfold series_statistics. rewrite (bool_decide_eq_true_2 _ E). eauto.
  - unfold series_statistics.
    rewrite (bool_decide_eq_true_2 _ E), orb_true_r. eauto.
  - destruct (series_statistics_long item_data) as (h & E & _).
    + rewrite len_sort. unfold Py.len. lia.
    + rewrite len_sort. unfold Py.len. lia.
    + eauto.
Qed.

Lemma usable_reply_answered (reply : response) :
  (forall item_data, reply = Json (Some item_data) ->
                     usable_series item_data) ->
  exists found, item_statistics reply = Ok found.
Proof.
  intros H. destruct reply as [|[[|p ps]|]]; cbn [item_statistics]; eauto.
  now apply usable_series_answered, H.
Qed.

Lemma sublist_In {A : Type} (l k : list A) (x : A) :
  sublist l k -> In x l -> In x k.
Proof.
  induction 1 as [|y l k _ IH|y l k _ IH]; cbn [In]; intros H.
  - contradiction.
  - destruct H; [now left|right; now apply IH].
  - right. now apply IH.
Qed.

(** X5.  The analysis returns, without raising, whenever every integer
    of the replies is one that binary64 holds, the minimum volume is not
    negative, every buy limit and reset time recorded in [item_names] is
    positive, and no item of the latest prices has a history with between
    1 and 19 high prices or low prices. *)
Theorem analysis_completes (w : World.t) (min_volume : Z) (min_margin : R)
    (available_cash : option Z) :
  world_binary64 w ->
  (0 <= min_volume)%Z ->
  (forall item_id info b,
     World.item_names w !! item_id = Some info ->
     Info.buy_limit info = Some b ->
     (0 < b)%Z /\ (0 < Info.reset_time info)%Z) ->
  (forall item_id data item_data,
     In (item_id, data) (World.latest_prices w) ->
     World.timeseries w item_id = Json (Some item_data) ->
     usable_series item_data) ->
  exists report : Report.t,
    analyze_flipping_opportunities w min_volume min_margin available_cash
    = Ok report.
Proof.
  intros _ Hmv Hinfo Hseries.
  unfold analyze_flipping_opportunities, ranked_opportunities.
  destruct (first_pass_total (World.daily_prices w) (World.item_names w)
              min_volume min_margin available_cash (World.latest_prices w)
              Hmv Hinfo ([], Counters.zero)) as [[opps c] Hp].
  rewrite Hp. cbn [Py.bind].
  apply first_pass_ids in Hp as (kept & -> & Hsub & Hscore).
  cbn [fst app] in *.
  assert (Hans : Forall (answered (World.timeseries w)) (sort_by_score kept)).
  { apply List.Forall_forall. intros o Ho.
    apply (Permutation_in _ (sort_by_score_perm kept)) in Ho.
    apply (in_map Opp.item_id) in Ho.
    apply (sublist_In _ _ _ Hsub), in_map_iff in Ho as ([id data] & E & Hin).
    cbn [fst] in E. subst id.
    apply usable_reply_answered. intros item_data Hr.
    exact (Hseries _ data item_data Hin Hr). }
  destruct (consistency_rounds_total _ _ Hans) as [st Hst].
  rewrite Hst. cbn [Py.bind].
  apply consistency_rounds_final in Hst as [Hf _].
  destruct (normalize_total (Rounds.filtered_opportunities st)) as [fo ->].
  { rewrite Hf. apply List.Forall_forall. intros o' Ho'.
    apply in_map_iff in Ho' as (o & <- & Ho).
    rewrite enriched_raw_score.
    apply (sublist_In _ _ _ (sublist_take _ _)) in Ho.
    apply List.filter_In in Ho as [Ho _].
    apply (Permutation_in _ (sort_by_score_perm kept)) in Ho.
    rewrite List.Forall_forall in Hscore. now apply Hscore. }
  cbn [Py.bind]. eauto.
Qed.

Lemma analysis_completes_witness :
  exists report : Report.t,
    analyze_flipping_opportunities
      (Example.world (Json (Some Example.twenty))) 100 0.5 None
    = Ok report.
Proof.
  apply analysis_completes.
  - unfold world_binary64, Example.world.
    cbn [World.latest_prices World.daily_prices World.item_names
         World.timeseries].
    split; [|split; [|split]].
    + intros item_id data [[= _ <-]|[]]. split; cbn; unfold binary64; lia.
    + intros item_id p H. apply lookup_singleton_Some in H as [_ <-].
      repeat split; cbn; unfold binary64; lia.
    + intros item_id info H. apply lookup_singleton_Some in H as [_ <-].
      split; [cbn; unfold binary64; lia|].
      intros b [= <-]. unfold binary64. lia.
    + intros item_id item_data [= <-].
      apply List.Forall_forall. intros p Hp.
      apply repeat_spec in Hp. subst p.
      repeat split; cbn; unfold binary64; lia.
  - lia.
  - intros item_id info b H Hb. cbn [Example.world World.item_names] in H.
    apply lookup_singleton_Some in H as [_ <-].
    cbn in Hb. injection Hb as <-. split; cbn; lia.
  - intros item_id data item_data _ H.
    cbn [Example.world World.timeseries] in H. injection H as <-.
    right. right. split; vm_compute; lia.
Defined.

(** *** Failed fetches *)

Lemma first_pass_item_unknown
    (daily_prices : gmap string Point.t) (item_names : gmap string Info.t)
    (min_volume : Z) (min_margin : R) (available_cash : option Z)
    (item_id : string) (data : Latest.t) :
  daily_prices !! item_id = None \/ item_names !! item_id = None ->
  exists v : verdict,
    first_pass_item daily_prices item_names min_volume min_margin
      available_cash item_id data = Ok v
    /\ forall o, v <> append o.
Proof.
  intros Hno. unfold first_pass_item.
  destruct (daily_prices !! item_id) as [daily_data|] eqn:Ed;
    [|eexists; split; [reflexivity|discriminate]].
  destruct Hno as [Hno|Hno]; [discriminate Hno|]. rewrite Hno.
  cbn [default Datatypes.id unknown_item Info.buy_limit].
  destruct (Py.get0 (Latest.high data)) as [h|];
    [|eexists; split; [reflexivity|discriminate]].
  destruct (Py.get0 (Latest.low data)) as [l|];
    [|eexists; split; [reflexivity|discriminate]].
  destruct ((h <=? 0)%Z || (l <=? 0)%Z) eqn:T1;
    [eexists; split; [reflexivity|discriminate]|].
  apply orb_false_elim in T1 as [_ Hl]. apply Z.leb_gt, IZR_lt in Hl.
  rewrite truediv_ok by lra. cbn [Py.bind].
  destruct (Py.ltb 0.5 _); [eexists; split; [reflexivity|discriminate]|].
  destruct (Py.get0 (Point.avgHighPrice daily_data)) as [dh|];
    [|eexists; split; [reflexivity|discriminate]].
  destruct (Py.get0 (Point.avgLowPrice daily_data)) as [dl|];
    [|eexists; split; [reflexivity|discriminate]].
  destruct ((dh <=? 0)%Z || (dl <=? 0)%Z);
    [eexists; split; [reflexivity|discriminate]|].
  destruct (Py.get0 (Point.highPriceVolume daily_data)) as [hv|];
    [|eexists; split; [reflexivity|discriminate]].
  destruct (Py.get0 (Point.lowPriceVolume daily_data)) as [lv|];
    [|eexists; split; [reflexivity|discriminate]].
  destruct ((hv <? min_volume)%Z || (lv <? min_volume)%Z);
    [eexists; split; [reflexivity|discriminate]|].
  rewrite truediv_ok by lra. cbn [Py.bind].
  destruct (Py.ltb _ min_margin);
    eexists; (split; [reflexivity|discriminate]).
Qed.

Lemma first_pass_nothing_kept
    (daily_prices : gmap string Point.t) (item_names : gmap string Info.t)
    (min_volume : Z) (min_margin : R) (available_cash : option Z)
    (items : list (string * Latest.t)) :
  (forall item_id, daily_prices !! item_id = None
                   \/ item_names !! item_id = None) ->
  forall st, exists c,
    first_pass daily_prices item_names min_volume min_margin available_cash
      items st = Ok (st.1, c).
Proof.
  intros Hno. induction items as [|[item_id data] rest IH]; intros [opps c].
  - cbn. eauto.
  - cbn [first_pass].
    destruct (first_pass_item_unknown daily_prices item_names min_volume
                min_margin available_cash item_id data (Hno item_id))
      as (v & -> & Hv).
    cbn [Py.bind].
    destruct (IH (record_verdict v (opps, c))) as [c' ->].
    exists c'. do 2 f_equal. destruct c, v; try reflexivity.
    now destruct (Hv o).
Qed.

(** X6.  When one of the three fetches before the loop failed, so that
    the latest prices, the 24h prices or the item names are empty, the
    analysis raises nothing and returns an empty list, after a single
    call of [get_7d_prices] with no id.  Without item names the loop
    still computes the spread, the tax and the margin of an item before
    it looks its name up: the snapshot prices are then taken among the
    integers that binary64 holds. *)
Theorem failed_fetch_returns_nothing (w : World.t) (min_volume : Z)
    (min_margin : R) (available_cash : option Z) :
  World.latest_prices w = [] \/ World.daily_prices w = ∅
  \/ (World.item_names w = ∅
      /\ forall item_id data,
           In (item_id, data) (World.latest_prices w) ->
           latest_binary64 data) ->
  exists report : Report.t,
    analyze_flipping_opportunities w min_volume min_margin available_cash
    = Ok report
    /\ Report.opportunities report = []
    /\ Report.requested report = [[]].
Proof.
  intros Hfail.
  assert (Hp : exists c,
             first_pass (World.daily_prices w) (World.item_names w)
               min_volume min_margin available_cash (World.latest_prices w)
               ([], Counters.zero) = Ok ([], c)).
  { destruct Hfail as [E|Hfail].
    - rewrite E. cbn. eauto.
    - apply (first_pass_nothing_kept _ _ _ _ _ _) with (st := ([], _)).
      intros item_id.
      destruct Hfail as [E|[E _]]; rewrite E, lookup_empty; auto. }
  destruct Hp as [c Hp].
  unfold analyze_flipping_opportunities, ranked_opportunities.
  rewrite Hp. cbn [Py.bind sort_by_score fold_right].
  unfold consistency_rounds. cbn [take map].
  unfold get_7d_prices at 1.
  cbn [get_7d_prices_from Py.bind consistency_pass].
  rewrite bool_decide_eq_false_2 by lia.
  cbn [Py.bind Rounds.filtered_opportunities normalize].
  eexists. split; [reflexivity|]. split; reflexivity.
Qed.

Lemma failed_fetch_returns_nothing_witness :
  exists report : Report.t,
    analyze_flipping_opportunities
      (World.Build [("2", Example.latest)] ∅ ∅ (fun _ => RequestException))
      100 0.5 None
    = Ok report
    /\ Report.opportunities report = [].
Proof.
  destruct (failed_fetch_returns_nothing
              (World.Build [("2", Example.latest)] ∅ ∅
                 (fun _ => RequestException)) 100 0.5 None)
    as (report & E & H & _).
  - right. left. reflexivity.
  - exists report. split; assumption.
Defined.

End Completion.

(** ** Ranking and normalisation *)

Section RankingNormalisation.

Local Open Scope R_scope.

Lemma insert_by_score_ties (s : R) (o : Opp.t) (l : list Opp.t) :
  List.filter (fun x => Py.eqb (Opp.raw_score x) s) (insert_by_score o l)
  = List.filter (fun x => Py.eqb (Opp.raw_score x) s) (o :: l).
Proof.
  induction l as [|x rest IH]; [reflexivity|].
  cbn [insert_by_score]. destruct (Py.ltb _ _) eqn:C; [|reflexivity].
  apply ltb_true in C. cbn [List.filter] in *. rewrite IH.
  destruct (Py.eqb (Opp.raw_score o) s) eqn:Eo;
    destruct (Py.eqb (Opp.raw_score x) s) eqn:Ex; try reflexivity.
  apply eqb_true in Eo, Ex. lra.
Qed.

(** X7.  The ranking of lines 413-414 rearranges the opportunities of the
    first pass without adding or losing any, in order of non-increasing
    raw score, and opportunities with the same raw score keep the order in
    which the first pass appended them. *)
Theorem ranking_is_stable_descending_sort (opportunities : list Opp.t) :
  Permutation (sort_by_score opportunities) opportunities
  /\ StronglySorted descending (sort_by_score opportunities)
  /\ forall s : R,
       List.filter (fun o => Py.eqb (Opp.raw_score o) s)
                   (sort_by_score opportunities)
       = List.filter (fun o => Py.eqb (Opp.raw_score o) s) opportunities.
Proof.
  split; [apply sort_by_score_perm|]. split; [apply sort_by_score_sorted|].
  intros s. induction opportunities as [|o rest IH]; [reflexivity|].
  cbn [sort_by_score fold_right]. fold (sort_by_score rest).
  rewrite insert_by_score_ties. cbn [List.filter]. now rewrite IH.
Qed.

(** What [set_scores] does to each opportunity. *)
Lemma set_scores_each (max_score : R) (l l' : list Opp.t) :
  set_scores max_score l = Ok l' ->
  max_score <> 0
  /\ Forall2 (fun o o' =>
                o' = Opp.set_score (Opp.raw_score o / max_score * 100) o)
             l l'
  \/ l = [] /\ l' = [].
Proof.
  destruct l as [|o0 rest0]; [intros H; cbn in H; injection H as <-; auto|].
  intros H. left.
  assert (Hm : max_score <> 0).
  { cbn [set_scores] in H.
    destruct (Py.truediv _ _) eqn:E; [|discriminate H].
    now apply truediv_inv in E. }
  split; [exact Hm|].
  revert l' H. generalize (o0 :: rest0) as l. clear o0 rest0.
  induction l as [|o rest IH]; intros l' H.
  - cbn in H. injection H as <-. constructor.
  - cbn [set_scores] in H. rewrite truediv_ok in H by assumption.
    cbn [Py.bind] in H.
    destruct (set_scores max_score rest) as [rest'|]; [|discriminate H].
    cbn [Py.bind] in H. injection H as <-. constructor; [reflexivity|].
    now apply IH.
Qed.



End RankingNormalisation.

(** ** What the analysis returns *)

Section Returned.

Local Open Scope R_scope.

Lemma first_pass_item_bare
    (daily_prices : gmap string Point.t) (item_names : gmap string Info.t)
    (min_volume : Z) (min_margin : R) (available_cash : option Z)
    (item_id : string) (data : Latest.t) (o : Opp.t) :
  first_pass_item daily_prices item_names min_volume min_margin
    available_cash item_id data = Ok (append o) ->
  bare o = o.
Proof.
  unfold first_pass_item, Py.bind. intros H.
  repeat match type of H with
         | context [match ?x with _ => _ end] =>
             destruct x eqn:?; try discriminate H
         end;
    injection H as <-; reflexivity.
Qed.

Lemma first_pass_bare
    (daily_prices : gmap string Point.t) (item_names : gmap string Info.t)
    (min_volume : Z) (min_margin : R) (available_cash : option Z)
    (items : list (string * Latest.t)) :
  forall (st st' : list Opp.t * Counters.t),
    first_pass daily_prices item_names min_volume min_margin available_cash
      items st = Ok st' ->
    Forall (fun o => bare o = o) st.1 ->
    Forall (fun o => bare o = o) st'.1.
Proof.
  induction items as [|[item_id data] rest IH]; intros st st' H Hst.
  - cbn in H. now injection H as <-.
  - cbn [first_pass] in H.
    destruct (first_pass_item _ _ _ _ _ item_id data) as [v|e] eqn:E;
      [|discriminate H].
    cbn [Py.bind] in H. apply IH in H; [exact H|].
    destruct st as [opps c], c.
    destruct v; cbn [record_verdict fst] in *; try assumption.
    apply Forall_app. split; [assumption|].
    constructor; [|constructor]. now apply first_pass_item_bare in E.
Qed.

Lemma normalize_each (l l' : list Opp.t) :
  normalize l = Ok l' ->
  exists max_score : R,
    Forall2 (fun o o' =>
               o' = Opp.set_score (Opp.raw_score o / max_score * 100) o)
            l l'.
Proof.
  unfold normalize. destruct l as [|o rest].
  - intros H. injection H as <-. exists 0. constructor.
  - intros H. apply set_scores_each in H as [[_ F]|[N _]];
      [eauto|discriminate N].
Qed.

(** X9.  Every opportunity that the analysis returns is a candidate of the
    ranked pool, unchanged but for three added keys: its history exists
    and passes the consistency check on its sell and buy price, its two
    weekly averages are the average high and low of that history, and it
    carries a score.  Without the added keys the returned list is the
    list of the first 20 consistent candidates of the pool, so it never
    holds more than 20. *)
Theorem returned_opportunities (w : World.t) (min_volume : Z)
    (min_margin : R) (available_cash : option Z) (report : Report.t) :
  analyze_flipping_opportunities w min_volume min_margin available_cash
  = Ok report ->
  exists (ranked : list Opp.t) (counters : Counters.t),
    ranked_opportunities w min_volume min_margin available_cash
    = Ok (ranked, counters)
    /\ map bare (Report.opportunities report)
       = take 20 (List.filter (consistent (World.timeseries w)) ranked)
    /\ (length (Report.opportunities report) <= 20)%nat
    /\ Forall (fun o =>
                 exists (h : Hist.t) (s : R),
                   history (World.timeseries w) (Opp.item_id o) = Some h
                   /\ _is_price_consistent (Opp.sell_price o)
                        (Opp.buy_price o) (Some h) = true
                   /\ Opp.weekly_avg_high o = Some (Hist.avg_high h)
                   /\ Opp.weekly_avg_low o = Some (Hist.avg_low h)
                   /\ Opp.score o = Some s)
              (Report.opportunities report).
Proof.
  intros H. unfold analyze_flipping_opportunities in H.
  destruct (ranked_opportunities w min_volume min_margin available_cash)
    as [[ranked counters]|e] eqn:Hr; [|discriminate H].
  cbn [Py.bind] in H.
  destruct (consistency_rounds (World.timeseries w) ranked) as [st|e] eqn:Hc;
    [|discriminate H].
  cbn [Py.bind] in H.
  destruct (normalize (Rounds.filtered_opportunities st)) as [fo|e] eqn:Hn;
    [|discriminate H].
  cbn [Py.bind] in H. injection H as <-. cbn [Report.opportunities].
  apply consistency_rounds_final in Hc as [Hf _].
  apply normalize_each in Hn as [m F]. rewrite Hf in F. clear Hf st.
  assert (Hbare : Forall (fun o => bare o = o) ranked).
  { unfold ranked_opportunities in Hr.
    destruct (first_pass _ _ _ _ _ _ _) as [[opps c]|e] eqn:Hp;
      [|discriminate Hr].
    cbn [Py.bind] in Hr. injection Hr as <- <-.
    apply first_pass_bare in Hp; [|constructor]. cbn [fst] in Hp.
    apply List.Forall_forall. intros o Ho.
    apply (Permutation_in _ (sort_by_score_perm opps)) in Ho.
    rewrite List.Forall_forall in Hp. now apply Hp. }
  set (passing := take 20 (List.filter (consistent (World.timeseries w))
                             ranked)) in *.
  assert (Hpass : Forall (fun o => bare o = o
                                   /\ consistent (World.timeseries w) o = true)
                         passing).
  { apply List.Forall_forall. intros o Ho. subst passing.
    apply (sublist_In _ _ _ (sublist_take _ _)) in Ho.
    apply List.filter_In in Ho as [Ho Hc].
    rewrite List.Forall_forall in Hbare. split; [now apply Hbare|exact Hc]. }
  assert (Hlen : (length passing <= 20)%nat)
    by (subst passing; rewrite length_take; lia).
  exists ranked, counters. split; [reflexivity|].
  fold passing. clearbody passing. clear Hbare Hr.
  apply Forall2_fmap_l in F.
  revert Hpass Hlen.
  induction F as [|o o' l l' -> _ IH]; intros Hpass Hlen.
  - split; [reflexivity|split; [cbn; lia|constructor]].
  - inversion Hpass as [|? ? [Hb Hc] Hrest]; subst.
    cbn [length] in Hlen.
    destruct IH as (I1 & I2 & I3); [assumption|lia|].
    destruct (consistent_has_history _ _ Hc) as (h & Hh & He).
    rewrite He. 
    assert (Hc' : _is_price_consistent (Opp.sell_price o) (Opp.buy_price o)
                    (Some h) = true).
    { unfold consistent in Hc. now rewrite Hh in Hc. }
    split; [|split].
    + cbn [map]. rewrite I1. f_equal.
      transitivity (bare o); [reflexivity|exact Hb].
    + cbn [length]. rewrite <- I1, length_map in Hlen. lia.
    + constructor; [|exact I3].
      exists h. eexists. cbn. repeat split; trivial.
Qed.

Lemma returned_opportunities_witness :
  exists (report : Report.t),
    analyze_flipping_opportunities
      (Example.world (Json (Some Example.twenty))) 100 0.5 None
    = Ok report
    /\ (length (Report.opportunities report) <= 20)%nat.
Proof.
  destruct example_accepted as (report & Ha & _).
  destruct (returned_opportunities _ _ _ _ report Ha)
    as (ranked & counters & _ & _ & Hlen & _).
  exists report. split; assumption.
Defined.

End Returned.

(** ** The statistics of a series *)

Section SeriesOutcome.

Local Open Scope R_scope.

(** X10.  For a series whose prices and volumes are integers that
    binary64 holds, the outcome of the statistics is decided by the
    numbers of its present, non-zero high and low prices: the series is
    skipped exactly when one of the two arrays is empty, the computation
    raises [ZeroDivisionError] exactly when both are non-empty and one of
    them holds fewer than 20 prices, statistics are returned exactly when
    both hold at least 20, and no other exception is raised. *)
Theorem series_statistics_outcome (item_data : list Point.t) :
  Forall point_binary64 item_data ->
  let highs := present Point.avgHighPrice item_data in
  let lows := present Point.avgLowPrice item_data in
  (series_statistics item_data = Ok None <-> highs = [] \/ lows = [])
  /\ (series_statistics item_data = Raise ZeroDivisionError
      <-> highs <> [] /\ lows <> []
          /\ (length lows < 20 \/ length highs < 20)%nat)
  /\ ((exists h, series_statistics item_data = Ok (Some h))
      <-> (20 <= length highs /\ 20 <= length lows)%nat)
  /\ (forall e, series_statistics item_data = Raise e
                -> e = ZeroDivisionError).
Proof.
  intros _ highs lows.
  assert (Cases :
    (highs = [] \/ lows = []) /\ series_statistics item_data = Ok None
    \/ (highs <> [] /\ lows <> []
        /\ (length lows < 20 \/ length highs < 20)%nat)
       /\ series_statistics item_data = Raise ZeroDivisionError
    \/ (20 <= length highs /\ 20 <= length lows)%nat
       /\ exists h, series_statistics item_data = Ok (Some h)).
  { destruct (decide (highs = [])) as [Eh|Eh].
    { left. split; [now left|]. unfold series_statistics. fold highs.
      now rewrite (bool_decide_eq_true_2 _ Eh). }
    destruct (decide (lows = [])) as [El|El].
    { left. split; [now right|]. unfold series_statistics. fold lows.
      now rewrite (bool_decide_eq_true_2 _ El), orb_true_r. }
    destruct (decide (length lows < 20 \/ length highs < 20)%nat) as [S|S].
    - right. left. split; [auto|].
      now apply series_statistics_short.
    - right. right. split; [lia|].
      destruct (series_statistics_long item_data) as (h & E & _);
        [rewrite len_sort; unfold Py.len; fold highs; lia
        |rewrite len_sort; unfold Py.len; fold lows; lia|eauto]. }
  assert (Hne : forall l : list Z, (20 <= length l)%nat -> l <> [])
    by (intros l H ->; cbn in H; lia).
  assert (Hlt : forall l : list Z, l = [] -> (length l < 20)%nat)
    by (intros l ->; cbn; lia).
  split; [|split; [|split]].
  - split.
    + intros H. destruct Cases as [[C _]|[[_ E]|[_ [h E]]]];
        [exact C|congruence|congruence].
    + intros H. destruct Cases as [[_ E]|[[(H1 & H2 & _) _]|[[C1 C2] _]]];
        [exact E|tauto|].
      destruct H as [H|H]; apply Hlt in H; lia.
  - split.
    + intros H. destruct Cases as [[_ E]|[[C _]|[_ [h E]]]];
        [congruence|exact C|congruence].
    + intros (H1 & H2 & H3).
      destruct Cases as [[C _]|[[_ E]|[[C1 C2] _]]]; [tauto|exact E|lia].
  - split.
    + intros [h H]. destruct Cases as [[_ E]|[[_ E]|[C _]]];
        [congruence|congruence|exact C].
    + intros [H1 H2].
      destruct Cases as [[C _]|[[(_ & _ & C) _]|[_ E]]]; [|lia|exact E].
      destruct C as [C|C]; apply Hlt in C; lia.
  - intros e H. destruct Cases as [[_ E]|[[_ E]|[_ [h E]]]]; congruence.
Qed.

Lemma series_statistics_outcome_witness :
  Forall point_binary64 Example.twenty
  /\ exists h, series_statistics Example.twenty = Ok (Some h).
Proof.
  assert (H : Forall point_binary64 Example.twenty).
  { apply List.Forall_forall. intros p Hp. apply repeat_spec in Hp. subst p.
    repeat split; cbn; unfold binary64; lia. }
  split; [exact H|].
  apply (proj2 (proj1 (proj2 (proj2
           (series_statistics_outcome Example.twenty H))))).
  split; vm_compute; lia.
Defined.

End SeriesOutcome.

(** ** The shape of the statistics *)

Section StatisticsShape.

Local Open Scope R_scope.

Lemma insert_perm (x : Z) (xs : list Z) : Permutation (Py.insert x xs) (x :: xs).
Proof.
  induction xs as [|y ys IH]; [reflexivity|].
  cbn [Py.insert]. destruct (x <=? y)%Z; [reflexivity|].
  rewrite IH. apply perm_swap.
Qed.

Lemma sort_perm (xs : list Z) : Permutation (Py.sort xs) xs.
Proof.
  induction xs as [|x xs IH]; [reflexivity|].
  cbn [Py.sort fold_right]. fold (Py.sort xs).
  now rewrite insert_perm, IH.
Qed.

Lemma insert_sorted (x : Z) (xs : list Z) :
  StronglySorted Z.le xs -> StronglySorted Z.le (Py.insert x xs).
Proof.
  induction 1 as [|y ys Hs IH Hy].
  - repeat constructor.
  - cbn [Py.insert]. destruct (Z.leb_spec x y) as [C|C].
    + constructor; [now constructor|].
      constructor; [exact C|].
      eapply Forall_impl; [exact Hy|]. intros z Hz. cbn in Hz. lia.
    + constructor; [assumption|].
      rewrite insert_perm. constructor; [lia|assumption].
Qed.

Lemma sort_sorted (xs : list Z) : StronglySorted Z.le (Py.sort xs).
Proof.
  induction xs as [|x xs IH]; [constructor|].
  cbn [Py.sort fold_right]. now apply insert_sorted.
Qed.

Lemma sorted_index_le (xs : list Z) :
  StronglySorted Z.le xs ->
  forall (i j : nat) (a b : Z),
    (i <= j)%nat -> nth_error xs i = Some a -> nth_error xs j = Some b ->
    (a <= b)%Z.
Proof.
  induction 1 as [|x xs _ IH Hx]; intros i j a b Hij Ha Hb.
  - now destruct i.
  - destruct i as [|i], j as [|j]; cbn [nth_error] in *.
    + injection Ha as <-. injection Hb as <-. lia.
    + injection Ha as <-. apply nth_error_In in Hb.
      rewrite List.Forall_forall in Hx. now apply Hx.
    + lia.
    + apply (IH i j); [lia|assumption..].
Qed.

Lemma index_inv {A : Type} (xs : list A) (i : Z) (a : A) :
  Py.index xs i = Ok a -> nth_error xs (Z.to_nat i) = Some a.
Proof.
  unfold Py.index. destruct (nth_error xs (Z.to_nat i)); congruence.
Qed.

Lemma series_statistics_data_points (item_data : list Point.t) (h : Hist.t) :
  series_statistics item_data = Ok (Some h) ->
  Hist.data_points h = Py.len item_data.
Proof.
  unfold series_statistics, Py.bind. intros H.
  repeat match type of H with
         | context [match ?x with _ => _ end] =>
             destruct x eqn:?; try discriminate H
         end;
    injection H as <-; reflexivity.
Qed.

(** X11.  Statistics that are returned are well formed: for the high and
    for the low prices, the 5th percentile is at most the 95th, and both
    are prices of the series; the two deviations are not negative; and
    [data_points] is the number of points of the reply.  A current price
    within a percentile band therefore lies between two prices of the
    series. *)
Theorem statistics_well_formed (item_data : list Point.t) (h : Hist.t) :
  series_statistics item_data = Ok (Some h) ->
  let highs := present Point.avgHighPrice item_data in
  let lows := present Point.avgLowPrice item_data in
  (Hist.high_5th h <= Hist.high_95th h)%Z
  /\ (Hist.low_5th h <= Hist.low_95th h)%Z
  /\ In (Hist.high_5th h) highs /\ In (Hist.high_95th h) highs
  /\ In (Hist.low_5th h) lows /\ In (Hist.low_95th h) lows
  /\ 0 <= Hist.high_std h /\ 0 <= Hist.low_std h
  /\ Hist.data_points h = Py.len item_data.
Proof.
  intros E highs lows.
  pose proof (series_statistics_data_points _ _ E) as Hdp.
  destruct (decide (20 <= length highs /\ 20 <= length lows)%nat)
    as [[Nh Nl]|N].
  2:{ exfalso.
      destruct (decide (highs = [])) as [Eh|Eh].
      { unfold series_statistics in E. fold highs in E.
        rewrite (bool_decide_eq_true_2 _ Eh) in E. discriminate E. }
      destruct (decide (lows = [])) as [El|El].
      { unfold series_statistics in E. fold lows in E.
        rewrite (bool_decide_eq_true_2 _ El), orb_true_r in E.
        discriminate E. }
      rewrite (series_statistics_short item_data Eh El) in E;
        [discriminate E|]. fold highs lows. lia. }
  destruct (series_statistics_long item_data)
    as (h' & E' & _ & _ & Sh & Sl & P1 & P2 & P3 & P4).
  { rewrite len_sort. unfold Py.len. fold highs. lia. }
  { rewrite len_sort. unfold Py.len. fold lows. lia. }
  rewrite E in E'. injection E' as <-.
  fold highs lows in P1, P2, P3, P4.
  apply index_inv in P1, P2, P3, P4.
  assert (Hpos : forall n : Z, (0 <= n)%Z ->
            (Z.to_nat (n * 5 / 100) <= Z.to_nat (n * 95 / 100))%nat).
  { intros n Hn. apply Z2Nat.inj_le;
      [apply Z.div_pos; lia|apply Z.div_pos; lia|].
    apply Z.div_le_mono; lia. }
  assert (Hlen : forall l : list Z, (0 <= Py.len l)%Z)
    by (intros l; unfold Py.len; lia).
  repeat split.
  - exact (sorted_index_le _ (sort_sorted highs) _ _ _ _
             (Hpos _ (Hlen _)) P1 P2).
  - exact (sorted_index_le _ (sort_sorted lows) _ _ _ _
             (Hpos _ (Hlen _)) P3 P4).
  - apply (Permutation_in _ (sort_perm highs)), (nth_error_In _ _ P1).
  - apply (Permutation_in _ (sort_perm highs)), (nth_error_In _ _ P2).
  - apply (Permutation_in _ (sort_perm lows)), (nth_error_In _ _ P3).
  - apply (Permutation_in _ (sort_perm lows)), (nth_error_In _ _ P4).
  - rewrite Sh. apply sqrt_pos.
  - rewrite Sl. apply sqrt_pos.
  - exact Hdp.
Qed.

Lemma statistics_well_formed_witness :
  exists h : Hist.t,
    series_statistics Example.twenty = Ok (Some h)
    /\ (Hist.high_5th h <= Hist.high_95th h)%Z.
Proof.
  destruct example_twenty as (h & E & _). exists h. split; [exact E|].
  exact (proj1 (statistics_well_formed _ _ E)).
Defined.

(** *** What [get_7d_prices] stores *)

(** X12.  When [get_7d_prices] returns, its dictionary holds exactly the
    requested ids whose reply yielded statistics, each with the statistics
    of its own reply: an id that was not requested, whose request failed,
    or whose reply held no data or no usable prices, is absent. *)
Theorem get_7d_prices_stores_requested (timeseries : string -> response)
    (item_ids : list string) (m : gmap string Hist.t) :
  get_7d_prices timeseries item_ids = Ok m ->
  forall item_id : string,
    (item_id ∉ item_ids -> m !! item_id = None)
    /\ (item_id ∈ item_ids ->
        item_statistics (timeseries item_id) = Ok (m !! item_id))
    /\ (timeseries item_id = RequestException
        \/ timeseries item_id = Json None
        \/ timeseries item_id = Json (Some []) ->
        m !! item_id = None).
Proof.
  intros H item_id. unfold get_7d_prices in H.
  pose proof (get_7d_prices_from_lookup _ _ _ _ H item_id) as L.
  rewrite lookup_empty in L.
  assert (Hin : item_id ∈ item_ids ->
                item_statistics (timeseries item_id) = Ok (m !! item_id)).
  { intros Hin. rewrite decide_True in L by assumption.
    unfold history in L.
    destruct (item_statistics (timeseries item_id)) as [found|e] eqn:E.
    - rewrite L. now destruct found.
    - exfalso. clear L.
      pose proof (get_7d_prices_from_raise timeseries item_ids item_id e
                    Hin E ∅) as R. congruence. }
  split; [|split].
  - intros Hn. now rewrite decide_False in L.
  - exact Hin.
  - intros Hr. destruct (decide (item_id ∈ item_ids)) as [Hi|Hi].
    + apply Hin in Hi.
      destruct Hr as [Hr|[Hr|Hr]]; rewrite Hr in Hi; cbn in Hi; congruence.
    + exact L.
Qed.

Lemma get_7d_prices_stores_requested_witness :
  exists m : gmap string Hist.t,
    get_7d_prices (fun _ => RequestException) ["2"] = Ok m
    /\ m !! "2" = None.
Proof.
  exists ∅. assert (H : get_7d_prices (fun _ => RequestException) ["2"]
                        = Ok ∅) by reflexivity.
  split; [exact H|].
  apply (get_7d_prices_stores_requested _ _ _ H "2"). now left.
Defined.

End StatisticsShape.

(** ** Conversion cost and capital buffer *)

Section CostAndBuffer.

Local Open Scope R_scope.

(** X13.  For a price from 0 to [2 ^ 52] the bond conversion cost is the
    floor of a tenth of the price: the integer quotient of the price by
    10, at most a tenth of the price and more than a tenth of it minus 1.
    Up to [2 ^ 52] the product of line 59 is below [2 ^ 49], where
    binary64 is off by less than 0.057 and so leaves the integer part of
    a number of tenths as it is. *)
Theorem bond_conversion_cost_is_floor_of_tenth (price : Z) :
  (0 <= price <= 2 ^ 52)%Z ->
  let cost := _calculate_bond_conversion_cost price in
  cost = Zfloor (IZR price * 0.10)
  /\ cost = (price / 10)%Z
  /\ (10 * cost <= price < 10 * cost + 10)%Z.
Proof.
  intros [H _] cost.
  assert (E : cost = (price / 10)%Z) by now apply bond_cost_quotient.
  split; [|split; [exact E|]].
  - subst cost. unfold _calculate_bond_conversion_cost.
    apply int_nonneg. apply IZR_le in H. lra.
  - rewrite E. pose proof (Z.div_mod price 10 ltac:(lia)).
    pose proof (Z.mod_pos_bound price 10 ltac:(lia)). lia.
Qed.

Lemma bond_conversion_cost_is_floor_of_tenth_witness :
  (0 <= 1000 <= 2 ^ 52)%Z /\ _calculate_bond_conversion_cost 1000 = 100%Z.
Proof.
  split; [lia|].
  destruct (bond_conversion_cost_is_floor_of_tenth 1000 ltac:(lia))
    as (_ & E & _).
  exact E.
Defined.

(** X14.  For a total cost from 0 to [2 ^ 48] the required capital is the
    cost plus a buffer of the floor of a twentieth of it: it is never
    below the cost, and it does not decrease when the cost grows within
    that range, in particular when the buy limit grows at a non-negative
    buy price.  Up to [2 ^ 48] binary64 leaves the integer part of the
    product of line 266 as it is. *)
Theorem required_capital_buffer (buy_price buy_limit ge_tax bond : Z) :
  (0 <= buy_price * buy_limit + ge_tax + bond <= 2 ^ 48)%Z ->
  let total_cost := (buy_price * buy_limit + ge_tax + bond)%Z in
  _calculate_required_capital buy_price buy_limit ge_tax bond
  = (total_cost + total_cost / 20)%Z
  /\ (total_cost
      <= _calculate_required_capital buy_price buy_limit ge_tax bond)%Z
  /\ forall buy_limit' : Z,
       (0 <= buy_price)%Z -> (buy_limit <= buy_limit')%Z ->
       (buy_price * buy_limit' + ge_tax + bond <= 2 ^ 48)%Z ->
       (_calculate_required_capital buy_price buy_limit ge_tax bond
        <= _calculate_required_capital buy_price buy_limit' ge_tax bond)%Z.
Proof.
  intros [H _] total_cost.
  rewrite required_capital_quotient by assumption. fold total_cost.
  assert (E : (total_cost * 21 / 20 = total_cost + total_cost / 20)%Z).
  { replace (total_cost * 21)%Z with (total_cost + total_cost * 20)%Z by lia.
    rewrite Z.div_add by lia. lia. }
  split; [exact E|]. split.
  - rewrite E. assert (0 <= total_cost / 20)%Z by (apply Z.div_pos; lia).
    lia.
  - intros buy_limit' Hp Hl _.
    assert (Hle : (buy_price * buy_limit <= buy_price * buy_limit')%Z)
      by now apply Z.mul_le_mono_nonneg_l.
    rewrite required_capital_quotient by (fold total_cost in H; lia).
    apply Z.div_le_mono; [lia|]. subst total_cost. lia.
Qed.

Lemma required_capital_buffer_witness :
  (0 <= 150 * 3 + 1 + 0 <= 2 ^ 48)%Z
  /\ _calculate_required_capital 150 3 1 0 = (451 + 451 / 20)%Z.
Proof.
  split; [lia|].
  exact (proj1 (required_capital_buffer 150 3 1 0 ltac:(lia))).
Defined.

End CostAndBuffer.

(** ** Loading the item names *)

Section ItemNames.

Lemma load_item_inv (item : Mapping.t) (d m : gmap string Info.t) :
  load_item item d = Ok m ->
  Mapping.reset_time item <> Null
  /\ m = <[Py.str (Mapping.id item) := entry item]> d.
Proof.
  unfold load_item, entry.
  destruct (Mapping.reset_time item); cbn; intros H;
    try discriminate H; injection H as <-; split; congruence.
Qed.

Lemma load_items_app (l1 l2 : list Mapping.t) (d : gmap string Info.t) :
  load_items (l1 ++ l2) d
  = Py.bind (load_items l1 d) (fun d' => load_items l2 d').
Proof.
  revert d. induction l1 as [|item rest IH]; intros d; [reflexivity|].
  cbn [app load_items]. destruct (load_item item d); cbn [Py.bind]; auto.
Qed.

Lemma load_items_other (items : list Mapping.t) :
  forall (d m : gmap string Info.t) (id : Z),
    load_items items d = Ok m ->
    Forall (fun item => Mapping.id item <> id) items ->
    m !! Py.str id = d !! Py.str id.
Proof.
  induction items as [|item rest IH]; intros d m id H Hall.
  - cbn in H. now injection H as <-.
  - cbn [load_items] in H.
    destruct (load_item item d) as [d'|] eqn:E; [|discriminate H].
    cbn [Py.bind] in H. apply load_item_inv in E as [_ ->].
    inversion Hall as [|? ? Hne Hrest]; subst.
    rewrite (IH _ _ _ H Hrest). apply lookup_insert_ne.
    unfold Py.str. intros Heq. apply Hne. now apply (inj pretty).
Qed.

Lemma load_items_keys (items : list Mapping.t) :
  forall (d m : gmap string Info.t) (k : string) (info : Info.t),
    load_items items d = Ok m ->
    m !! k = Some info ->
    d !! k = Some info
    \/ exists item, In item items /\ k = Py.str (Mapping.id item)
                    /\ info = entry item.
Proof.
  induction items as [|item rest IH]; intros d m k info H Hk.
  - cbn in H. injection H as <-. now left.
  - cbn [load_items] in H.
    destruct (load_item item d) as [d'|] eqn:E; [|discriminate H].
    cbn [Py.bind] in H. apply load_item_inv in E as [_ ->].
    destruct (IH _ _ _ _ H Hk) as [Hd|(x & Hx & Hkx & Hix)].
    + destruct (decide (Py.str (Mapping.id item) = k)) as [<-|Ne].
      * rewrite lookup_insert_eq in Hd. injection Hd as <-.
        right. exists item. repeat split. now left.
      * rewrite lookup_insert_ne in Hd by assumption. now left.
    + right. exists x. repeat split; trivial. now right.
Qed.

(** X15.  When [_load_item_names] returns after a successful request, the
    dictionary maps the decimal string of an id to the entry of the last
    item of the reply with that id: its name, its limit ([None] when the
    key is missing or null) and its reset time (14400 when the key is
    missing).  Every key is the string of an id of the reply, and an id
    that does not occur in the reply is absent. *)
Theorem loaded_item_names (items : list Mapping.t)
    (m : gmap string Info.t) :
  _load_item_names (Some items) = Ok m ->
  (forall before item after,
     items = before ++ item :: after ->
     Forall (fun x => Mapping.id x <> Mapping.id item) after ->
     m !! Py.str (Mapping.id item)
     = Some (Info.Build (Mapping.name item) (Py.get (Mapping.limit item))
               (default 14400 (Py.get (Mapping.reset_time item)))))
  /\ (forall id : Z,
        Forall (fun item => Mapping.id item <> id) items ->
        m !! Py.str id = None)
  /\ (forall k info,
        m !! k = Some info ->
        exists item, In item items /\ k = Py.str (Mapping.id item)
                     /\ info = entry item).
Proof.
  cbn [_load_item_names]. intros H. split; [|split].
  - intros before item after -> Hafter.
    rewrite load_items_app in H.
    destruct (load_items before ∅) as [d1|] eqn:E1; [|discriminate H].
    cbn [Py.bind load_items] in H.
    destruct (load_item item d1) as [d2|] eqn:E2; [|discriminate H].
    cbn [Py.bind] in H. apply load_item_inv in E2 as [_ ->].
    rewrite (load_items_other _ _ _ _ H Hafter). apply lookup_insert_eq.
  - intros id Hall. rewrite (load_items_other _ _ _ _ H Hall).
    apply lookup_empty.
  - intros k info Hk.
    destruct (load_items_keys _ _ _ _ _ H Hk) as [Hd|Hx]; [|exact Hx].
    now rewrite lookup_empty in Hd.
Qed.

Lemma loaded_item_names_witness :
  exists m : gmap string Info.t,
    _load_item_names
      (Some [Mapping.Build 2 "Cannonball" (Num 7000) Missing]) = Ok m
    /\ m !! "2" = Some (Info.Build "Cannonball" (Some 7000%Z) 14400).
Proof.
  eexists. split; [reflexivity|].
  refine (proj1 (loaded_item_names
                   [Mapping.Build 2 "Cannonball" (Num 7000) Missing] _
                   eq_refl) [] _ [] eq_refl _).
  constructor.
Defined.

(** X16.  [_load_item_names] returns an empty dictionary when the request
    fails.  On a reply whose reset times are integers that binary64 holds
    it returns a dictionary when no item has a null [reset_time], and
    otherwise raises a [TypeError], from the division of line 43. *)
Theorem load_item_names_outcome (items : list Mapping.t) :
  Forall (fun item => field_binary64 (Mapping.reset_time item)) items ->
  _load_item_names None = Ok ∅
  /\ (Forall (fun item => Mapping.reset_time item <> Null) items
      <-> exists m, _load_item_names (Some items) = Ok m)
  /\ (Exists (fun item => Mapping.reset_time item = Null) items
      <-> _load_item_names (Some items) = Raise TypeError).
Proof.
  intros _. split; [reflexivity|]. cbn [_load_item_names].
  assert (Cases : forall d,
            Forall (fun item => Mapping.reset_time item <> Null) items
            /\ (exists m, load_items items d = Ok m)
            \/ Exists (fun item => Mapping.reset_time item = Null) items
               /\ load_items items d = Raise TypeError).
  { induction items as [|item rest IH]; intros d.
    - left. split; [constructor|cbn; eauto].
    - cbn [load_items]. unfold load_item.
      destruct (Mapping.reset_time item) eqn:Er; cbn [Py.get_or Py.bind].
      + destruct (IH (<[Py.str (Mapping.id item) :=
                         Info.Build (Mapping.name item)
                           (Py.get (Mapping.limit item)) 14400]> d))
          as [[F E]|[X E]].
        * left. split; [constructor; [congruence|exact F]|exact E].
        * right. split; [now right|exact E].
      + right. split; [now left|reflexivity].
      + destruct (IH (<[Py.str (Mapping.id item) :=
                         Info.Build (Mapping.name item)
                           (Py.get (Mapping.limit item)) z]> d))
          as [[F E]|[X E]].
        * left. split; [constructor; [congruence|exact F]|exact E].
        * right. split; [now right|exact E]. }
  assert (Excl : Forall (fun item => Mapping.reset_time item <> Null) items ->
                 Exists (fun item => Mapping.reset_time item = Null) items ->
                 False).
  { intros F X. apply List.Exists_exists in X as (x & Hx & Hn).
    rewrite List.Forall_forall in F. now apply (F x). }
  split; split.
  - intros F. destruct (Cases ∅) as [[_ E]|[X _]]; [exact E|].
    now destruct (Excl F X).
  - intros [m E]. destruct (Cases ∅) as [[F _]|[_ E']]; [exact F|].
    congruence.
  - intros X. destruct (Cases ∅) as [[F _]|[_ E]]; [|exact E].
    now destruct (Excl F X).
  - intros E. destruct (Cases ∅) as [[_ [m E']]|[X _]]; [|exact X].
    congruence.
Qed.

Lemma load_item_names_outcome_witness :
  Forall (fun item => field_binary64 (Mapping.reset_time item))
         [Mapping.Build 2 "Cannonball" (Num 7000) Null]
  /\ _load_item_names (Some [Mapping.Build 2 "Cannonball" (Num 7000) Null])
     = Raise TypeError.
Proof.
  assert (H : Forall (fun item => field_binary64 (Mapping.reset_time item))
                     [Mapping.Build 2 "Cannonball" (Num 7000) Null])
    by (repeat constructor).
  split; [exact H|].
  apply (proj1 (proj2 (proj2 (load_item_names_outcome _ H)))).
  now left.
Defined.

End ItemNames.

(** ** The files of [save_opportunities] *)

Section SavedFiles.

Lemma insert_by_margin_perm (o : Opp.t) (l : list Opp.t) :
  Permutation (insert_by_margin o l) (o :: l).
Proof.
  induction l as [|x rest IH]; [reflexivity|].
  cbn [insert_by_margin]. destruct (_ <? _)%Z; [|reflexivity].
  rewrite IH. apply perm_swap.
Qed.

Lemma sort_by_margin_perm (l : list Opp.t) : Permutation (sort_by_margin l) l.
Proof.
  induction l as [|o rest IH]; [reflexivity|].
  cbn [sort_by_margin fold_right]. fold (sort_by_margin rest).
  now rewrite insert_by_margin_perm, IH.
Qed.

Lemma insert_by_margin_sorted (o : Opp.t) (l : list Opp.t) :
  StronglySorted ascending l -> StronglySorted ascending (insert_by_margin o l).
Proof.
  induction 1 as [|x rest Hs IH Hx].
  - repeat constructor.
  - cbn [insert_by_margin]. destruct (Z.ltb_spec (Opp.margin x) (Opp.margin o)).
    + constructor; [assumption|].
      rewrite insert_by_margin_perm. constructor; [|assumption].
      unfold ascending. lia.
    + constructor; [now constructor|].
      constructor; [exact H|].
      eapply Forall_impl; [exact Hx|]. unfold ascending. intros y Hy. lia.
Qed.

Lemma sort_by_margin_sorted (l : list Opp.t) :
  StronglySorted ascending (sort_by_margin l).
Proof.
  induction l as [|o rest IH]; [constructor|].
  cbn [sort_by_margin fold_right]. now apply insert_by_margin_sorted.
Qed.

Lemma insert_by_margin_ties (m : Z) (o : Opp.t) (l : list Opp.t) :
  List.filter (fun x => Opp.margin x =? m)%Z (insert_by_margin o l)
  = List.filter (fun x => Opp.margin x =? m)%Z (o :: l).
Proof.
  induction l as [|x rest IH]; [reflexivity|].
  cbn [insert_by_margin].
  destruct (Z.ltb_spec (Opp.margin x) (Opp.margin o)); [|reflexivity].
  cbn [List.filter] in *. rewrite IH.
  destruct (Z.eqb_spec (Opp.margin o) m), (Z.eqb_spec (Opp.margin x) m);
    try reflexivity. lia.
Qed.

(** The four ranges split the opportunities with a non-negative margin. *)
Lemma ranges_partition (l : list Opp.t) :
  Permutation
    (List.filter (in_range 0 (Some 100000)) l
     ++ List.filter (in_range 100000 (Some 500000)) l
     ++ List.filter (in_range 500000 (Some 1000000)) l
     ++ List.filter (in_range 1000000 None) l)
    (List.filter (fun o => 0 <=? Opp.margin o)%Z l).
Proof.
  induction l as [|o rest IH]; [reflexivity|].
  cbn [List.filter].
  destruct (in_range 0 (Some 100000) o) eqn:E1,
           (in_range 100000 (Some 500000) o) eqn:E2,
           (in_range 500000 (Some 1000000) o) eqn:E3,
           (in_range 1000000 None o) eqn:E4,
           (0 <=? Opp.margin o)%Z eqn:E5;
    unfold in_range in E1, E2, E3, E4;
    rewrite ?andb_true_iff, ?andb_false_iff, ?Z.leb_le, ?Z.ltb_lt,
      ?Z.leb_gt, ?Z.ltb_ge in E1, E2, E3, E4, E5;
    try lia; cbn [andb app].
  - apply perm_skip, IH.
  - rewrite <- Permutation_middle. apply perm_skip, IH.
  - rewrite app_assoc, <- Permutation_middle, <- app_assoc.
    apply perm_skip, IH.
  - rewrite !app_assoc, <- Permutation_middle, <- !app_assoc.
    apply perm_skip, IH.
  - exact IH.
Qed.

Lemma range_opportunities_in (lo : Z) (hi : option Z) (l : list Opp.t)
    (o : Opp.t) :
  In o (range_opportunities lo hi l) <-> In o l /\ in_range lo hi o = true.
Proof.
  unfold range_opportunities. rewrite <- List.filter_In. split.
  - apply Permutation_in, sort_by_margin_perm.
  - apply Permutation_in. symmetry. apply sort_by_margin_perm.
Qed.

Lemma range_opportunities_sorted (lo : Z) (hi : option Z) (l : list Opp.t) :
  sorted_by_margin (List.filter (in_range lo hi) l)
                   (range_opportunities lo hi l).
Proof.
  unfold range_opportunities. split; [apply sort_by_margin_sorted|].
  intros m.
  induction (List.filter (in_range lo hi) l) as [|o rest IH]; [reflexivity|].
  cbn [sort_by_margin fold_right]. fold (sort_by_margin rest).
  rewrite insert_by_margin_ties. cbn [List.filter]. now rewrite IH.
Qed.

Lemma in_range_nonneg (lo : Z) (hi : option Z) (name : string) (o : Opp.t) :
  In (lo, hi, name) profit_ranges -> in_range lo hi o = true ->
  (0 <= Opp.margin o)%Z.
Proof.
  unfold in_range. intros Hr H. apply andb_true_iff in H as [H _].
  apply Z.leb_le in H.
  cbn in Hr. repeat destruct Hr as [Hr|Hr]; try easy;
    injection Hr as <- <- <-; lia.
Qed.

Lemma volumes_per_period_ok (o : Opp.t) :
  Opp.reset_time o <> 0%Z -> exists v, volumes_per_period o = Ok v.
Proof.
  intros H. unfold volumes_per_period.
  assert (Hr : IZR (Opp.reset_time o) <> 0%R) by now apply not_0_IZR.
  rewrite truediv_ok by exact Hr. cbn [Py.bind].
  assert (Hp : (86400 / IZR (Opp.reset_time o))%R <> 0%R).
  { unfold Rdiv. apply Rmult_integral_contrapositive_currified;
      [lra|now apply Rinv_neq_0_compat]. }
  rewrite !truediv_ok by exact Hp. cbn [Py.bind]. eauto.
Qed.

Lemma volumes_per_period_inv (o : Opp.t) (v : R * R) :
  volumes_per_period o = Ok v -> Opp.reset_time o <> 0%Z.
Proof.
  unfold volumes_per_period. intros H Hz. rewrite Hz, truediv_zero in H.
  discriminate H.
Qed.

(** The entries of an open file are all written exactly when each
    opportunity is writable. *)
Lemma write_entries_whole (l : list Opp.t) :
  Forall writable l -> write_entries l = (map Written.Whole l, None).
Proof.
  induction 1 as [|o rest [Hr Hs] _ IH]; [reflexivity|].
  cbn [write_entries map].
  destruct (volumes_per_period_ok o Hr) as [v ->].
  destruct (Opp.score o); [|congruence]. now rewrite IH.
Qed.

Lemma write_entries_inv (l : list Opp.t) (entries : list Written.t) :
  write_entries l = (entries, None) -> Forall writable l.
Proof.
  revert entries. induction l as [|o rest IH]; intros entries H;
    [constructor|].
  cbn [write_entries] in H.
  destruct (volumes_per_period o) as [v|] eqn:Ev; [|discriminate H].
  destruct (Opp.score o) as [s|] eqn:Es; [|discriminate H].
  destruct (write_entries rest) as [w [e|]]; [discriminate H|].
  constructor; [|now apply (IH w)].
  split; [now apply (volumes_per_period_inv o v)|congruence].
Qed.

Lemma range_writable (lo : Z) (hi : option Z) (name : string)
    (l : list Opp.t) :
  In (lo, hi, name) profit_ranges ->
  Forall (fun o => (0 <= Opp.margin o)%Z -> writable o) l ->
  Forall writable (range_opportunities lo hi l).
Proof.
  intros Hr Hall. apply List.Forall_forall. intros o Ho.
  apply range_opportunities_in in Ho as [Ho Hin].
  rewrite List.Forall_forall in Hall. apply (Hall o Ho).
  now apply (in_range_nonneg lo hi name).
Qed.

(** When every opportunity of a range is writable, the four files are
    written whole. *)
Lemma save_opportunities_whole (l : list Opp.t) :
  Forall (fun o => (0 <= Opp.margin o)%Z -> writable o) l ->
  save_opportunities l
  = ([ ("flipping_opportunities_0-100k.txt",
        map Written.Whole (range_opportunities 0 (Some 100000) l));
       ("flipping_opportunities_100k-500k.txt",
        map Written.Whole (range_opportunities 100000 (Some 500000) l));
       ("flipping_opportunities_500k-1m.txt",
        map Written.Whole (range_opportunities 500000 (Some 1000000) l));
       ("flipping_opportunities_1m+.txt",
        map Written.Whole (range_opportunities 1000000 None l)) ],
     None).
Proof.
  intros H. unfold save_opportunities, profit_ranges. cbn [write_files].
  rewrite (write_entries_whole _ (range_writable 0 (Some 100000) "0-100k"
             l ltac:(cbn; tauto) H)).
  rewrite (write_entries_whole _ (range_writable 100000 (Some 500000)
             "100k-500k" l ltac:(cbn; tauto) H)).
  rewrite (write_entries_whole _ (range_writable 500000 (Some 1000000)
             "500k-1m" l ltac:(cbn; tauto) H)).
  rewrite (write_entries_whole _ (range_writable 1000000 None "1m+"
             l ltac:(cbn; tauto) H)).
  reflexivity.
Qed.

Lemma ranges_cover (l : list Opp.t) :
  Permutation
    (range_opportunities 0 (Some 100000) l
     ++ range_opportunities 100000 (Some 500000) l
     ++ range_opportunities 500000 (Some 1000000) l
     ++ range_opportunities 1000000 None l)
    (List.filter (fun o => 0 <=? Opp.margin o)%Z l).
Proof.
  unfold range_opportunities. rewrite !sort_by_margin_perm.
  apply ranges_partition.
Qed.

(** X17.  When every opportunity with a non-negative margin has a
    non-zero reset time and a score, and its reset time and volumes are
    integers that binary64 holds, [save_opportunities] raises nothing
    and writes four files, always with the same names and in the same
    order, each entry whole.  A file holds the opportunities whose margin
    lies in its range, in order of non-decreasing margin, those of equal
    margin in the order of the input.  An opportunity with a non-negative
    margin is written to exactly one file, one with a negative margin to
    none. *)
Theorem saved_files (opportunities : list Opp.t) :
  Forall (fun o => (0 <= Opp.margin o)%Z -> entry_binary64 o) opportunities ->
  Forall (fun o => (0 <= Opp.margin o)%Z ->
                   Opp.reset_time o <> 0%Z /\ Opp.score o <> None)
         opportunities ->
  exists f1 f2 f3 f4 : list Opp.t,
    save_opportunities opportunities
    = ([ ("flipping_opportunities_0-100k.txt", map Written.Whole f1);
         ("flipping_opportunities_100k-500k.txt", map Written.Whole f2);
         ("flipping_opportunities_500k-1m.txt", map Written.Whole f3);
         ("flipping_opportunities_1m+.txt", map Written.Whole f4) ],
       None)
    /\ sorted_by_margin
         (List.filter (fun o => (0 <=? Opp.margin o)
                                && (Opp.margin o <? 100000))%Z
                      opportunities) f1
    /\ sorted_by_margin
         (List.filter (fun o => (100000 <=? Opp.margin o)
                                && (Opp.margin o <? 500000))%Z
                      opportunities) f2
    /\ sorted_by_margin
         (List.filter (fun o => (500000 <=? Opp.margin o)
                                && (Opp.margin o <? 1000000))%Z
                      opportunities) f3
    /\ sorted_by_margin
         (List.filter (fun o => (1000000 <=? Opp.margin o))%Z
                      opportunities) f4
    /\ Permutation (f1 ++ f2 ++ f3 ++ f4)
         (List.filter (fun o => 0 <=? Opp.margin o)%Z opportunities).
Proof.
  intros _ H.
  exists (range_opportunities 0 (Some 100000) opportunities),
         (range_opportunities 100000 (Some 500000) opportunities),
         (range_opportunities 500000 (Some 1000000) opportunities),
         (range_opportunities 1000000 None opportunities).
  split; [now apply save_opportunities_whole|].
  assert (Hlast : forall o : Opp.t,
            in_range 1000000 None o = (1000000 <=? Opp.margin o)%Z)
    by (intros o; apply andb_true_r).
  split; [apply range_opportunities_sorted|].
  split; [apply range_opportunities_sorted|].
  split; [apply range_opportunities_sorted|].
  split; [|apply ranges_cover].
  rewrite <- (List.filter_ext _ _ Hlast).
  apply range_opportunities_sorted.
Qed.

Lemma saved_files_witness :
  exists f1 f2 f3 f4 : list Opp.t,
    save_opportunities [Example.opportunity]
    = ([ ("flipping_opportunities_0-100k.txt", map Written.Whole f1);
         ("flipping_opportunities_100k-500k.txt", map Written.Whole f2);
         ("flipping_opportunities_500k-1m.txt", map Written.Whole f3);
         ("flipping_opportunities_1m+.txt", map Written.Whole f4) ],
       None)
    /\ Permutation (f1 ++ f2 ++ f3 ++ f4) [Example.opportunity].
Proof.
  destruct (saved_files [Example.opportunity])
    as (f1 & f2 & f3 & f4 & E & _ & _ & _ & _ & P).
  { repeat constructor; cbn; unfold binary64; lia. }
  { repeat constructor; cbn; [lia|discriminate]. }
  exists f1, f2, f3, f4. split; [exact E|exact P].
Defined.

Lemma write_entries_stop (l : list Opp.t) (entries : list Written.t)
    (e : Written.exn) :
  write_entries l = (entries, Some e) -> Exists (raised_by e) l.
Proof.
  revert entries. induction l as [|o rest IH]; intros entries H;
    [discriminate H|].
  cbn [write_entries] in H.
  destruct (volumes_per_period o) as [v|x] eqn:Ev.
  - destruct (Opp.score o) as [s|] eqn:Es.
    + destruct (write_entries rest) as [w [e'|]]; [|discriminate H].
      injection H as _ <-. right. now apply (IH w).
    + injection H as _ <-. now left.
  - injection H as _ <-. left. cbn [raised_by].
    destruct (Z.eq_dec (Opp.reset_time o) 0) as [Hz|Hz]; [exact Hz|].
    destruct (volumes_per_period_ok o Hz) as [v Hv]. congruence.
Qed.

Lemma write_files_outcome (ranges : list (Z * option Z * string))
    (l : list Opp.t) :
  forall (files : list (string * list Written.t)) (e : option Written.exn),
    write_files ranges l = (files, e) ->
    (e = None ->
     forall lo hi name, In (lo, hi, name) ranges ->
                        Forall writable (range_opportunities lo hi l))
    /\ (forall x, e = Some x ->
          exists lo hi name,
            In (lo, hi, name) ranges
            /\ Exists (raised_by x) (range_opportunities lo hi l))
    /\ (length files <= length ranges)%nat
    /\ (ranges <> [] -> (1 <= length files)%nat)
    /\ map fst files
       = take (length files)
           (map (fun r => "flipping_opportunities_" +:+ r.2 +:+ ".txt")
                ranges).
Proof.
  induction ranges as [|[[lo hi] name] rest IH]; intros files e H.
  - cbn in H. injection H as <- <-. cbn.
    repeat split; try easy; lia.
  - cbn [write_files] in H.
    destruct (write_entries (range_opportunities lo hi l)) as [w [x|]] eqn:Ew.
    + injection H as <- <-. split; [discriminate|].
      split; [|cbn; repeat split; lia].
      intros ? [= <-]. exists lo, hi, name.
      split; [now left|now apply (write_entries_stop _ w)].
    + destruct (write_files rest l) as [files' e'] eqn:Er.
      injection H as <- <-.
      destruct (IH files' e' eq_refl) as (I1 & I2 & I3 & _ & I5).
      split; [|split; [|split; [|split]]].
      * intros He lo' hi' name' [[= <- <- <-]|Hin].
        -- now apply (write_entries_inv _ w).
        -- now apply (I1 He lo' hi' name').
      * intros x Hx. destruct (I2 x Hx) as (lo' & hi' & name' & Hin & Hex).
        exists lo', hi', name'. split; [now right|exact Hex].
      * cbn [length]. lia.
      * cbn [length]. lia.
      * cbn [map length take fst snd]. now rewrite I5.
Qed.

Lemma nonneg_in_range (o : Opp.t) :
  (0 <= Opp.margin o)%Z ->
  exists lo hi name,
    In (lo, hi, name) profit_ranges /\ in_range lo hi o = true.
Proof.
  intros H. unfold profit_ranges, in_range.
  destruct (Z.lt_ge_cases (Opp.margin o) 100000);
    [|destruct (Z.lt_ge_cases (Opp.margin o) 500000);
      [|destruct (Z.lt_ge_cases (Opp.margin o) 1000000)]].
  - exists 0%Z, (Some 100000%Z), "0-100k".
    split; [cbn; tauto|]. apply andb_true_iff. split; lia.
  - exists 100000%Z, (Some 500000%Z), "100k-500k".
    split; [cbn; tauto|]. apply andb_true_iff. split; lia.
  - exists 500000%Z, (Some 1000000%Z), "500k-1m".
    split; [cbn; tauto|]. apply andb_true_iff. split; lia.
  - exists 1000000%Z, None, "1m+".
    split; [cbn; tauto|]. apply andb_true_iff. split; [lia|reflexivity].
Qed.

(** X18.  On opportunities whose reset time and volumes, at a
    non-negative margin, are integers that binary64 holds,
    [save_opportunities] raises exactly when some opportunity with a
    non-negative margin has a reset time of 0 or no score; one with a
    negative margin is never looked at.  A [ZeroDivisionError] comes from
    a reset time of 0 and a [KeyError] from a missing score.  Whatever the
    outcome, the first file is created, at most four are, and the files
    created are the first of the four names, in order. *)
Theorem save_opportunities_outcome (opportunities : list Opp.t) :
  Forall (fun o => (0 <= Opp.margin o)%Z -> entry_binary64 o) opportunities ->
  (snd (save_opportunities opportunities) = None
   <-> Forall (fun o => (0 <= Opp.margin o)%Z ->
                        Opp.reset_time o <> 0%Z /\ Opp.score o <> None)
              opportunities)
  /\ (snd (save_opportunities opportunities)
      = Some Written.ZeroDivisionError ->
      Exists (fun o => (0 <= Opp.margin o)%Z /\ Opp.reset_time o = 0%Z)
             opportunities)
  /\ (snd (save_opportunities opportunities) = Some Written.KeyError ->
      Exists (fun o => (0 <= Opp.margin o)%Z /\ Opp.score o = None)
             opportunities)
  /\ (1 <= length (fst (save_opportunities opportunities)) <= 4)%nat
  /\ map fst (fst (save_opportunities opportunities))
     = take (length (fst (save_opportunities opportunities)))
         [ "flipping_opportunities_0-100k.txt";
           "flipping_opportunities_100k-500k.txt";
           "flipping_opportunities_500k-1m.txt";
           "flipping_opportunities_1m+.txt" ].
Proof.
  intros _. unfold save_opportunities.
  destruct (write_files profit_ranges opportunities) as [files e] eqn:E.
  destruct (write_files_outcome _ _ _ _ E) as (O1 & O2 & O3 & O4 & O5).
  cbn [fst snd].
  assert (Hstop : forall x, e = Some x ->
            Exists (fun o => (0 <= Opp.margin o)%Z /\ raised_by x o)
                   opportunities).
  { intros x Hx. destruct (O2 x Hx) as (lo & hi & name & Hin & Hex).
    apply List.Exists_exists in Hex as (o & Ho & Hbad).
    apply range_opportunities_in in Ho as [Ho Hr].
    apply List.Exists_exists. exists o. repeat split; trivial.
    now apply (in_range_nonneg lo hi name). }
  split; [split|split; [|split; [|split]]].
  - intros He. apply List.Forall_forall. intros o Ho Hm.
    destruct (nonneg_in_range o Hm) as (lo & hi & name & Hin & Hr).
    specialize (O1 He lo hi name Hin). rewrite List.Forall_forall in O1.
    apply O1. apply range_opportunities_in. now split.
  - intros Hall. destruct e as [x|]; [exfalso|reflexivity].
    specialize (Hstop x eq_refl).
    apply List.Exists_exists in Hstop as (o & Ho & Hm & Hbad).
    rewrite List.Forall_forall in Hall.
    destruct (Hall o Ho Hm) as [Hr Hs]. destruct x; cbn in Hbad; congruence.
  - intros He. exact (Hstop _ He).
  - intros He. exact (Hstop _ He).
  - split; [apply O4; discriminate|exact O3].
  - exact O5.
Qed.

Lemma save_opportunities_outcome_witness :
  Forall (fun o => (0 <= Opp.margin o)%Z -> entry_binary64 o)
         [Example.opportunity]
  /\ snd (save_opportunities [Example.opportunity]) = None.
Proof.
  assert (H : Forall (fun o => (0 <= Opp.margin o)%Z -> entry_binary64 o)
                     [Example.opportunity])
    by (repeat constructor; cbn; unfold binary64; lia).
  split; [exact H|].
  apply (proj1 (save_opportunities_outcome [Example.opportunity] H)).
  repeat constructor; cbn; [lia|discriminate].
Defined.

End SavedFiles.

(** ** Saving what the analysis returns *)

Section SavedAnalysis.

Local Open Scope R_scope.

(** A score other than 0 comes with a profit per trade of at least 100. *)
Lemma score_nonzero_profit (margin_percentage : R)
    (high_volume low_volume price buy_limit reset_time : Z) (score : R) :
  _calculate_opportunity_score margin_percentage high_volume low_volume
    price buy_limit reset_time = Ok score ->
  score <> 0 ->
  100 <= IZR price * (margin_percentage / 100).
Proof.
  unfold _calculate_opportunity_score. intros H Hs.
  destruct (Py.ltb (IZR price * (margin_percentage / 100)) 100) eqn:E.
  - injection H as <-. now destruct Hs.
  - now apply ltb_false in E.
Qed.

Lemma first_pass_item_saveable
    (daily_prices : gmap string Point.t) (item_names : gmap string Info.t)
    (min_volume : Z) (min_margin : R) (available_cash : option Z)
    (item_id : string) (data : Latest.t) (o : Opp.t) :
  first_pass_item daily_prices item_names min_volume min_margin
    available_cash item_id data = Ok (append o) ->
  Opp.reset_time o <> 0%Z /\ (0 < Opp.margin o)%Z.
Proof.
  unfold first_pass_item. intros H.
  destruct (daily_prices !! item_id) as [daily_data|]; [|discriminate H].
  destruct (Py.get0 (Latest.high data)) as [current_high|];
    [|discriminate H].
  destruct (Py.get0 (Latest.low data)) as [current_low|];
    [|discriminate H].
  destruct ((current_high <=? 0)%Z || (current_low <=? 0)%Z) eqn:Hpos;
    [discriminate H|].
  apply orb_false_elim in Hpos as [Hh Hl].
  apply Z.leb_gt in Hh, Hl.
  unfold Py.bind in H.
  repeat match type of H with
         | context [match ?x with _ => _ end] =>
             destruct x eqn:?; try discriminate H
         end;
    injection H as <-; cbn [Opp.reset_time Opp.margin];
    repeat match goal with
           | E : Py.truediv _ _ = Ok _ |- _ =>
               apply truediv_inv in E as [? ->]
           | E : Py.eqb _ _ = false |- _ => apply eqb_false in E
           end;
    match goal with
    | E : _calculate_opportunity_score _ _ _ _ _ _ = Ok _, N : _ <> 0 |- _ =>
        pose proof (score_nonzero_profit _ _ _ _ _ _ _ E N) as Hp
    end;
    (split; [intros Hz; rewrite Hz in *; congruence|]);
    match type of Hp with
    | 100 <= IZR ?p * (IZR ?m / IZR ?l * 100 / 100) =>
        apply lt_IZR;
        assert (Pp : 0 < IZR p) by (now apply IZR_lt);
        assert (Pl : 0 < IZR l) by (now apply IZR_lt);
        destruct (Rle_or_lt (IZR m) 0) as [Hm|Hm]; [exfalso|exact Hm];
        assert (Hi : 0 < / IZR l) by (apply Rinv_0_lt_compat, Pl);
        assert (Hq : IZR m / IZR l <= 0) by (unfold Rdiv; nra);
        set (q := IZR m / IZR l) in *; clearbody q; nra
    end.
Qed.

Lemma first_pass_saveable
    (daily_prices : gmap string Point.t) (item_names : gmap string Info.t)
    (min_volume : Z) (min_margin : R) (available_cash : option Z)
    (items : list (string * Latest.t)) :
  forall (st st' : list Opp.t * Counters.t),
    first_pass daily_prices item_names min_volume min_margin available_cash
      items st = Ok st' ->
    Forall (fun o => Opp.reset_time o <> 0%Z /\ (0 < Opp.margin o)%Z) st.1 ->
    Forall (fun o => Opp.reset_time o <> 0%Z /\ (0 < Opp.margin o)%Z) st'.1.
Proof.
  induction items as [|[item_id data] rest IH]; intros st st' H Hst.
  - cbn in H. now injection H as <-.
  - cbn [first_pass] in H.
    destruct (first_pass_item _ _ _ _ _ item_id data) as [v|e] eqn:E;
      [|discriminate H].
    cbn [Py.bind] in H. apply IH in H; [exact H|].
    destruct st as [opps c], c.
    destruct v; cbn [record_verdict fst] in *; try assumption.
    apply Forall_app. split; [assumption|].
    constructor; [|constructor]. now apply first_pass_item_saveable in E.
Qed.

(** X19.  Saving what the analysis returns never raises: the four files
    are written whole, and every returned opportunity has its entry in
    exactly one of them. *)
Theorem analysis_is_saved_whole (w : World.t) (min_volume : Z)
    (min_margin : R) (available_cash : option Z) (report : Report.t) :
  analyze_flipping_opportunities w min_volume min_margin available_cash
  = Ok report ->
  exists f1 f2 f3 f4 : list Opp.t,
    save_opportunities (Report.opportunities report)
    = ([ ("flipping_opportunities_0-100k.txt", map Written.Whole f1);
         ("flipping_opportunities_100k-500k.txt", map Written.Whole f2);
         ("flipping_opportunities_500k-1m.txt", map Written.Whole f3);
         ("flipping_opportunities_1m+.txt", map Written.Whole f4) ],
       None)
    /\ Permutation (f1 ++ f2 ++ f3 ++ f4) (Report.opportunities report).
Proof.
  intros H. unfold analyze_flipping_opportunities in H.
  destruct (ranked_opportunities w min_volume min_margin available_cash)
    as [[ranked counters]|e] eqn:Hr; [|discriminate H].
  cbn [Py.bind] in H.
  destruct (consistency_rounds (World.timeseries w) ranked) as [st|e] eqn:Hc;
    [|discriminate H].
  cbn [Py.bind] in H.
  destruct (normalize (Rounds.filtered_opportunities st)) as [fo|e] eqn:Hn;
    [|discriminate H].
  cbn [Py.bind] in H. injection H as <-. cbn [Report.opportunities].
  apply consistency_rounds_final in Hc as [Hf _].
  apply normalize_each in Hn as [m F]. rewrite Hf in F. clear Hf st.
  assert (Hranked : Forall (fun o => Opp.reset_time o <> 0%Z
                                     /\ (0 < Opp.margin o)%Z) ranked).
  { unfold ranked_opportunities in Hr.
    destruct (first_pass _ _ _ _ _ _ _) as [[opps c]|e] eqn:Hp;
      [|discriminate Hr].
    cbn [Py.bind] in Hr. injection Hr as <- <-.
    apply first_pass_saveable in Hp; [|constructor]. cbn [fst] in Hp.
    apply List.Forall_forall. intros o Ho.
    apply (Permutation_in _ (sort_by_score_perm opps)) in Ho.
    rewrite List.Forall_forall in Hp. now apply Hp. }
  assert (Hfo : Forall (fun o => writable o /\ (0 < Opp.margin o)%Z) fo).
  { apply Forall2_fmap_l in F.
    assert (Hpass : Forall (fun o => Opp.reset_time o <> 0%Z
                                     /\ (0 < Opp.margin o)%Z)
                      (take 20 (List.filter (consistent (World.timeseries w))
                                  ranked))).
    { apply List.Forall_forall. intros o Ho.
      apply (sublist_In _ _ _ (sublist_take _ _)) in Ho.
      apply List.filter_In in Ho as [Ho _].
      rewrite List.Forall_forall in Hranked. now apply Hranked. }
    clear Hranked Hr.
    induction F as [|o o' l l' -> _ IH]; [constructor|].
    inversion Hpass as [|? ? [Hreset Hmargin] Hrest]; subst.
    constructor; [|now apply IH].
    unfold writable, enriched.
    destruct (history (World.timeseries w) (Opp.item_id o)); cbn;
      repeat split; trivial; discriminate. }
  exists (range_opportunities 0 (Some 100000%Z) fo),
         (range_opportunities 100000 (Some 500000%Z) fo),
         (range_opportunities 500000 (Some 1000000%Z) fo),
         (range_opportunities 1000000 None fo).
  split.
  - apply save_opportunities_whole.
    eapply Forall_impl; [exact Hfo|]. now intros o [Hw _] _.
  - rewrite ranges_cover.
    replace (List.filter (fun o => (0 <=? Opp.margin o)%Z) fo) with fo;
      [reflexivity|].
    clear F. induction Hfo as [|o rest [_ Hm] _ IH]; [reflexivity|].
    cbn [List.filter].
    destruct (Z.leb_spec 0 (Opp.margin o)); [now rewrite <- IH|lia].
Qed.

Lemma analysis_is_saved_whole_witness :
  exists (report : Report.t) (f1 f2 f3 f4 : list Opp.t),
    analyze_flipping_opportunities
      (Example.world (Json (Some Example.twenty))) 100 0.5 None
    = Ok report
    /\ Permutation (f1 ++ f2 ++ f3 ++ f4) (Report.opportunities report).
Proof.
  destruct example_accepted as (report & Ha & _).
  destruct (analysis_is_saved_whole _ _ _ _ report Ha)
    as (f1 & f2 & f3 & f4 & _ & P).
  exists report, f1, f2, f3, f4. split; assumption.
Defined.

End SavedAnalysis.
